(** * Study-material backend: hosting-account token lifecycle and the
      processing route

    A shallow embedding of [src/index.js] (the [backend_process_material.js]
    part: [selectDropboxAccount], [testDropboxToken],
    [refreshDropboxAccessToken], [ensureAccessToken], [getDropboxTokenFromDB],
    [incrementDropboxBytesUsed], [downloadFromSupabase] and the
    [POST /process-material/:id] handler) and of [createSharedLinkDirect]
    from the Dropbox helper library.

    The relational store, the blob storage and the hosting provider are
    collaborators of the program.  Their answers are given by an environment
    of oracles, each a function of the history of calls made so far, so that
    any sequence of successes and failures can be described.  The program is
    written in a state-and-exception monad over a world made of the store's
    tables, the storage bucket and that history.  Console output is not
    modelled.

    A second part adds the admin gate [verifyAdmin], the
    [POST /reject-material/:id] route, the test server ([POST /test-upload])
    and the rest of the helper library ([pickDropboxToken],
    [uploadBufferToDropbox], the store client of [src/lib/supabase.js]), in a
    monad of the same kind over a state that extends the world. *)

From Stdlib Require Import String Ascii List ZArith QArith Bool Lia.
From Stdlib Require Import DecimalString.
Import ListNotations.
Local Open Scope list_scope.
Local Open Scope string_scope.

(** ** JavaScript values used by the program *)

Module Js.

(** A string-valued property of a row or of [process.env]: [None] stands for
    [null] / [undefined]. *)
Definition Str := option string.

(** Truthiness of such a value: [null] and the empty string are falsy. *)
Definition truthy (v : Str) : bool :=
  match v with
  | Some s => negb (s =? "")
  | None => false
  end.

(** [a || b] *)
Definition or (a b : Str) : Str := if truthy a then a else b.

(** How a value reads inside a template literal or a [+] concatenation. *)
Definition show (v : Str) : string :=
  match v with
  | Some s => s
  | None => "null"
  end.

Fixpoint drop (n : nat) (s : string) : string :=
  match n, s with
  | O, _ => s
  | S n', String _ s' => drop n' s'
  | S _, EmptyString => EmptyString
  end.

(** [s.replace(pat, rep)] with a string pattern: the first occurrence of
    [pat] is replaced, the rest of [s] is kept.  (The replacement strings of
    the program contain no [$], so no replacement pattern applies.) *)
Fixpoint replace (pat rep s : string) : string :=
  if String.prefix pat s then rep ++ drop (String.length pat) s
  else match s with
       | EmptyString => EmptyString
       | String c s' => String c (replace pat rep s')
       end.

(** [s.split('/').pop()]: what follows the last ['/'], the whole of [s] when
    it has none. *)
Fixpoint split_pop_aux (acc s : string) : string :=
  match s with
  | EmptyString => acc
  | String c s' =>
      if Ascii.eqb c "/"%char then split_pop_aux EmptyString s'
      else split_pop_aux (acc ++ String c EmptyString) s'
  end.

Definition split_pop (s : string) : string := split_pop_aux EmptyString s.

(** Decimal rendering of an integer, as in [`${Date.now()}`]. *)
Definition show_Z (z : Z) : string := NilZero.string_of_int (Z.to_int z).

(** An exception value.  [name] and [message] are those of [Error];
    [error_description] is [err.response.data.error_description] of an HTTP
    client error, when the provider supplied one. *)
Record Error := mkError {
  name : string;
  message : string;
  error_description : Str
}.

(** [new Error(msg)] *)
Definition new_Error (msg : string) : Error :=
  {| name := "Error"; message := msg; error_description := None |}.

Definition new_TypeError (msg : string) : Error :=
  {| name := "TypeError"; message := msg; error_description := None |}.

(** [String(err)], i.e. [Error.prototype.toString]. *)
Definition String_of (e : Error) : string :=
  if name e =? "" then message e
  else if message e =? "" then name e
  else name e ++ ": " ++ message e.

(** [err.message || String(err)] *)
Definition message_or_string (e : Error) : string :=
  if message e =? "" then String_of e else message e.

End Js.

(** ** Tables of the relational store *)

Module dropbox_accounts.

Record row := mk {
  id : string;
  access_token : Js.Str;
  refresh_token : Js.Str;
  app_key : Js.Str;
  app_secret : Js.Str;
  bytes_used : option Q;
  last_used : option Z
}.

Definition set_last_used (t : Z) (r : row) : row :=
  mk (id r) (access_token r) (refresh_token r) (app_key r) (app_secret r)
     (bytes_used r) (Some t).

Definition set_access_token (tok : Js.Str) (r : row) : row :=
  mk (id r) tok (refresh_token r) (app_key r) (app_secret r)
     (bytes_used r) (last_used r).

Definition set_bytes_used (b : Q) (r : row) : row :=
  mk (id r) (access_token r) (refresh_token r) (app_key r) (app_secret r)
     (Some b) (last_used r).

End dropbox_accounts.

Module study_materials.

Record row := mk {
  id : string;
  storage_path : Js.Str;
  attempts : option Z;
  processing_status : Js.Str;
  processing_error : Js.Str;
  processed_url : Js.Str;
  file_url : Js.Str;
  approval_status : Js.Str
}.

End study_materials.

Module file_records.

Record row := mk {
  material_id : string;
  dropbox_path : string;
  dropbox_url : string;
  uploaded_at : Z
}.

End file_records.

(** ** The collaborators: calls, their history, and the environment *)

(** The requests the program sends to the relational store, one constructor
    per query shape of the source. *)
Inductive Query :=
| SelectAccountsByLastUsed (lt_bytes_used : option Q)
    (* from('dropbox_accounts').select('*')[.lt('bytes_used', q)]
         .order('last_used', {ascending: true}).limit(1) *)
| SelectAccountById (id : string)
    (* from('dropbox_accounts').select('*').eq('id', id).single() *)
| SelectAccountBytesUsed (id : string)
    (* from('dropbox_accounts').select('bytes_used').eq('id', id).single() *)
| UpdateAccountLastUsed (id : string) (last_used : Z)
| UpdateAccountToken (id : string) (access_token : string) (last_used : Z)
| UpdateAccountBytesUsed (id : string) (bytes_used : Q)
| RpcIncrementBytesUsed (acc_id : string) (add_mb : Q)
| SelectMaterialById (id : string)
    (* from('study_materials').select('*').eq('id', id).single() *)
| UpdateMaterialFailed (id : string) (processing_error : string)
| UpdateMaterialProcessing (id : string) (attempts : Z)
| UpdateMaterialDone (id : string) (url : string)
| InsertFileRecord (r : file_records.row).

(** One entry per call to a collaborator, with the answer it got. *)
Inductive Event :=
| EvStore (q : Query) (error : option string)
| EvStorageDownload (path : string) (error : option Js.Error)
| EvStorageRemove (paths : list string) (error : option Js.Error)
| EvUsersGetCurrentAccount (accessToken : Js.Str) (error : option Js.Error)
| EvOAuthToken (refreshToken clientId clientSecret : Js.Str)
               (res : Js.Error + string)
| EvFilesUpload (accessToken : Js.Str) (path : string) (contents : list Byte.byte)
                (res : Js.Error + string)
| EvSharingCreateSharedLink (accessToken : Js.Str) (path : string)
                            (res : Js.Error + string)
| EvHttpCreateSharedLink (token : Js.Str) (path : string)
                         (res : Js.Error + string)
| EvHttpListSharedLinks (token : Js.Str) (path : string)
                        (res : Js.Error + list string).

Definition History := list Event.

(** [process.env].  [MAX_DROPBOX_ACCOUNT_BYTES_MB] holds the number the
    variable denotes; [None] is the variable unset, empty or not numeric, all
    of which [Number(... || 0)] turns into a value that is not [> 0]. *)
Record ProcessEnv := {
  DROPBOX_CLIENT_ID : Js.Str;
  DROPBOX_CLIENT_SECRET : Js.Str;
  MAX_DROPBOX_ACCOUNT_BYTES_MB : option Q
}.

(** The environment: what each collaborator answers, given the calls made
    before.  A store or storage oracle answers [Some error] for a request
    that fails (the request then has no effect) and [None] for one that is
    carried out; a provider oracle answers [inl error] (the promise rejects)
    or [inr result].  [float_sum x y] is [x + y] as JavaScript computes it on
    two numbers read from decimals and as it writes the result back in
    decimal: the binary floating point sum, which need not be the exact one
    (for 0.1 and 0.2 it is 0.30000000000000004). *)
Record Env := {
  env : ProcessEnv;
  store_error : History -> Query -> option string;
  storage_download_error : History -> string -> option Js.Error;
  storage_remove_error : History -> list string -> option Js.Error;
  usersGetCurrentAccount : History -> Js.Str -> option Js.Error;
  oauth2_token : History -> Js.Str -> Js.Str -> Js.Str -> Js.Error + string;
  filesUpload_result :
    History -> Js.Str -> string -> list Byte.byte -> Js.Error + string;
  sharingCreateSharedLink_result :
    History -> Js.Str -> string -> Js.Error + string;
  http_create_shared_link : History -> Js.Str -> string -> Js.Error + string;
  http_list_shared_links :
    History -> Js.Str -> string -> Js.Error + list string;
  Date_now : History -> Z;
  float_sum : Q -> Q -> Q
}.

(** The state the program runs in. *)
Record World := mkWorld {
  accounts : list dropbox_accounts.row;
  materials : list study_materials.row;
  records : list file_records.row;
  bucket : list (string * list Byte.byte);
  history : History
}.

Definition log (e : Event) (w : World) : World :=
  mkWorld (accounts w) (materials w) (records w) (bucket w) (history w ++ [e])%list.

Definition with_accounts (f : list dropbox_accounts.row -> list dropbox_accounts.row)
  (w : World) : World :=
  mkWorld (f (accounts w)) (materials w) (records w) (bucket w) (history w).

Definition with_materials (f : list study_materials.row -> list study_materials.row)
  (w : World) : World :=
  mkWorld (accounts w) (f (materials w)) (records w) (bucket w) (history w).

Definition with_records (f : list file_records.row -> list file_records.row)
  (w : World) : World :=
  mkWorld (accounts w) (materials w) (f (records w)) (bucket w) (history w).

Definition with_bucket (f : list (string * list Byte.byte) -> list (string * list Byte.byte))
  (w : World) : World :=
  mkWorld (accounts w) (materials w) (records w) (f (bucket w)) (history w).

(** ** The monad of the program: state and exceptions *)

Inductive Outcome (A : Type) :=
| Returned (a : A)
| Thrown (e : Js.Error).

Arguments Returned {A} a.
Arguments Thrown {A} e.

Definition M (A : Type) := World -> Outcome A * World.

Definition ret {A} (a : A) : M A := fun w => (Returned a, w).

Definition throw {A} (e : Js.Error) : M A := fun w => (Thrown e, w).

Definition bind {A B} (m : M A) (k : A -> M B) : M B :=
  fun w =>
    match m w with
    | (Returned a, w') => k a w'
    | (Thrown e, w') => (Thrown e, w')
    end.

(** [try { body } catch (err) { handler }] *)
Definition try_catch {A} (body : M A) (handler : Js.Error -> M A) : M A :=
  fun w =>
    match body w with
    | (Returned a, w') => (Returned a, w')
    | (Thrown e, w') => handler e w'
    end.

Declare Scope js_scope.
Delimit Scope js_scope with js.
Notation "x <- c ;; k" := (bind c (fun x => k))
  (at level 61, c at next level, right associativity) : js_scope.
Notation "c ;;; k" := (bind c (fun _ => k))
  (at level 61, right associativity) : js_scope.
Local Open Scope js_scope.

(** ** The store's own behaviour *)

(** [bytes_used < q], the [.lt('bytes_used', q)] filter; a null value
    satisfies no comparison. *)
Definition Qltb (x y : Q) : bool := negb (Qle_bool y x).

Definition lt_bytes_used (q : Q) (r : dropbox_accounts.row) : bool :=
  match dropbox_accounts.bytes_used r with
  | Some b => Qltb b q
  | None => false
  end.

(** Ascending order on [last_used]; nulls come last, the store's default for
    an ascending order. *)
Definition last_used_le (a b : option Z) : bool :=
  match a, b with
  | Some x, Some y => (x <=? y)%Z
  | Some _, None => true
  | None, Some _ => false
  | None, None => true
  end.

Fixpoint insert_by_last_used (r : dropbox_accounts.row)
  (l : list dropbox_accounts.row) : list dropbox_accounts.row :=
  match l with
  | [] => [r]
  | r' :: l' =>
      if last_used_le (dropbox_accounts.last_used r) (dropbox_accounts.last_used r')
      then r :: r' :: l'
      else r' :: insert_by_last_used r l'
  end.

(** [.order('last_used', {ascending: true})]: rows with equal [last_used]
    keep the order the table has them in. *)
Fixpoint order_by_last_used (l : list dropbox_accounts.row)
  : list dropbox_accounts.row :=
  match l with
  | [] => []
  | r :: l' => insert_by_last_used r (order_by_last_used l')
  end.

(** The rows a [SelectAccountsByLastUsed] request answers with. *)
Definition eligible (lt : option Q) (l : list dropbox_accounts.row)
  : list dropbox_accounts.row :=
  match lt with
  | Some q => filter (lt_bytes_used q) l
  | None => l
  end.

Definition update_where {R} (key : R -> string) (id : string) (f : R -> R)
  (l : list R) : list R :=
  map (fun r => if key r =? id then f r else r) l.

Definition coalesce0 (b : option Q) : Q :=
  match b with
  | Some q => q
  | None => 0%Q
  end.

(** What a request does to the tables when the store carries it out. *)
Definition effect (q : Query) (w : World) : World :=
  match q with
  | UpdateAccountLastUsed id t =>
      with_accounts
        (update_where dropbox_accounts.id id (dropbox_accounts.set_last_used t)) w
  | UpdateAccountToken id tok t =>
      with_accounts
        (update_where dropbox_accounts.id id
           (fun r => dropbox_accounts.set_last_used t
                       (dropbox_accounts.set_access_token (Some tok) r))) w
  | UpdateAccountBytesUsed id b =>
      with_accounts
        (update_where dropbox_accounts.id id (dropbox_accounts.set_bytes_used b)) w
  | RpcIncrementBytesUsed id mb =>
      (* update dropbox_accounts
           set bytes_used = coalesce(bytes_used,0) + add_mb where id = acc_id *)
      with_accounts
        (update_where dropbox_accounts.id id
           (fun r => dropbox_accounts.set_bytes_used
                       (Qplus (coalesce0 (dropbox_accounts.bytes_used r)) mb) r)) w
  | UpdateMaterialFailed id msg =>
      with_materials
        (update_where study_materials.id id
           (fun r => study_materials.mk
                       (study_materials.id r) (study_materials.storage_path r)
                       (study_materials.attempts r)
                       (Some "failed") (Some msg)
                       (study_materials.processed_url r)
                       (study_materials.file_url r)
                       (study_materials.approval_status r))) w
  | UpdateMaterialProcessing id n =>
      with_materials
        (update_where study_materials.id id
           (fun r => study_materials.mk
                       (study_materials.id r) (study_materials.storage_path r)
                       (Some n)
                       (Some "processing") None
                       (study_materials.processed_url r)
                       (study_materials.file_url r)
                       (study_materials.approval_status r))) w
  | UpdateMaterialDone id url =>
      with_materials
        (update_where study_materials.id id
           (fun r => study_materials.mk
                       (study_materials.id r) (study_materials.storage_path r)
                       (study_materials.attempts r)
                       (Some "done") (study_materials.processing_error r)
                       (Some url) (Some url) (Some "approved"))) w
  | InsertFileRecord r => with_records (fun l => (l ++ [r])%list) w
  | SelectAccountsByLastUsed _ | SelectAccountById _
  | SelectAccountBytesUsed _ | SelectMaterialById _ => w
  end.

(** The tables after a request the store answered with [error]: a request
    that fails changes nothing. *)
Definition carry_out (q : Query) (error : option string) (w : World) : World :=
  match error with
  | None => effect q w
  | Some _ => w
  end.

(** [.single()]: exactly one row, an error otherwise. *)
Definition single {R} (rows : list R) : option R * option string :=
  match rows with
  | [r] => (Some r, None)
  | _ => (None, Some "JSON object requested, multiple (or no) rows returned")
  end.

(** [{ data, error }] of a selection: the store's error and no data when the
    request fails, the selected data otherwise. *)
Definition answer {D} (error : option string) (selected : option D * option string)
  : option D * option string :=
  match error with
  | Some e => (None, Some e)
  | None => selected
  end.

(** [Number(data?.bytes_used || 0)] *)
Definition current_bytes_used (data : option dropbox_accounts.row) : Q :=
  match data with
  | Some r => coalesce0 (dropbox_accounts.bytes_used r)
  | None => 0%Q
  end.

(** The bucket after a [remove(paths)] the storage answered with [error]. *)
Definition removed (paths : list string) (error : option Js.Error) (w : World)
  : World :=
  match error with
  | None =>
      with_bucket
        (filter (fun kv => negb (existsb (String.eqb (fst kv)) paths))) w
  | Some _ => w
  end.

(** The client of the hosting provider's SDK: [new Dropbox({ accessToken })]. *)
Module Dropbox.
Record client := new { accessToken : Js.Str }.
End Dropbox.

(** [{ accountRow, accessToken }], the result of [ensureAccessToken]. *)
Record Ensured := {
  accountRow : dropbox_accounts.row;
  accessToken : Js.Str
}.

(** The JSON bodies the processing route answers with. *)
Inductive Body :=
| Json_error (error : string)
| Json_complete (message dropboxUrl : string)
| Json_failed (error details : string).

Record Response := { status : Z; body : Body }.

(** ** The program *)

Section Program.

Variable E : Env.

(** [new Date()] and [Date.now()] *)
Definition new_Date : M Z := fun w => (Returned (Date_now E (history w)), w).

(** A request whose answer is only its [error]: updates, inserts and the
    remote procedure.  The program's [await] of such a request never throws. *)
Definition request (q : Query) : M (option string) :=
  fun w =>
    let error := store_error E (history w) q in
    (Returned error, log (EvStore q error) (carry_out q error w)).

(** A [.single()] selection: [{ data, error }]. *)
Definition select_single {R} (q : Query) (rows : World -> list R)
  : M (option R * option string) :=
  fun w =>
    let res := answer (store_error E (history w) q) (single (rows w)) in
    (Returned res, log (EvStore q (snd res)) w).

Definition select_account_by_id (id : string) :=
  select_single (SelectAccountById id)
    (fun w => filter (fun r => dropbox_accounts.id r =? id) (accounts w)).

Definition select_account_bytes_used (id : string) :=
  select_single (SelectAccountBytesUsed id)
    (fun w => filter (fun r => dropbox_accounts.id r =? id) (accounts w)).

Definition select_material_by_id (id : string) :=
  select_single (SelectMaterialById id)
    (fun w => filter (fun r => study_materials.id r =? id) (materials w)).

(** The selection of [selectDropboxAccount]: [{ data, error }]. *)
Definition select_accounts_by_last_used (lt : option Q)
  : M (option (list dropbox_accounts.row) * option string) :=
  fun w =>
    let q := SelectAccountsByLastUsed lt in
    let res :=
      answer (store_error E (history w) q)
        (Some (firstn 1 (order_by_last_used (eligible lt (accounts w)))), None) in
    (Returned res, log (EvStore q (snd res)) w).

(** [supabase.storage.from('study-materials').download(path)]: the bytes,
    or an error (the oracle's, or that of an object that is not there). *)
Definition storage_download (path : string) : M (list Byte.byte) :=
  fun w =>
    let found := find (fun kv => fst kv =? path) (bucket w) in
    let res := match storage_download_error E (history w) path, found with
               | Some e, _ => inl e
               | None, Some kv => inr (snd kv)
               | None, None => inl (Js.mkError "StorageApiError" "Object not found" None)
               end in
    match res with
    | inl e => (Thrown e, log (EvStorageDownload path (Some e)) w)
    | inr b => (Returned b, log (EvStorageDownload path None) w)
    end.

(** [supabase.storage.from('study-materials').remove(paths)] *)
Definition storage_remove (paths : list string) : M (option Js.Error) :=
  fun w =>
    let error := storage_remove_error E (history w) paths in
    (Returned error, log (EvStorageRemove paths error) (removed paths error w)).

(** *** The provider's SDK and HTTP endpoints *)

Definition dbx_usersGetCurrentAccount (dbx : Dropbox.client) : M unit :=
  fun w =>
    let error := usersGetCurrentAccount E (history w) (Dropbox.accessToken dbx) in
    let w' := log (EvUsersGetCurrentAccount (Dropbox.accessToken dbx) error) w in
    match error with
    | None => (Returned tt, w')
    | Some e => (Thrown e, w')
    end.

Definition perform {A} (res : Js.Error + A) (ev : Event) : M A :=
  fun w =>
    match res with
    | inr a => (Returned a, log ev w)
    | inl e => (Thrown e, log ev w)
    end.

(** [dbx.filesUpload({ path, contents })]; the value is
    [uploadResult.result.path_lower]. *)
Definition dbx_filesUpload (dbx : Dropbox.client) (path : string)
  (contents : list Byte.byte) : M string :=
  fun w =>
    let res := filesUpload_result E (history w) (Dropbox.accessToken dbx) path contents in
    perform res (EvFilesUpload (Dropbox.accessToken dbx) path contents res) w.

(** [dbx.sharingCreateSharedLinkWithSettings({ path })]; the value is
    [sharedLinkRes.result.url]. *)
Definition dbx_sharingCreateSharedLinkWithSettings (dbx : Dropbox.client)
  (path : string) : M string :=
  fun w =>
    let res := sharingCreateSharedLink_result E (history w) (Dropbox.accessToken dbx) path in
    perform res (EvSharingCreateSharedLink (Dropbox.accessToken dbx) path res) w.

(** [axios.post('https://api.dropbox.com/oauth2/token', ...)]; the value is
    [res.data.access_token]. *)
Definition post_oauth2_token (refreshToken clientId clientSecret : Js.Str)
  : M string :=
  fun w =>
    let res := oauth2_token E (history w) refreshToken clientId clientSecret in
    perform res (EvOAuthToken refreshToken clientId clientSecret res) w.

(** [axios.post('.../2/sharing/create_shared_link_with_settings', ...)];
    the value is [r.data.url]. *)
Definition post_create_shared_link (token : Js.Str) (path : string) : M string :=
  fun w =>
    let res := http_create_shared_link E (history w) token path in
    perform res (EvHttpCreateSharedLink token path res) w.

(** [axios.post('.../2/sharing/list_shared_links', ...)]; the value is the
    [url]s of [r.data.links]. *)
Definition post_list_shared_links (token : Js.Str) (path : string)
  : M (list string) :=
  fun w =>
    let res := http_list_shared_links E (history w) token path in
    perform res (EvHttpListSharedLinks token path res) w.

(** *** Dropbox account management helpers *)

Definition selectDropboxAccount : M dropbox_accounts.row :=
  let maxBytesMB := match MAX_DROPBOX_ACCOUNT_BYTES_MB (env E) with
                    | Some q => q
                    | None => 0%Q
                    end in
  res <- select_accounts_by_last_used
           (if Qltb 0 maxBytesMB then Some maxBytesMB else None) ;;
  match res with
  | (_, Some msg) =>
      throw (Js.new_Error ("Failed to select dropbox account: " ++ msg))
  | (None, None) | (Some [], None) =>
      throw (Js.new_Error "No suitable Dropbox account found")
  | (Some (r :: _), None) => ret r
  end.

Definition testDropboxToken (accessToken : Js.Str) : M bool :=
  try_catch
    (let dbx := Dropbox.new accessToken in
     dbx_usersGetCurrentAccount dbx ;;;
     ret true)
    (fun err => ret false).

(** [err?.response?.data?.error_description || err?.message || err] *)
Definition refresh_failure_text (err : Js.Error) : string :=
  if Js.truthy (Js.error_description err) then Js.show (Js.error_description err)
  else if negb (Js.message err =? "") then Js.message err
  else Js.String_of err.

Definition refreshDropboxAccessToken (refreshToken clientId clientSecret : Js.Str)
  : M string :=
  try_catch
    (post_oauth2_token refreshToken clientId clientSecret)
    (fun err =>
       throw (Js.new_Error
                ("Failed to refresh Dropbox token: " ++ refresh_failure_text err))).

Definition ensureAccessToken (accountRow : dropbox_accounts.row) : M Ensured :=
  let accessToken := dropbox_accounts.access_token accountRow in
  let refreshToken := dropbox_accounts.refresh_token accountRow in
  let clientId :=
    Js.or (dropbox_accounts.app_key accountRow) (DROPBOX_CLIENT_ID (env E)) in
  let clientSecret :=
    Js.or (dropbox_accounts.app_secret accountRow) (DROPBOX_CLIENT_SECRET (env E)) in
  live <- (if Js.truthy accessToken then testDropboxToken accessToken
           else ret false) ;;
  if live then
    now <- new_Date ;;
    request (UpdateAccountLastUsed (dropbox_accounts.id accountRow) now) ;;;
    ret {| accountRow := accountRow; accessToken := accessToken |}
  else if negb (Js.truthy refreshToken) then
    throw (Js.new_Error
             ("Dropbox access token invalid and no refresh token for account id="
                ++ dropbox_accounts.id accountRow))
  else if negb (Js.truthy clientId) || negb (Js.truthy clientSecret) then
    throw (Js.new_Error "Missing Dropbox client credentials for token refresh")
  else
    newAccessToken <- refreshDropboxAccessToken refreshToken clientId clientSecret ;;
    now <- new_Date ;;
    error <- request (UpdateAccountToken (dropbox_accounts.id accountRow)
                        newAccessToken now) ;;
    match error with
    | Some msg =>
        throw (Js.new_Error
                 ("Failed to update refreshed access token in DB: " ++ msg))
    | None =>
        ret {| accountRow :=
                 dropbox_accounts.set_access_token (Some newAccessToken) accountRow;
               accessToken := Some newAccessToken |}
    end.

(** The value is [{ accessToken, accountId }]. *)
Definition getDropboxTokenFromDB : M (Js.Str * string) :=
  account <- selectDropboxAccount ;;
  res <- ensureAccessToken account ;;
  ret (accessToken res, dropbox_accounts.id account).

(** [Number((uploadBytes / (1024 * 1024)).toFixed(4))]: megabytes, rounded to
    four decimals (as an exact rational; the rounding of the binary floating
    point division is not modelled). *)
Definition to_mb (uploadBytes : Z) : Q :=
  Qmake ((2 * 10000 * uploadBytes + 1048576) / (2 * 1048576)) 10000.

(** [current + mb] in the fallback below: an addition of JavaScript numbers.
    Adding to 0 gives the other number back (the megabytes of an upload are
    a decimal of four places that the conversions to and from binary
    preserve); every other sum is the environment's [float_sum].  The remote
    procedure adds in the store instead, on [numeric] values, exactly (see
    [effect]). *)
Definition number_plus (current mb : Q) : Q :=
  if Qeq_bool current 0 then mb else float_sum E current mb.

Definition incrementDropboxBytesUsed (accountId : string) (uploadBytes : Z)
  : M unit :=
  try_catch
    (let mb := to_mb uploadBytes in
     error <- request (RpcIncrementBytesUsed accountId mb) ;;
     match error with
     | Some _ =>
         res <- select_account_bytes_used accountId ;;
         let current := current_bytes_used (fst res) in
         let newVal := number_plus current mb in
         request (UpdateAccountBytesUsed accountId newVal) ;;;
         ret tt
     | None => ret tt
     end)
    (fun err => ret tt).

(** *** Supabase storage helper *)

Definition downloadFromSupabase (path : Js.Str) : M (list Byte.byte) :=
  storage_download (Js.show path).

(** *** Processing endpoint: [POST /process-material/:id]

    The handler as it runs once [verifyAdmin] has let the request through. *)

(** [material.attempts >= 3]; a null counter compares as 0. *)
Definition attempts_ge_3 (attempts : option Z) : bool :=
  match attempts with
  | Some n => (3 <=? n)%Z
  | None => false
  end.

(** [(material.attempts || 0) + 1] *)
Definition next_attempts (attempts : option Z) : Z :=
  match attempts with
  | Some n => (n + 1)%Z
  | None => 1%Z
  end.

(** [material.storage_path.split('/').pop()] *)
Definition storage_file_name (storage_path : Js.Str) : M string :=
  match storage_path with
  | Some p => ret (Js.split_pop p)
  | None =>
      throw (Js.new_TypeError "Cannot read properties of null (reading 'split')")
  end.

(** Step 7 of the handler: the upload, and what its [catch] does. *)
Definition upload_with_retry (dbx : Dropbox.client) (accountId : string)
  (dropboxPath : string) (compressedPDF : list Byte.byte) : M string :=
  try_catch
    (dbx_filesUpload dbx dropboxPath compressedPDF)
    (fun err =>
       accountRow <- select_account_by_id accountId ;;
       match accountRow with
       | (Some data, None) =>
           refreshed <- ensureAccessToken data ;;
           let dbx2 := Dropbox.new (accessToken refreshed) in
           dbx_filesUpload dbx2 dropboxPath compressedPDF
       | _ => throw err
       end).

(** The body of the handler's [try], once the material has been found and
    its attempts are below the limit. *)
Definition process_found (id : string) (material : study_materials.row)
  : M Response :=
  request (UpdateMaterialProcessing id
             (next_attempts (study_materials.attempts material))) ;;;
  pdfBuffer <- downloadFromSupabase (study_materials.storage_path material) ;;
  let compressedPDF := pdfBuffer in
  tok <- getDropboxTokenFromDB ;;
  let dropboxToken := fst tok in
  let accountId := snd tok in
  let dbx := Dropbox.new dropboxToken in
  now <- new_Date ;;
  file_name <- storage_file_name (study_materials.storage_path material) ;;
  let dropboxPath := "/campus-files/" ++ Js.show_Z now ++ "_" ++ file_name in
  path_lower <- upload_with_retry dbx accountId dropboxPath compressedPDF ;;
  url <- dbx_sharingCreateSharedLinkWithSettings dbx path_lower ;;
  let dropboxUrl := Js.replace "?dl=0" "?dl=1" url in
  uploaded_at <- new_Date ;;
  request (InsertFileRecord (file_records.mk id dropboxPath dropboxUrl uploaded_at)) ;;;
  incrementDropboxBytesUsed accountId (Z.of_nat (List.length compressedPDF)) ;;;
  request (UpdateMaterialDone id dropboxUrl) ;;;
  storage_remove [Js.show (study_materials.storage_path material)] ;;;
  ret {| status := 200; body := Json_complete "Processing complete" dropboxUrl |}.

(** The handler's [try] block. *)
Definition process_material_try (id : string) : M Response :=
  res <- select_material_by_id id ;;
  match res with
  | (Some material, None) =>
      if attempts_ge_3 (study_materials.attempts material) then
        request (UpdateMaterialFailed id "Max retries reached") ;;;
        ret {| status := 400; body := Json_error "Max retries reached" |}
      else process_found id material
  | _ => ret {| status := 404; body := Json_error "Material not found" |}
  end.

(** The handler's [catch (err)] block. *)
Definition process_material_catch (id : string) (err : Js.Error) : M Response :=
  try_catch
    (request (UpdateMaterialFailed id (Js.message err)) ;;; ret tt)
    (fun uErr => ret tt) ;;;
  ret {| status := 500;
         body := Json_failed "Processing failed" (Js.message_or_string err) |}.

Definition process_material (id : string) : M Response :=
  try_catch (process_material_try id) (process_material_catch id).

(** *** The helper library: [createSharedLinkDirect] *)

(** [url.replace("www.dropbox.com", "dl.dropboxusercontent.com")
       .replace("?dl=0", "")] *)
Definition direct_url (url : string) : string :=
  Js.replace "?dl=0" ""
    (Js.replace "www.dropbox.com" "dl.dropboxusercontent.com" url).

Definition createSharedLinkDirect (token : Js.Str) (dropboxPath : string)
  : M string :=
  try_catch
    (url <- post_create_shared_link token dropboxPath ;;
     ret (direct_url url))
    (fun e =>
       links <- post_list_shared_links token dropboxPath ;;
       match links with
       | url :: _ => ret (direct_url url)
       | [] =>
           throw (Js.new_TypeError
                    "Cannot read properties of undefined (reading 'url')")
       end).

End Program.

(** The route serving requests one after the other, each to its end before
    the next starts (interleavings of concurrent requests are not
    modelled). *)
Fixpoint serve (E : Env) (ids : list string) (w : World) : World :=
  match ids with
  | [] => w
  | id :: rest => serve E rest (snd (process_material E id w))
  end.

(** ** Reading the history of a run *)

(** The calls made between a world and a later one. *)
Definition events_since (w w' : World) : list Event :=
  skipn (List.length (history w)) (history w').

Definition is_refresh (e : Event) : bool :=
  match e with
  | EvOAuthToken _ _ _ _ => true
  | _ => false
  end.

Definition is_upload (e : Event) : bool :=
  match e with
  | EvFilesUpload _ _ _ _ => true
  | _ => false
  end.

Definition is_share (e : Event) : bool :=
  match e with
  | EvSharingCreateSharedLink _ _ _ => true
  | _ => false
  end.

(** The requests that write the [attempts] counter. *)
Definition is_attempts_write (e : Event) : bool :=
  match e with
  | EvStore (UpdateMaterialProcessing _ _) _ => true
  | _ => false
  end.

Definition refresh_calls (evs : list Event) : list Event := filter is_refresh evs.
Definition uploads (evs : list Event) : list Event := filter is_upload evs.
Definition share_calls (evs : list Event) : list Event := filter is_share evs.

(** The requests that concern the [dropbox_accounts] table only. *)
Definition account_query (q : Query) : bool :=
  match q with
  | SelectAccountsByLastUsed _ | SelectAccountById _ | SelectAccountBytesUsed _
  | UpdateAccountLastUsed _ _ | UpdateAccountToken _ _ _
  | UpdateAccountBytesUsed _ _ | RpcIncrementBytesUsed _ _ => true
  | _ => false
  end.

(** The calls of the account helpers and of the download: everything but
    uploads, link creation, storage removal and the requests on
    [study_materials] and [file_records]. *)
Definition background (e : Event) : bool :=
  match e with
  | EvStore q _ => account_query q
  | EvStorageDownload _ _ | EvUsersGetCurrentAccount _ _
  | EvOAuthToken _ _ _ _ => true
  | _ => false
  end.

(** A step that leaves materials, records and bucket alone and makes
    background calls only. *)
Record quiet (w w' : World) : Prop := {
  quiet_materials : materials w' = materials w;
  quiet_records : records w' = records w;
  quiet_bucket : bucket w' = bucket w;
  quiet_events :
    exists evs,
      history w' = (history w ++ evs)%list /\ forallb background evs = true
}.

(** Every run of [m] relates the world it starts in to the one it ends in. *)
Definition preserves (R : World -> World -> Prop) {A} (m : M A) : Prop :=
  forall w, R w (snd (m w)).

(** The account a store write of the token orchestrator is about. *)
Definition account_write_of (e : Event) : option string :=
  match e with
  | EvStore (UpdateAccountLastUsed id _) _
  | EvStore (UpdateAccountToken id _ _) _ => Some id
  | _ => None
  end.


(** A shared link without query-string marker in its path. *)
Fixpoint no_question_mark (s : string) : bool :=
  match s with
  | EmptyString => true
  | String c s' => negb (Ascii.eqb c "?"%char) && no_question_mark s'
  end.

(** The accounts the quota lets through: with a ceiling in force (a
    positive [MAX_DROPBOX_ACCOUNT_BYTES_MB]) those whose usage is known and
    below it, all of them otherwise. *)
Definition within_quota (p : ProcessEnv) (r : dropbox_accounts.row) : Prop :=
  forall c, MAX_DROPBOX_ACCOUNT_BYTES_MB p = Some c -> (0 < c)%Q ->
    exists b, dropbox_accounts.bytes_used r = Some b /\ (b < c)%Q.

(** A call the store or the storage carried out; only the requests on the
    accounts table may fail without this being said of the run. *)
Definition carried_out (e : Event) : bool :=
  match e with
  | EvStore q (Some _) => account_query q
  | EvStorageRemove _ (Some _) => false
  | _ => true
  end.

(** The row of a job the route has processed: [material] with its counter at
    [n], the state [done], no error, both links set and the approval
    granted. *)
Definition processed (material : study_materials.row) (n : Z) (dropboxUrl : string)
  : study_materials.row :=
  study_materials.mk (study_materials.id material)
    (study_materials.storage_path material)
    (Some n) (Some "done") None (Some dropboxUrl) (Some dropboxUrl)
    (Some "approved").

(** ** Concrete environments and worlds

    Used to run the program on explicit inputs. *)

Module Scenario.

Definition failure (msg : string) : Js.Error := Js.mkError "Error" msg None.

Definition process_env : ProcessEnv :=
  {| DROPBOX_CLIENT_ID := Some "cid";
     DROPBOX_CLIENT_SECRET := Some "sec";
     MAX_DROPBOX_ACCOUNT_BYTES_MB := Some (Qmake 50 1) |}.

Definition shared_link : string := "https://www.dropbox.com/s/abc/x.pdf?dl=0".

(** Every collaborator answers; the credentials "good" and "fresh" are live
    and accepted for uploads, a refresh yields "fresh", and creating a shared
    link through the HTTP endpoint reports that one exists already.  The
    sums of the usage accounting are exact. *)
Definition E_ok : Env :=
  {| env := process_env;
     store_error := fun _ _ => None;
     storage_download_error := fun _ _ => None;
     storage_remove_error := fun _ _ => None;
     usersGetCurrentAccount := fun _ tok =>
       match tok with
       | Some "good" | Some "fresh" => None
       | _ => Some (failure "invalid_access_token")
       end;
     oauth2_token := fun _ _ _ _ => inr "fresh";
     filesUpload_result := fun _ tok path _ =>
       match tok with
       | Some "good" | Some "fresh" => inr path
       | _ => inl (failure "expired_access_token")
       end;
     sharingCreateSharedLink_result := fun _ _ _ => inr shared_link;
     http_create_shared_link := fun _ _ _ =>
       inl (failure "shared_link_already_exists");
     http_list_shared_links := fun _ _ _ => inr [shared_link];
     Date_now := fun h => (1700000000000 + Z.of_nat (List.length h))%Z;
     float_sum := Qplus |}.

(** As [E_ok], but the store refuses to write a refreshed credential. *)
Definition E_persist_fails : Env :=
  {| env := process_env;
     store_error := fun _ q =>
       match q with
       | UpdateAccountToken _ _ _ => Some "db down"
       | _ => None
       end;
     storage_download_error := storage_download_error E_ok;
     storage_remove_error := storage_remove_error E_ok;
     usersGetCurrentAccount := usersGetCurrentAccount E_ok;
     oauth2_token := oauth2_token E_ok;
     filesUpload_result := filesUpload_result E_ok;
     sharingCreateSharedLink_result := sharingCreateSharedLink_result E_ok;
     http_create_shared_link := http_create_shared_link E_ok;
     http_list_shared_links := http_list_shared_links E_ok;
     Date_now := Date_now E_ok;
     float_sum := float_sum E_ok |}.

(** The credential "old" passes the liveness check until an upload has been
    tried, and no upload with it is accepted; uploads with "fresh" are. *)
Definition E_retry : Env :=
  {| env := process_env;
     store_error := store_error E_ok;
     storage_download_error := storage_download_error E_ok;
     storage_remove_error := storage_remove_error E_ok;
     usersGetCurrentAccount := fun h tok =>
       match tok, uploads h with
       | Some "old", [] => None
       | _, _ => Some (failure "invalid_access_token")
       end;
     oauth2_token := oauth2_token E_ok;
     filesUpload_result := fun _ tok path _ =>
       match tok with
       | Some "fresh" => inr path
       | _ => inl (failure "expired_access_token")
       end;
     sharingCreateSharedLink_result := sharingCreateSharedLink_result E_ok;
     http_create_shared_link := http_create_shared_link E_ok;
     http_list_shared_links := http_list_shared_links E_ok;
     Date_now := Date_now E_ok;
     float_sum := float_sum E_ok |}.

(** As [E_retry], but no upload is accepted at all. *)
Definition E_retry_fails : Env :=
  {| env := process_env;
     store_error := store_error E_ok;
     storage_download_error := storage_download_error E_ok;
     storage_remove_error := storage_remove_error E_ok;
     usersGetCurrentAccount := usersGetCurrentAccount E_retry;
     oauth2_token := oauth2_token E_ok;
     filesUpload_result := fun _ _ _ _ => inl (failure "storage_quota_exceeded");
     sharingCreateSharedLink_result := sharingCreateSharedLink_result E_ok;
     http_create_shared_link := http_create_shared_link E_ok;
     http_list_shared_links := http_list_shared_links E_ok;
     Date_now := Date_now E_ok;
     float_sum := float_sum E_ok |}.


Definition account (id : string) (access refresh : Js.Str) (used : Q) (last : Z)
  : dropbox_accounts.row :=
  dropbox_accounts.mk id access refresh None None (Some used) (Some last).

Definition acc_stale := account "a1" (Some "stale") (Some "r1") (Qmake 1 1) 5.
Definition acc_live := account "a2" (Some "good") (Some "r2") (Qmake 2 1) 7.
Definition acc_full := account "a3" (Some "good") (Some "r3") (Qmake 50 1) 1.
Definition acc_old := account "a4" (Some "old") (Some "r4") (Qmake 3 1) 2.

(** An account whose refresh credential is the empty string, with its own
    app key and secret. *)
Definition acc_empty_refresh : dropbox_accounts.row :=
  dropbox_accounts.mk "a5" None (Some "") (Some "key") (Some "secret")
    (Some (Qmake 0 1)) (Some 3%Z).

Definition job (attempts : Z) : study_materials.row :=
  study_materials.mk "abc" (Some "materials/x.pdf") (Some attempts)
    (Some "pending") None None None None.

Definition pdf : list Byte.byte := [Byte.x25; Byte.x50; Byte.x44; Byte.x46].

Definition world (accounts : list dropbox_accounts.row) (attempts : Z) : World :=
  mkWorld accounts [job attempts] [] [("materials/x.pdf", pdf)] [].

Definition W0 : World := world [acc_stale; acc_live; acc_full] 0.
Definition W_old : World := world [acc_old] 0.

(** The remote path the handler derives for the job in [W_old]. *)
Definition upload_path : string := "/campus-files/1700000000006_x.pdf".

End Scenario.

(** ** The rest of the backend

    The admin gate [verifyAdmin] and the [POST /reject-material/:id] route of
    [src/index.js], the test server of the same file ([POST /test-upload]),
    the helper library's [pickDropboxToken] and [uploadBufferToDropbox], and
    the store client of [src/lib/supabase.js].

    Strings are read as sequences of code units below 256. *)

Module JsString.

(** The code units below 256 that [\s] matches. *)
Definition is_space (c : ascii) : bool :=
  let n := nat_of_ascii c in
  (((9 <=? n) && (n <=? 13)) || (n =? 32) || (n =? 160))%nat.

(** [s.replace(/C+/g, rep)] for a class [C] of code units: every maximal run
    of them becomes one [rep].  [in_run] tells that the code unit before was
    of the class. *)
Fixpoint replace_runs (cls : ascii -> bool) (rep : string) (in_run : bool)
  (s : string) : string :=
  match s with
  | EmptyString => EmptyString
  | String c s' =>
      if cls c then
        if in_run then replace_runs cls rep true s'
        else rep ++ replace_runs cls rep true s'
      else String c (replace_runs cls rep false s')
  end.

(** [s.replace(/\s+/g, rep)] *)
Definition replace_whitespace (rep s : string) : string :=
  replace_runs is_space rep false s.

(** [s.split(sep)] for a separator of one code unit. *)
Fixpoint split (sep : ascii) (s : string) : list string :=
  match s with
  | EmptyString => [EmptyString]
  | String c s' =>
      if Ascii.eqb c sep then EmptyString :: split sep s'
      else match split sep s' with
           | piece :: pieces => String c piece :: pieces
           | [] => [String c EmptyString]
           end
  end.

(** [v === s] for a string literal [s]. *)
Definition strictly_equals (v : option string) (s : string) : bool :=
  match v with
  | Some x => x =? s
  | None => false
  end.

(** No code unit of [s] is [c]. *)
Fixpoint without (c : ascii) (s : string) : bool :=
  match s with
  | EmptyString => true
  | String c' s' => negb (Ascii.eqb c' c) && without c s'
  end.

(** No code unit of [s] is of the class. *)
Fixpoint free_of (cls : ascii -> bool) (s : string) : bool :=
  match s with
  | EmptyString => true
  | String c s' => negb (cls c) && free_of cls s'
  end.

End JsString.

(** Parsed JSON: the payload of a token and the members of a request body.
    An object holds at most one field of a name. *)
Module Json.

#[warnings="-register-all"]
Inductive value :=
| Null
| Bool (b : bool)
| Number (q : Q)
| Text (s : string)
| Array (items : list value)
| Object (fields : list (string * value)).

(** Truthiness; [None] stands for [undefined]. *)
Definition truthy (v : option value) : bool :=
  match v with
  | None | Some Null => false
  | Some (Bool b) => b
  | Some (Number q) => negb (Qeq_bool q 0)
  | Some (Text s) => negb (s =? "")
  | Some (Array _) | Some (Object _) => true
  end.

(** [o.k] on the fields of an object. *)
Definition get (k : string) (fields : list (string * value)) : option value :=
  option_map snd (find (fun kv => fst kv =? k) fields).

(** [v.k] for a truthy [v] and a name that only an object can have as a
    member. *)
Definition member (k : string) (v : option value) : option value :=
  match v with
  | Some (Object fields) => get k fields
  | _ => None
  end.

(** [v === true] *)
Definition is_true (v : option value) : bool :=
  match v with
  | Some (Bool true) => true
  | _ => false
  end.

End Json.

(** The claims of a verified token. *)
Definition Payload := list (string * Json.value).

Module rejection_logs.

Record row := mk {
  material_id : string;
  reason : option Json.value;
  rejected_by : option Json.value;
  rejected_at : Z
}.

End rejection_logs.

(** The [dropbox_accounts] table as the helper library reads it. *)
Module lib_accounts.

Record row := mk {
  id : string;
  access_token : Js.Str;
  active : option bool;
  usage_count : option Z
}.

End lib_accounts.

(** The calls these parts make besides those of [Event]. *)
Inductive Call :=
| CallDeleteMaterial (id : string) (error : option string)
    (* from('study_materials').delete().eq('id', id) *)
| CallInsertRejectionLog (r : rejection_logs.row) (error : option string)
| CallSelectLibAccount (error : option string)
    (* from("dropbox_accounts").select("id, access_token").eq("active", true)
         .order("usage_count", { ascending: true }).limit(1).maybeSingle() *)
| CallUpload (token : Js.Str) (arg_path : string) (buffer : list Byte.byte)
             (error : option Js.Error).
    (* axios.post("https://content.dropboxapi.com/2/files/upload", ...) with
       [arg_path] the path of the Dropbox-API-Arg header *)

(** The configuration and the collaborators of these parts, on top of
    [Env]: more of [process.env], the verification of a token with a secret
    ([jwtVerify] with HS256), and the answers to the calls of [Call], each
    given the calls made before. *)
Record Config := {
  base : Env;
  SUPABASE_JWT_SECRET : Js.Str;
  SUPABASE_URL : Js.Str;
  SUPABASE_SERVICE_ROLE : Js.Str;
  USE_DB_TOKENS : Js.Str;
  DROPBOX_ACCESS_TOKEN : Js.Str;
  jwtVerify : string -> string -> Js.Error + Payload;
  delete_material_error : History -> list Call -> string -> option string;
  insert_rejection_log_error :
    History -> list Call -> rejection_logs.row -> option string;
  select_lib_account_error : History -> list Call -> option string;
  upload_error :
    History -> list Call -> Js.Str -> string -> list Byte.byte -> option Js.Error
}.

(** The state these parts run in: the world of the processing route, the
    two further tables and the further calls. *)
Record Backend := mkBackend {
  processing : World;
  rejections : list rejection_logs.row;
  lib_rows : list lib_accounts.row;
  calls : list Call
}.

Definition with_world (w : World) (s : Backend) : Backend :=
  mkBackend w (rejections s) (lib_rows s) (calls s).

Definition record_call (c : Call) (s : Backend) : Backend :=
  mkBackend (processing s) (rejections s) (lib_rows s) (calls s ++ [c])%list.

(** The JSON bodies of these routes. *)
Inductive Json_body :=
| J_error (error : string)
| J_error_details (error details : string)
| J_message (message : string)
| J_upload_failed (error : string)
    (* { success: false, error } *)
| J_uploaded (dropboxPath dropboxUrl : string).
    (* { success: true, dropboxPath, dropboxUrl } *)

Record Reply := { reply_status : Z; reply_json : Json_body }.

(** What the gate does with a request: [next()] with [req.user] set, or an
    answer of its own. *)
Inductive Admission :=
| Next (user : Payload)
| Refused (r : Reply).

(** The monad of these parts. *)
Definition B (A : Type) := Backend -> Outcome A * Backend.

Definition retB {A} (a : A) : B A := fun s => (Returned a, s).

Definition throwB {A} (e : Js.Error) : B A := fun s => (Thrown e, s).

Definition bindB {A B'} (m : B A) (k : A -> B B') : B B' :=
  fun s =>
    match m s with
    | (Returned a, s') => k a s'
    | (Thrown e, s') => (Thrown e, s')
    end.

Definition try_catchB {A} (body : B A) (handler : Js.Error -> B A) : B A :=
  fun s =>
    match body s with
    | (Returned a, s') => (Returned a, s')
    | (Thrown e, s') => handler e s'
    end.

(** A computation of the processing route's part, run on its world. *)
Definition lift {A} (m : M A) : B A :=
  fun s => (fst (m (processing s)), with_world (snd (m (processing s))) s).

Declare Scope backend_scope.
Delimit Scope backend_scope with backend.
Notation "x <- c ;; k" := (bindB c (fun x => k))
  (at level 61, c at next level, right associativity) : backend_scope.
Notation "c ;;; k" := (bindB c (fun _ => k))
  (at level 61, right associativity) : backend_scope.

(** [.order("usage_count", { ascending: true })], nulls last, rows of equal
    count in the order of the table. *)
Fixpoint insert_by_usage_count (r : lib_accounts.row) (l : list lib_accounts.row)
  : list lib_accounts.row :=
  match l with
  | [] => [r]
  | r' :: l' =>
      if last_used_le (lib_accounts.usage_count r) (lib_accounts.usage_count r')
      then r :: r' :: l'
      else r' :: insert_by_usage_count r l'
  end.

Fixpoint order_by_usage_count (l : list lib_accounts.row) : list lib_accounts.row :=
  match l with
  | [] => []
  | r :: l' => insert_by_usage_count r (order_by_usage_count l')
  end.

(** [.eq("active", true)] *)
Definition is_active (r : lib_accounts.row) : bool :=
  match lib_accounts.active r with
  | Some true => true
  | _ => false
  end.

(** The materials after a [delete().eq('id', id)] the store answered with
    [error]. *)
Definition deleted (id : string) (error : option string) (s : Backend) : Backend :=
  match error with
  | None =>
      with_world
        (with_materials (filter (fun r => negb (study_materials.id r =? id)))
           (processing s)) s
  | Some _ => s
  end.

(** The rejection logs after an insert the store answered with [error]. *)
Definition logged (r : rejection_logs.row) (error : option string) (s : Backend)
  : Backend :=
  match error with
  | None => mkBackend (processing s) (rejections s ++ [r])%list (lib_rows s) (calls s)
  | Some _ => s
  end.

(** What [Busboy] has reported of a multipart request when it finishes: the
    variables the handlers of [POST /test-upload] close over. *)
Record Received := {
  fileBuffers : list (list Byte.byte);
  filename : string;
  gotFile : bool
}.

Inductive BusboyEvent :=
| OnFile (info_filename : Js.Str)
| OnData (data : list Byte.byte).

Section Backend_program.

Variable C : Config.

Local Open Scope backend_scope.

(** *** Auth middleware *)

Definition refuse (status : Z) (error : string) : Admission :=
  Refused {| reply_status := status; reply_json := J_error error |}.

Definition verifyAdmin (authorization : Js.Str) : Admission :=
  let header := authorization in
  if negb (Js.truthy header) then refuse 401 "Missing Authorization header"
  else
    let token := nth_error (JsString.split " "%char (Js.show header)) 1 in
    if negb (Js.truthy token) then refuse 401 "Missing token"
    else
      let secret := SUPABASE_JWT_SECRET C in
      if negb (Js.truthy secret) then
        refuse 500 "Server misconfiguration: missing SUPABASE_JWT_SECRET"
      else
        match jwtVerify C (Js.show token) (Js.show secret) with
        | inr payload =>
            let user_metadata := Json.get "user_metadata" payload in
            if negb (Json.truthy user_metadata)
               || negb (Json.is_true (Json.member "isAdmin" user_metadata))
            then refuse 403 "Not an admin"
            else Next payload
        | inl err => refuse 401 "Invalid or expired token"
        end.

(** A route behind the gate: the handler runs when the gate calls [next()],
    with the payload it attached. *)
Definition guarded {A} (authorization : Js.Str) (handler : Payload -> B A)
  : B (Reply + A) :=
  match verifyAdmin authorization with
  | Refused r => retB (inl r)
  | Next user => a <- handler user ;; retB (inr a)
  end.

(** [app.post('/process-material/:id', verifyAdmin, ...)] *)
Definition post_process_material (authorization : Js.Str) (id : string)
  : B (Reply + Response) :=
  guarded authorization (fun _ => lift (process_material (base C) id)).

(** *** Reject route: [POST /reject-material/:id] *)

Definition delete_material (id : string) : B (option string) :=
  fun s =>
    let error := delete_material_error C (history (processing s)) (calls s) id in
    (Returned error, record_call (CallDeleteMaterial id error) (deleted id error s)).

Definition insert_rejection_log (r : rejection_logs.row) : B (option string) :=
  fun s =>
    let error := insert_rejection_log_error C (history (processing s)) (calls s) r in
    (Returned error, record_call (CallInsertRejectionLog r error) (logged r error s)).

(** The handler, with [reason] the member of that name of the request body
    (an object) and [user] the payload the gate attached. *)
Definition reject_material (id : string) (reason : option Json.value)
  (user : Payload) : B Reply :=
  try_catchB
    (res <- lift (select_material_by_id (base C) id) ;;
     match res with
     | (Some material, None) =>
         (if Js.truthy (study_materials.storage_path material) then
            lift (storage_remove (base C)
                    [Js.show (study_materials.storage_path material)]) ;;;
            retB tt
          else retB tt) ;;;
         delete_material id ;;;
         (if Json.truthy reason then
            rejected_at <- lift (new_Date (base C)) ;;
            insert_rejection_log
              (rejection_logs.mk id reason (Json.get "sub" user) rejected_at) ;;;
            retB tt
          else retB tt) ;;;
         retB {| reply_status := 200;
                 reply_json := J_message "Material rejected and deleted successfully" |}
     | _ =>
         retB {| reply_status := 404; reply_json := J_error "Material not found" |}
     end)
    (fun err =>
       retB {| reply_status := 500;
               reply_json := J_error_details "Failed to reject material"
                               (Js.message_or_string err) |}).

(** [app.post('/reject-material/:id', verifyAdmin, ...)] *)
Definition post_reject_material (authorization : Js.Str) (id : string)
  (reason : option Json.value) : B (Reply + Reply) :=
  guarded authorization (reject_material id reason).

(** *** The helper library *)

(** [supabaseAdmin] of [src/lib/supabase.js] is a client when both variables
    are set, [null] otherwise. *)
Definition supabaseAdmin_configured : bool :=
  Js.truthy (SUPABASE_URL C) && Js.truthy (SUPABASE_SERVICE_ROLE C).

(** The selection of [pickDropboxToken]: [{ data, error }]. *)
Definition select_lib_account : B (option lib_accounts.row * option string) :=
  fun s =>
    let res :=
      answer (select_lib_account_error C (history (processing s)) (calls s))
        (hd_error (order_by_usage_count (filter is_active (lib_rows s))), None) in
    (Returned res, record_call (CallSelectLibAccount (snd res)) s).

(** The value is [{ token, accountId }].  The store's error is thrown as it
    is; only its [message] is read afterwards. *)
Definition pickDropboxToken : B (Js.Str * Js.Str) :=
  if JsString.strictly_equals (USE_DB_TOKENS C) "true" then
    if negb supabaseAdmin_configured then
      throwB (Js.new_TypeError "Cannot read properties of null (reading 'from')")
    else
      res <- select_lib_account ;;
      match res with
      | (_, Some msg) => throwB (Js.mkError "PostgrestError" msg None)
      | (None, None) => throwB (Js.new_Error "No Dropbox accounts found in DB")
      | (Some data, None) =>
          retB (lib_accounts.access_token data, Some (lib_accounts.id data))
      end
  else
    let token := DROPBOX_ACCESS_TOKEN C in
    if negb (Js.truthy token) then
      throwB (Js.new_Error "Missing DROPBOX_ACCESS_TOKEN in .env")
    else retB (token, None).

(** [dropboxPath.startsWith("/") ? dropboxPath : `/${dropboxPath}`] *)
Definition upload_arg_path (dropboxPath : string) : string :=
  if String.prefix "/" dropboxPath then dropboxPath else "/" ++ dropboxPath.

Definition uploadBufferToDropbox (token : Js.Str) (buffer : list Byte.byte)
  (dropboxPath : string) : B unit :=
  fun s =>
    let path := upload_arg_path dropboxPath in
    let error := upload_error C (history (processing s)) (calls s) token path buffer in
    let s' := record_call (CallUpload token path buffer error) s in
    match error with
    | None => (Returned tt, s')
    | Some e => (Thrown e, s')
    end.

(** *** The test server: [POST /test-upload] *)

Definition received_nothing : Received :=
  {| fileBuffers := []; filename := "file.pdf"; gotFile := false |}.

(** The handlers of the ["file"] event and of a file's ["data"] events. *)
Definition on_event (st : Received) (ev : BusboyEvent) : Received :=
  match ev with
  | OnFile info_filename =>
      {| fileBuffers := fileBuffers st;
         filename := if Js.truthy info_filename then Js.show info_filename
                     else filename st;
         gotFile := true |}
  | OnData data =>
      {| fileBuffers := (fileBuffers st ++ [data])%list;
         filename := filename st;
         gotFile := gotFile st |}
  end.

(** The handler of the ["finish"] event. *)
Definition test_upload_finish (st : Received) : B Reply :=
  if negb (gotFile st) then
    retB {| reply_status := 400; reply_json := J_upload_failed "No file uploaded" |}
  else
    try_catchB
      (let buffer := concat (fileBuffers st) in
       picked <- pickDropboxToken ;;
       let token := fst picked in
       ts <- lift (new_Date (base C)) ;;
       let safeName := JsString.replace_whitespace "_" (filename st) in
       let dropboxPath := "/campus-files/test/" ++ Js.show_Z ts ++ "_" ++ safeName in
       uploadBufferToDropbox token buffer dropboxPath ;;;
       url <- lift (createSharedLinkDirect (base C) token dropboxPath) ;;
       retB {| reply_status := 200; reply_json := J_uploaded dropboxPath url |})
      (fun err =>
         retB {| reply_status := 500;
                 reply_json := J_upload_failed (Js.message err) |}).

(** The route on a request of which [Busboy] reports [events]. *)
Definition test_upload (events : list BusboyEvent) : B Reply :=
  test_upload_finish (fold_left on_event events received_nothing).

End Backend_program.

(** *** The two admin routes, served one request after the other *)

(** A request to one of the routes behind the gate, with its
    [Authorization] header. *)
Inductive AdminRequest :=
| ProcessMaterial (authorization : Js.Str) (id : string)
| RejectMaterial (authorization : Js.Str) (id : string) (reason : option Json.value).

Definition authorization_of (req : AdminRequest) : Js.Str :=
  match req with
  | ProcessMaterial authorization _ => authorization
  | RejectMaterial authorization _ _ => authorization
  end.

(** The state a request leaves. *)
Definition handle (C : Config) (req : AdminRequest) (s : Backend) : Backend :=
  match req with
  | ProcessMaterial authorization id =>
      snd (post_process_material C authorization id s)
  | RejectMaterial authorization id reason =>
      snd (post_reject_material C authorization id reason s)
  end.

Fixpoint serve_admin (C : Config) (requests : list AdminRequest) (s : Backend)
  : Backend :=
  match requests with
  | [] => s
  | req :: rest => serve_admin C rest (handle C req s)
  end.

(** ** Reading runs of these parts *)

(** The calls made between a state and a later one. *)
Definition calls_since (s s' : Backend) : list Call :=
  skipn (List.length (calls s)) (calls s').

Definition is_upload_call (c : Call) : bool :=
  match c with
  | CallUpload _ _ _ _ => true
  | _ => false
  end.

(** Of the events [Busboy] reports: whether one is a file, the non-empty
    file names, and the chunks of data, in order. *)
Definition is_file (ev : BusboyEvent) : bool :=
  match ev with
  | OnFile _ => true
  | OnData _ => false
  end.

Definition file_names (events : list BusboyEvent) : list string :=
  flat_map (fun ev => match ev with
                      | OnFile name => if Js.truthy name then [Js.show name] else []
                      | OnData _ => []
                      end) events.

Definition chunks (events : list BusboyEvent) : list (list Byte.byte) :=
  flat_map (fun ev => match ev with
                      | OnFile _ => []
                      | OnData data => [data]
                      end) events.

(** A payload the gate lets through. *)
Definition admin_payload (user : Payload) : Prop :=
  exists fields,
    Json.get "user_metadata" user = Some (Json.Object fields) /\
    Json.get "isAdmin" fields = Some (Json.Bool true).

(** A header whose second word is a non-empty token that verifies, with the
    configured non-empty secret, as the token of an admin. *)
Definition admin_header (C : Config) (authorization : Js.Str) : Prop :=
  exists header token secret user,
    authorization = Some header /\
    nth_error (JsString.split " " header) 1 = Some token /\ token <> "" /\
    SUPABASE_JWT_SECRET C = Some secret /\ secret <> "" /\
    jwtVerify C token secret = inr user /\
    admin_payload user.

(** The ids of the jobs in the store. *)
Definition job_ids (s : Backend) : list string :=
  map study_materials.id (materials (processing s)).

(** The counter of a job as a number: [null] counts as 0. *)
Definition attempts_value (attempts : option Z) : Z :=
  match attempts with
  | Some n => n
  | None => 0%Z
  end.




(** A counter that has not gone down. *)
Definition attempts_grow (a a' : option Z) : Prop :=
  (attempts_value a <= attempts_value a')%Z.

(** Two states of an account that differ at most in the access credential
    and in [last_used]. *)
Definition same_account_but_token (r r' : dropbox_accounts.row) : Prop :=
  dropbox_accounts.id r' = dropbox_accounts.id r /\
  dropbox_accounts.refresh_token r' = dropbox_accounts.refresh_token r /\
  dropbox_accounts.app_key r' = dropbox_accounts.app_key r /\
  dropbox_accounts.app_secret r' = dropbox_accounts.app_secret r /\
  dropbox_accounts.bytes_used r' = dropbox_accounts.bytes_used r.

(** What identifies an account and lets its credential be renewed. *)
Definition account_core (r : dropbox_accounts.row)
  : string * Js.Str * Js.Str * Js.Str :=
  (dropbox_accounts.id r, dropbox_accounts.refresh_token r,
   dropbox_accounts.app_key r, dropbox_accounts.app_secret r).

(** A step that adds no account, removes none and leaves the core of each
    as it was. *)
Definition accounts_stable (w w' : World) : Prop :=
  map account_core (accounts w') = map account_core (accounts w).

(** Two states of an account that differ at most in [bytes_used]. *)
Definition same_account_but_usage (r r' : dropbox_accounts.row) : Prop :=
  dropbox_accounts.set_bytes_used 0 r' = dropbox_accounts.set_bytes_used 0 r.

(** The [.lt('bytes_used', ...)] filter of [selectDropboxAccount], if any. *)
Definition quota_filter (p : ProcessEnv) : option Q :=
  let maxBytesMB := match MAX_DROPBOX_ACCOUNT_BYTES_MB p with
                    | Some q => q
                    | None => 0%Q
                    end in
  if Qltb 0 maxBytesMB then Some maxBytesMB else None.

Definition is_store_call (e : Event) : bool :=
  match e with
  | EvStore _ _ => true
  | _ => false
  end.

(** ** Concrete configurations and states of these parts *)

Module Cases.

Import Scenario.


(** As [E_no_rpc], and the usage cannot be read either. *)
Definition E_no_read : Env :=
  {| env := process_env;
     store_error := fun _ q =>
       match q with
       | RpcIncrementBytesUsed _ _ => Some "function not found"
       | SelectAccountBytesUsed _ => Some "timeout"
       | _ => None
       end;
     storage_download_error := storage_download_error E_ok;
     storage_remove_error := storage_remove_error E_ok;
     usersGetCurrentAccount := usersGetCurrentAccount E_ok;
     oauth2_token := oauth2_token E_ok;
     filesUpload_result := filesUpload_result E_ok;
     sharingCreateSharedLink_result := sharingCreateSharedLink_result E_ok;
     http_create_shared_link := http_create_shared_link E_ok;
     http_list_shared_links := http_list_shared_links E_ok;
     Date_now := Date_now E_ok;
     float_sum := float_sum E_ok |}.



(** A job whose row has no storage path. *)
Definition job_without_path : study_materials.row :=
  study_materials.mk "abc" None (Some 0%Z) (Some "pending") None None None None.

Definition W_no_path : World := mkWorld [acc_live] [job_without_path] [] [] [].

(** The world a successful run on [W0] leaves; the job in it. *)
Definition W_done : World := snd (process_material E_ok "abc" W0).

Definition job_done : study_materials.row :=
  processed (job 0) 1 "https://www.dropbox.com/s/abc/x.pdf?dl=1".

Definition admin : Payload :=
  [("sub", Json.Text "user-1");
   ("user_metadata", Json.Object [("isAdmin", Json.Bool true)])].

Definition student : Payload :=
  [("sub", Json.Text "user-2");
   ("user_metadata", Json.Object [("isAdmin", Json.Text "true")])].

(** The tokens "tok-admin" and "tok-student" verify with the secret "s3cr3t";
    every call is carried out. *)
Definition C_ok : Config :=
  {| base := E_ok;
     SUPABASE_JWT_SECRET := Some "s3cr3t";
     SUPABASE_URL := Some "https://project.supabase.co";
     SUPABASE_SERVICE_ROLE := Some "service-role";
     USE_DB_TOKENS := Some "true";
     DROPBOX_ACCESS_TOKEN := None;
     jwtVerify := fun token secret =>
       if secret =? "s3cr3t" then
         if token =? "tok-admin" then inr admin
         else if token =? "tok-student" then inr student
         else inl (failure "signature verification failed")
       else inl (failure "signature verification failed");
     delete_material_error := fun _ _ _ => None;
     insert_rejection_log_error := fun _ _ _ => None;
     select_lib_account_error := fun _ _ => None;
     upload_error := fun _ _ _ _ _ => None |}.

(** As [C_ok], with the token taken from the environment. *)
Definition C_env_token : Config :=
  {| base := E_ok;
     SUPABASE_JWT_SECRET := SUPABASE_JWT_SECRET C_ok;
     SUPABASE_URL := None;
     SUPABASE_SERVICE_ROLE := None;
     USE_DB_TOKENS := None;
     DROPBOX_ACCESS_TOKEN := Some "env-token";
     jwtVerify := jwtVerify C_ok;
     delete_material_error := delete_material_error C_ok;
     insert_rejection_log_error := insert_rejection_log_error C_ok;
     select_lib_account_error := select_lib_account_error C_ok;
     upload_error := upload_error C_ok |}.

(** As [C_ok], but the store client of the helper library is not
    configured. *)
Definition C_unconfigured : Config :=
  {| base := E_ok;
     SUPABASE_JWT_SECRET := SUPABASE_JWT_SECRET C_ok;
     SUPABASE_URL := None;
     SUPABASE_SERVICE_ROLE := Some "service-role";
     USE_DB_TOKENS := Some "true";
     DROPBOX_ACCESS_TOKEN := Some "env-token";
     jwtVerify := jwtVerify C_ok;
     delete_material_error := delete_material_error C_ok;
     insert_rejection_log_error := insert_rejection_log_error C_ok;
     select_lib_account_error := select_lib_account_error C_ok;
     upload_error := upload_error C_ok |}.

Definition lib_busy := lib_accounts.mk "l1" (Some "t1") (Some true) (Some 9%Z).
Definition lib_idle := lib_accounts.mk "l2" (Some "t2") (Some true) (Some 2%Z).
Definition lib_off := lib_accounts.mk "l3" (Some "t3") (Some false) (Some 0%Z).

Definition S0 : Backend := mkBackend W0 [] [lib_busy; lib_idle; lib_off] [].

(** A request with one file part named "my  notes.pdf", sent in two
    chunks. *)
Definition one_file : list BusboyEvent :=
  [OnFile (Some "my  notes.pdf"); OnData [Byte.x25; Byte.x50];
   OnData [Byte.x44; Byte.x46]].

End Cases.

(** ** Basic facts about worlds and histories *)

Lemma events_since_app (w w' : World) (evs : list Event) :
  history w' = (history w ++ evs)%list -> events_since w w' = evs.
Proof.
  intros H. unfold events_since. rewrite H.
  rewrite skipn_app, skipn_all, Nat.sub_diag. reflexivity.
Qed.

Lemma history_effect (q : Query) (w : World) : history (effect q w) = history w.
Proof. destruct q; reflexivity. Qed.

Lemma history_carry_out (q : Query) (error : option string) (w : World) :
  history (carry_out q error w) = history w.
Proof. destruct error; simpl; [reflexivity | apply history_effect]. Qed.

Lemma history_removed (paths : list string) (error : option Js.Error) (w : World) :
  history (removed paths error w) = history w.
Proof. destruct error; reflexivity. Qed.

Lemma Qltb_lt (x y : Q) : Qltb x y = true <-> (x < y)%Q.
Proof.
  unfold Qltb. rewrite negb_true_iff. split; intros H.
  - apply Qnot_le_lt. intros Hle. apply Qle_bool_iff in Hle. congruence.
  - destruct (Qle_bool y x) eqn:Hb; [| reflexivity].
    apply Qle_bool_iff in Hb. exfalso. exact (Qlt_not_le _ _ H Hb).
Qed.

Lemma truthy_Some (s : string) : s <> "" -> Js.truthy (Some s) = true.
Proof.
  intros H. simpl. destruct (String.eqb_spec s ""); [contradiction | reflexivity].
Qed.

(** The string helpers on the values the program meets. *)

Example replace_first_occurrence :
  Js.replace "?dl=0" "?dl=1" "https://www.dropbox.com/s/a.pdf?dl=0&next=?dl=0" =
  "https://www.dropbox.com/s/a.pdf?dl=1&next=?dl=0".
Proof. reflexivity. Qed.

Example replace_without_occurrence :
  Js.replace "?dl=0" "?dl=1" "https://www.dropbox.com/scl/fi/k/a.pdf?rlkey=r&dl=0" =
  "https://www.dropbox.com/scl/fi/k/a.pdf?rlkey=r&dl=0".
Proof. reflexivity. Qed.

Example split_pop_of_path : Js.split_pop "materials/2024/notes.pdf" = "notes.pdf".
Proof. reflexivity. Qed.

Example split_pop_without_slash : Js.split_pop "notes.pdf" = "notes.pdf".
Proof. reflexivity. Qed.

Example show_Z_of_timestamp : Js.show_Z 1700000000000 = "1700000000000".
Proof. reflexivity. Qed.

Example to_mb_of_one_mebibyte : to_mb 1048576 = Qmake 10000 10000.
Proof. reflexivity. Qed.

Example to_mb_rounds_to_four_decimals : to_mb 157 = Qmake 1 10000 /\ to_mb 52 = Qmake 0 10000.
Proof. split; reflexivity. Qed.

Arguments Js.replace : simpl never.
Arguments Js.show_Z : simpl never.
Arguments Js.split_pop : simpl never.
Arguments to_mb : simpl never.
Arguments carry_out : simpl never.
Arguments removed : simpl never.
Arguments single : simpl never.
Arguments answer : simpl never.
Arguments current_bytes_used : simpl never.
Arguments coalesce0 : simpl never.
Arguments String.append : simpl never.
Arguments update_where : simpl never.

(** *** Symbolic execution of the small functions

    Unfold the monad, then split on the next answer of a collaborator the
    control flow depends on. *)

Ltac unfold_monad :=
  unfold bind, ret, throw, try_catch, perform, request, new_Date in *.

Ltac norm_history :=
  repeat (rewrite ?history_carry_out, ?history_removed in *; cbn [history log] in * ).

Ltac split_next :=
  match goal with
  | |- context [match ?x with _ => _ end] =>
      lazymatch x with
      | context [match _ with _ => _ end] => fail
      | _ => destruct x eqn:?
      end
  end.

Ltac run := repeat (cbn in *; norm_history; try split_next).

Ltac calc_since :=
  match goal with
  | |- context [events_since ?w ?w'] =>
      let H := fresh in
      eassert (H : events_since w w' = _)
        by (apply events_since_app; cbn; norm_history; rewrite <- ?app_assoc;
            first [reflexivity | symmetry; apply app_nil_r]);
      rewrite H; clear H
  | H0 : context [events_since ?w ?w'] |- _ =>
      let H := fresh in
      eassert (H : events_since w w' = _)
        by (apply events_since_app; cbn; norm_history; rewrite <- ?app_assoc;
            first [reflexivity | symmetry; apply app_nil_r]);
      rewrite H in H0; clear H
  end.

Ltac calc_events :=
  repeat rewrite <- app_assoc in *; cbn in *;
  repeat calc_since;
  unfold carry_out, removed in *; cbn in *.

Ltac split_events :=
  repeat match goal with
         | H : _ \/ _ |- _ => destruct H
         | H : False |- _ => contradiction
         | H : @eq Event _ _ |- _ => inversion H; subst; clear H
         end.

(** *** Steps that go through [bind] and [try_catch] *)

Section Preserves.

Variable R : World -> World -> Prop.
Hypothesis R_refl : forall w, R w w.
Hypothesis R_trans : forall a b c, R a b -> R b c -> R a c.

Lemma preserves_ret {A} (a : A) : preserves R (ret a).
Proof. intros w. apply R_refl. Qed.

Lemma preserves_throw {A} (e : Js.Error) : preserves R (@throw A e).
Proof. intros w. apply R_refl. Qed.

Lemma preserves_bind {A B} (m : M A) (k : A -> M B) :
  preserves R m -> (forall a, preserves R (k a)) -> preserves R (bind m k).
Proof.
  intros Hm Hk w. unfold bind. specialize (Hm w).
  destruct (m w) as [[a | e] w1]; cbn in *; [| exact Hm].
  eapply R_trans; [exact Hm | apply Hk].
Qed.

Lemma preserves_try_catch {A} (m : M A) (h : Js.Error -> M A) :
  preserves R m -> (forall e, preserves R (h e)) -> preserves R (try_catch m h).
Proof.
  intros Hm Hh w. unfold try_catch. specialize (Hm w).
  destruct (m w) as [[a | e] w1]; cbn in *; [exact Hm |].
  eapply R_trans; [exact Hm | apply Hh].
Qed.

End Preserves.

Lemma quiet_refl (w : World) : quiet w w.
Proof.
  split; try reflexivity.
  exists []. split; [symmetry; apply app_nil_r | reflexivity].
Qed.

Lemma quiet_trans (a b c : World) : quiet a b -> quiet b c -> quiet a c.
Proof.
  intros [m1 r1 b1 (e1 & h1 & f1)] [m2 r2 b2 (e2 & h2 & f2)].
  split; try congruence.
  exists (e1 ++ e2)%list. split.
  - rewrite h2, h1, app_assoc. reflexivity.
  - rewrite forallb_app, f1, f2. reflexivity.
Qed.

Lemma quiet_log (e : Event) (w : World) : background e = true -> quiet w (log e w).
Proof.
  intros H. split; try reflexivity. exists [e]. split; [reflexivity |].
  cbn. rewrite H. reflexivity.
Qed.

Lemma quiet_carry_out (q : Query) (error : option string) (w : World) :
  account_query q = true -> quiet w (carry_out q error w).
Proof.
  intros H. destruct error; [apply quiet_refl |].
  destruct q; try discriminate; cbn; (split; try reflexivity);
    exists []; (split; [symmetry; apply app_nil_r | reflexivity]).
Qed.

Section Quiet.

Variable E : Env.

Lemma quiet_request (q : Query) :
  account_query q = true -> preserves quiet (request E q).
Proof.
  intros H w. unfold request. cbn.
  eapply quiet_trans; [apply quiet_carry_out, H | apply quiet_log; exact H].
Qed.

Lemma quiet_select_single {R} (q : Query) (rows : World -> list R) :
  account_query q = true -> preserves quiet (select_single E q rows).
Proof. intros H w. unfold select_single. cbn. apply quiet_log. exact H. Qed.

Lemma quiet_select_accounts (lt : option Q) :
  preserves quiet (select_accounts_by_last_used E lt).
Proof.
  intros w. unfold select_accounts_by_last_used. cbn. apply quiet_log. reflexivity.
Qed.

Lemma quiet_new_Date : preserves quiet (new_Date E).
Proof. intros w. apply quiet_refl. Qed.

Lemma quiet_perform {A} (res : Js.Error + A) (ev : Event) :
  background ev = true -> preserves quiet (perform res ev).
Proof. intros H w. unfold perform. destruct res; cbn; apply quiet_log, H. Qed.

Lemma quiet_storage_download (path : string) :
  preserves quiet (storage_download E path).
Proof.
  intros w. unfold storage_download.
  destruct (storage_download_error E (history w) path); [| destruct (find _ _)];
    cbn; apply quiet_log; reflexivity.
Qed.

Lemma quiet_usersGetCurrentAccount (dbx : Dropbox.client) :
  preserves quiet (dbx_usersGetCurrentAccount E dbx).
Proof.
  intros w. unfold dbx_usersGetCurrentAccount.
  destruct (usersGetCurrentAccount E (history w) _); cbn; apply quiet_log; reflexivity.
Qed.

Lemma quiet_post_oauth2_token (a b c : Js.Str) :
  preserves quiet (post_oauth2_token E a b c).
Proof. intros w. unfold post_oauth2_token. apply quiet_perform. reflexivity. Qed.

Ltac quiet_step :=
  first
    [ apply (preserves_bind quiet quiet_trans)
    | apply (preserves_try_catch quiet quiet_trans)
    | apply (preserves_ret quiet quiet_refl)
    | apply (preserves_throw quiet quiet_refl)
    | apply quiet_request; reflexivity
    | apply quiet_select_single; reflexivity
    | apply quiet_select_accounts
    | apply quiet_new_Date
    | apply quiet_storage_download
    | apply quiet_usersGetCurrentAccount
    | apply quiet_post_oauth2_token
    | match goal with
      | |- preserves _ (match ?x with _ => _ end) => destruct x
      | |- forall _, _ => intro
      end ].

Lemma quiet_ensureAccessToken (row : dropbox_accounts.row) :
  preserves quiet (ensureAccessToken E row).
Proof.
  unfold ensureAccessToken, testDropboxToken, refreshDropboxAccessToken.
  repeat quiet_step.
Qed.

Lemma quiet_selectDropboxAccount : preserves quiet (selectDropboxAccount E).
Proof. unfold selectDropboxAccount. repeat quiet_step. Qed.

Lemma quiet_getDropboxTokenFromDB : preserves quiet (getDropboxTokenFromDB E).
Proof.
  unfold getDropboxTokenFromDB.
  apply (preserves_bind quiet quiet_trans); [apply quiet_selectDropboxAccount |].
  intros account.
  apply (preserves_bind quiet quiet_trans); [apply quiet_ensureAccessToken |].
  intros res. apply (preserves_ret quiet quiet_refl).
Qed.

Lemma quiet_incrementDropboxBytesUsed (accountId : string) (uploadBytes : Z) :
  preserves quiet (incrementDropboxBytesUsed E accountId uploadBytes).
Proof.
  unfold incrementDropboxBytesUsed, select_account_bytes_used. repeat quiet_step.
Qed.

Lemma quiet_downloadFromSupabase (path : Js.Str) :
  preserves quiet (downloadFromSupabase E path).
Proof. unfold downloadFromSupabase. apply quiet_storage_download. Qed.

Lemma incrementDropboxBytesUsed_returns (accountId : string) (uploadBytes : Z)
  (w : World) :
  fst (incrementDropboxBytesUsed E accountId uploadBytes w) = Returned tt.
Proof.
  unfold incrementDropboxBytesUsed, select_account_bytes_used, select_single.
  unfold_monad. cbn.
  destruct (store_error E (history w) _); reflexivity.
Qed.

End Quiet.

(** ** The token validity check *)

(** Claim C10.  For every credential, the validity check returns a boolean
    and never raises: [true] when the provider's liveness call succeeds,
    [false] when it fails with any error. *)
Theorem testDropboxToken_never_raises
  (E : Env) (accessToken : Js.Str) (w : World) :
  fst (testDropboxToken E accessToken w) =
  Returned (match usersGetCurrentAccount E (history w) accessToken with
            | None => true
            | Some _ => false
            end).
Proof.
  unfold testDropboxToken, dbx_usersGetCurrentAccount. unfold_monad. cbn.
  destruct (usersGetCurrentAccount E (history w) accessToken); reflexivity.
Qed.

(** ** The token lifecycle: [ensureAccessToken] *)

Ltac unfold_ensure :=
  unfold ensureAccessToken, testDropboxToken, refreshDropboxAccessToken,
    dbx_usersGetCurrentAccount, post_oauth2_token;
  unfold_monad.

(** Claim C4.  An account whose access credential is non-null and passes the
    liveness check (with a provider that does not accept the empty
    credential): no refresh call is made, the same credential and row are
    returned, the only calls are the liveness check and the [last_used]
    update of that account, and nothing else in the store changes. *)
Theorem ensureAccessToken_live_credential
  (E : Env) (row : dropbox_accounts.row) (w : World) (tok : string) :
  dropbox_accounts.access_token row = Some tok ->
  usersGetCurrentAccount E (history w) (Some tok) = None ->
  usersGetCurrentAccount E (history w) (Some "") <> None ->
  let w' := snd (ensureAccessToken E row w) in
  fst (ensureAccessToken E row w) =
    Returned {| accountRow := row; accessToken := Some tok |} /\
  refresh_calls (events_since w w') = [] /\
  exists now error,
    events_since w w' =
      [EvUsersGetCurrentAccount (Some tok) None;
       EvStore (UpdateAccountLastUsed (dropbox_accounts.id row) now) error] /\
    accounts w' =
      match error with
      | None => update_where dropbox_accounts.id (dropbox_accounts.id row)
                  (dropbox_accounts.set_last_used now) (accounts w)
      | Some _ => accounts w
      end /\
    materials w' = materials w /\ records w' = records w /\ bucket w' = bucket w.
Proof.
  intros Htok Hlive Hempty.
  assert (Hne : tok <> "") by (intros ->; contradiction).
  unfold_ensure. rewrite Htok, (truthy_Some _ Hne). cbn. rewrite Hlive. cbn.
  split; [reflexivity |].
  calc_since. split; [reflexivity |].
  eexists _, _. split; [cbn; reflexivity |].
  match goal with |- context [carry_out _ ?e _] => destruct e end; cbn; auto.
Qed.

(** Claim C3, as amended.  An account whose access credential is absent
    (null or empty) or fails the liveness check, whose refresh credential is
    non-empty and whose app key and secret resolve to non-empty values (the
    account's own value wins over the process-wide default whenever it is
    non-empty): exactly one refresh call is made, with those three values.  When it fails, the failure is thrown
    and the accounts are unchanged.  When it yields a credential, one store
    write of that credential and a fresh [last_used] follows for this
    account: carried out, the row holds them and the updated row and the
    credential are returned; refused, the accounts are unchanged and the
    refusal is thrown. *)
Theorem ensureAccessToken_refreshes_once
  (E : Env) (row : dropbox_accounts.row) (w : World) :
  let accessToken := dropbox_accounts.access_token row in
  let refreshToken := dropbox_accounts.refresh_token row in
  let clientId :=
    Js.or (dropbox_accounts.app_key row) (DROPBOX_CLIENT_ID (env E)) in
  let clientSecret :=
    Js.or (dropbox_accounts.app_secret row) (DROPBOX_CLIENT_SECRET (env E)) in
  let id := dropbox_accounts.id row in
  let result := ensureAccessToken E row w in
  let w' := snd result in
  Js.truthy accessToken = false \/
    usersGetCurrentAccount E (history w) accessToken <> None ->
  Js.truthy refreshToken = true ->
  Js.truthy clientId = true ->
  Js.truthy clientSecret = true ->
  (Js.truthy (dropbox_accounts.app_key row) = true ->
   clientId = dropbox_accounts.app_key row) /\
  (Js.truthy (dropbox_accounts.app_secret row) = true ->
   clientSecret = dropbox_accounts.app_secret row) /\
  exists res,
    refresh_calls (events_since w w') =
      [EvOAuthToken refreshToken clientId clientSecret res] /\
    match res with
    | inl err =>
        fst result =
          Thrown (Js.new_Error
                    ("Failed to refresh Dropbox token: " ++ refresh_failure_text err)) /\
        accounts w' = accounts w
    | inr newTok =>
        exists now error,
          In (EvStore (UpdateAccountToken id newTok now) error) (events_since w w') /\
          match error with
          | None =>
              accounts w' =
                update_where dropbox_accounts.id id
                  (fun r => dropbox_accounts.set_last_used now
                              (dropbox_accounts.set_access_token (Some newTok) r))
                  (accounts w) /\
              fst result =
                Returned {| accountRow :=
                              dropbox_accounts.set_access_token (Some newTok) row;
                            accessToken := Some newTok |}
          | Some msg =>
              accounts w' = accounts w /\
              fst result =
                Thrown (Js.new_Error
                          ("Failed to update refreshed access token in DB: " ++ msg))
          end
    end.
Proof.
  cbn zeta. intros Hstale Hrt Hcid Hcs.
  split; [intros H; unfold Js.or; rewrite H; reflexivity |].
  split; [intros H; unfold Js.or; rewrite H; reflexivity |].
  unfold_ensure. rewrite Hrt, Hcid, Hcs.
  run.
  all: try (destruct Hstale; congruence).
  all: calc_events.
  all: eexists; (split; [reflexivity |]); cbn; auto.
  all: eexists _, _; (split; [eauto 6 |]); cbn; auto.
Qed.

(** Claim C1, as amended.  When the store refuses the write of a refreshed
    credential, [ensureAccessToken] throws "Failed to update refreshed access
    token in DB: ..." with the store's message; the refresh call had
    succeeded, the outcome is that exception and not a result, and the
    accounts in the store are unchanged. *)
Theorem persist_failure_throws
  (E : Env) (row : dropbox_accounts.row) (w : World)
  (newTok : string) (now : Z) (msg : string) :
  let result := ensureAccessToken E row w in
  In (EvStore (UpdateAccountToken (dropbox_accounts.id row) newTok now) (Some msg))
     (events_since w (snd result)) ->
  fst result =
    Thrown (Js.new_Error ("Failed to update refreshed access token in DB: " ++ msg)) /\
  (forall res : Ensured, fst result <> Returned res) /\
  In (EvOAuthToken (dropbox_accounts.refresh_token row)
        (Js.or (dropbox_accounts.app_key row) (DROPBOX_CLIENT_ID (env E)))
        (Js.or (dropbox_accounts.app_secret row) (DROPBOX_CLIENT_SECRET (env E)))
        (inr newTok))
     (events_since w (snd result)) /\
  accounts (snd result) = accounts w.
Proof.
  unfold_ensure. run.
  all: intros Hin; calc_events; split_events.
  all: repeat split; auto 10; intros res; discriminate.
Qed.

(** ** Account selection: [selectDropboxAccount] *)

Lemma last_used_le_refl (a : option Z) : last_used_le a a = true.
Proof. destruct a; cbn; [apply Z.leb_refl | reflexivity]. Qed.

Lemma last_used_le_trans (a b c : option Z) :
  last_used_le a b = true -> last_used_le b c = true -> last_used_le a c = true.
Proof.
  destruct a, b, c; cbn; try congruence; rewrite !Z.leb_le; lia.
Qed.

Lemma last_used_le_total (a b : option Z) :
  last_used_le a b = false -> last_used_le b a = true.
Proof.
  destruct a, b; cbn; try congruence.
  rewrite Z.leb_gt, Z.leb_le. lia.
Qed.

Lemma In_insert_by_last_used (x r : dropbox_accounts.row)
  (l : list dropbox_accounts.row) :
  In x (insert_by_last_used r l) <-> x = r \/ In x l.
Proof.
  induction l as [| y l IH]; cbn.
  - intuition.
  - destruct (last_used_le _ _); cbn; [intuition |].
    rewrite IH. intuition.
Qed.

Lemma In_order_by_last_used (x : dropbox_accounts.row)
  (l : list dropbox_accounts.row) :
  In x (order_by_last_used l) <-> In x l.
Proof.
  induction l as [| y l IH]; cbn; [reflexivity |].
  rewrite In_insert_by_last_used, IH. intuition.
Qed.

(** The first row of the ordered selection is used no later than any row. *)
Lemma order_by_last_used_head (l : list dropbox_accounts.row)
  (r : dropbox_accounts.row) (rest : list dropbox_accounts.row) :
  order_by_last_used l = r :: rest ->
  forall r', In r' l ->
    last_used_le (dropbox_accounts.last_used r) (dropbox_accounts.last_used r') = true.
Proof.
  revert r rest. induction l as [| x l IH]; intros r rest Hord r' Hin.
  - destruct Hin.
  - cbn in Hord.
    destruct (order_by_last_used l) as [| y ys] eqn:Hl.
    + cbn in Hord. injection Hord as <- <-.
      destruct Hin as [<- | Hin]; [apply last_used_le_refl |].
      apply In_order_by_last_used in Hin. rewrite Hl in Hin. destruct Hin.
    + cbn in Hord.
      destruct (last_used_le (dropbox_accounts.last_used x)
                  (dropbox_accounts.last_used y)) eqn:Hxy.
      * injection Hord as <- <-.
        destruct Hin as [<- | Hin]; [apply last_used_le_refl |].
        eapply last_used_le_trans; [exact Hxy |].
        eapply IH; [reflexivity | exact Hin].
      * injection Hord as <- <-.
        destruct Hin as [<- | Hin].
        -- apply last_used_le_total. exact Hxy.
        -- eapply IH; [reflexivity | exact Hin].
Qed.

Lemma order_by_last_used_nil (l : list dropbox_accounts.row) :
  order_by_last_used l = [] -> l = [].
Proof.
  destruct l as [| x l]; [reflexivity |]. intros H.
  assert (Hin : In x (order_by_last_used (x :: l)))
    by (apply In_order_by_last_used; left; reflexivity).
  rewrite H in Hin. destruct Hin.
Qed.

(** The rows the query of [selectDropboxAccount] ranges over are those the
    quota lets through. *)
Lemma In_eligible (p : ProcessEnv) (l : list dropbox_accounts.row)
  (r : dropbox_accounts.row) :
  let maxBytesMB := match MAX_DROPBOX_ACCOUNT_BYTES_MB p with
                    | Some q => q
                    | None => 0%Q
                    end in
  In r (eligible (if Qltb 0 maxBytesMB then Some maxBytesMB else None) l) <->
  In r l /\ within_quota p r.
Proof.
  cbn zeta. unfold within_quota.
  destruct (MAX_DROPBOX_ACCOUNT_BYTES_MB p) as [c |].
  - destruct (Qltb 0 c) eqn:Hc; cbn.
    + apply Qltb_lt in Hc. rewrite filter_In. unfold lt_bytes_used.
      split.
      * intros [Hin Hlt]. split; [exact Hin |].
        intros c' Hc' _. injection Hc' as <-.
        destruct (dropbox_accounts.bytes_used r) as [b |]; [| discriminate].
        exists b. split; [reflexivity | apply Qltb_lt; exact Hlt].
      * intros [Hin Hq]. split; [exact Hin |].
        destruct (Hq c eq_refl Hc) as (b & -> & Hb). apply Qltb_lt. exact Hb.
    + split; [| tauto]. intros Hin. split; [exact Hin |].
      intros c' Hc' Hpos. injection Hc' as <-.
      apply Qltb_lt in Hpos. congruence.
  - cbn. split; [| tauto]. intros Hin. split; [exact Hin |]. discriminate.
Qed.

(** Claim C7.  When the store answers the selection: the account returned
    is one the quota lets through (with a ceiling in force its usage is below
    the ceiling, so no account at or above the ceiling is ever returned;
    without one every account qualifies) and it is first in ascending
    [last_used] order among those; the selection fails with "No suitable
    Dropbox account found" exactly when no account qualifies; and the tables
    and the bucket are left as they were. *)
Theorem selectDropboxAccount_contract (E : Env) (w : World) :
  (forall lt, store_error E (history w) (SelectAccountsByLastUsed lt) = None) ->
  let result := selectDropboxAccount E w in
  let w' := snd result in
  match fst result with
  | Returned r =>
      In r (accounts w) /\ within_quota (env E) r /\
      forall r', In r' (accounts w) -> within_quota (env E) r' ->
        last_used_le (dropbox_accounts.last_used r)
                     (dropbox_accounts.last_used r') = true
  | Thrown e =>
      e = Js.new_Error "No suitable Dropbox account found" /\
      forall r', In r' (accounts w) -> ~ within_quota (env E) r'
  end /\
  (forall r' c b,
      MAX_DROPBOX_ACCOUNT_BYTES_MB (env E) = Some c -> (0 < c)%Q ->
      dropbox_accounts.bytes_used r' = Some b -> (c <= b)%Q ->
      fst result <> Returned r') /\
  ((forall c, MAX_DROPBOX_ACCOUNT_BYTES_MB (env E) = Some c -> ~ (0 < c)%Q) ->
   forall r', within_quota (env E) r') /\
  accounts w' = accounts w /\ materials w' = materials w /\
  records w' = records w /\ bucket w' = bucket w.
Proof.
  intros Hstore. cbn zeta.
  assert (Hmain :
    match fst (selectDropboxAccount E w) with
    | Returned r =>
        In r (accounts w) /\ within_quota (env E) r /\
        forall r', In r' (accounts w) -> within_quota (env E) r' ->
          last_used_le (dropbox_accounts.last_used r)
                       (dropbox_accounts.last_used r') = true
    | Thrown e =>
        e = Js.new_Error "No suitable Dropbox account found" /\
        forall r', In r' (accounts w) -> ~ within_quota (env E) r'
    end).
  { unfold selectDropboxAccount, select_accounts_by_last_used. unfold_monad.
    cbn. rewrite Hstore. unfold answer.
    match goal with
    | |- context [order_by_last_used ?l] =>
        destruct (order_by_last_used l) as [| r rest] eqn:Hord
    end; cbn.
    - split; [reflexivity |]. intros r' Hin Hq.
      apply order_by_last_used_nil in Hord.
      assert (Hr' : In r' []) by (rewrite <- Hord; apply In_eligible; auto).
      destruct Hr'.
    - assert (Hr : In r (r :: rest)) by (left; reflexivity).
      rewrite <- Hord in Hr. apply In_order_by_last_used, In_eligible in Hr.
      destruct Hr as [Hin Hq]. repeat split; auto.
      intros r' Hin' Hq'. eapply order_by_last_used_head; [exact Hord |].
      apply In_eligible. auto. }
  split; [exact Hmain |]. split; [| split].
  - intros r' c b Hc Hpos Hb Hge Hres. rewrite Hres in Hmain.
    destruct Hmain as (_ & Hq & _).
    destruct (Hq c Hc Hpos) as (b' & Hb' & Hlt).
    rewrite Hb in Hb'. injection Hb' as <-.
    exact (Qlt_not_le _ _ Hlt Hge).
  - intros Hno r' c Hc Hpos. exfalso. exact (Hno c Hc Hpos).
  - unfold selectDropboxAccount, select_accounts_by_last_used. unfold_monad.
    cbn. rewrite Hstore. unfold answer.
    match goal with
    | |- context [order_by_last_used ?l] =>
        destruct (order_by_last_used l) as [| r rest]
    end; cbn; auto.
Qed.

(** ** The helper library: [createSharedLinkDirect] *)

Lemma replace_dl0_suffix (body : string) :
  no_question_mark body = true -> Js.replace "?dl=0" "" (body ++ "?dl=0") = body.
Proof.
  induction body as [| c body IH]; intros H.
  - reflexivity.
  - cbn in H. apply andb_true_iff in H. destruct H as [Hc Hbody].
    apply negb_true_iff in Hc.
    change (String c body ++ "?dl=0") with (String c (body ++ "?dl=0")).
    unfold Js.replace; fold Js.replace.
    cbn [String.prefix].
    destruct (ascii_dec "?" c) as [<- | Hne]; [discriminate Hc |].
    rewrite (IH Hbody). reflexivity.
Qed.

(** What the normalisation does to a link of the provider's usual form. *)
Lemma direct_url_of_shared_link (body : string) :
  no_question_mark body = true ->
  direct_url ("https://www.dropbox.com" ++ body ++ "?dl=0") =
  "https://dl.dropboxusercontent.com" ++ body.
Proof.
  intros H. unfold direct_url.
  assert (Hhost :
    Js.replace "www.dropbox.com" "dl.dropboxusercontent.com"
      ("https://www.dropbox.com" ++ body ++ "?dl=0") =
    "https://dl.dropboxusercontent.com" ++ (body ++ "?dl=0"))
    by (destruct body; reflexivity).
  rewrite Hhost.
  change (Js.replace "?dl=0" "" ("https://dl.dropboxusercontent.com" ++ (body ++ "?dl=0")))
    with ("https://dl.dropboxusercontent.com" ++ Js.replace "?dl=0" "" (body ++ "?dl=0")).
  rewrite (replace_dl0_suffix body H). reflexivity.
Qed.

(** Claim C9.  When creating the shared link fails (the path already has
    one) and the listing of the path's links answers: with a non-empty list
    the function returns the first listed link, normalised (host rewritten
    to the direct-download host, "?dl=0" removed), not an error; with an
    empty list it raises. *)
Theorem createSharedLinkDirect_existing_link
  (E : Env) (token : Js.Str) (dropboxPath : string) (w : World)
  (err : Js.Error) (links : list string) :
  let result := createSharedLinkDirect E token dropboxPath w in
  events_since w (snd result) =
    [EvHttpCreateSharedLink token dropboxPath (inl err);
     EvHttpListSharedLinks token dropboxPath (inr links)] ->
  match links with
  | url :: _ =>
      fst result = Returned (direct_url url) /\
      forall body,
        no_question_mark body = true ->
        url = "https://www.dropbox.com" ++ body ++ "?dl=0" ->
        fst result = Returned ("https://dl.dropboxusercontent.com" ++ body)
  | [] =>
      fst result =
        Thrown (Js.new_TypeError
                  "Cannot read properties of undefined (reading 'url')")
  end.
Proof.
  unfold createSharedLinkDirect, post_create_shared_link, post_list_shared_links.
  unfold_monad. run.
  all: intros Hev; calc_events; try discriminate.
  all: inversion Hev; subst.
  - reflexivity.
  - split; [reflexivity |].
    intros body Hbody ->. rewrite (direct_url_of_shared_link body Hbody). reflexivity.
Qed.

(** ** The processing route, step by step *)

Lemma single_filter_id {R} (key : R -> string) (id : string) (l : list R) (r : R)
  (error : option string) :
  single (filter (fun x => key x =? id) l) = (Some r, error) ->
  key r = id /\ filter (fun x => key x =? id) l = [r].
Proof.
  unfold single. intros H.
  destruct (filter (fun x => key x =? id) l) as [| x [| y rest]] eqn:Hf;
    try discriminate.
  injection H as <- _. split; [| reflexivity].
  assert (Hin : In x (filter (fun x => key x =? id) l))
    by (rewrite Hf; left; reflexivity).
  apply filter_In in Hin. destruct Hin as [_ Hk].
  apply String.eqb_eq. exact Hk.
Qed.

Lemma answer_found {D} (error : option string) (selected : option D * option string)
  (d : D) :
  answer error selected = (Some d, None) -> error = None /\ selected = (Some d, None).
Proof. destruct error; cbn; [discriminate | auto]. Qed.

(** When [ensureAccessToken] returns, its last call is a store write for the
    account it was given. *)
Lemma ensureAccessToken_last_write (E : Env) (row : dropbox_accounts.row)
  (w w' : World) (res : Ensured) :
  ensureAccessToken E row w = (Returned res, w') ->
  exists pre ev,
    history w' = (history w ++ pre ++ [ev])%list /\
    account_write_of ev = Some (dropbox_accounts.id row).
Proof.
  unfold_ensure. run.
  all: intros H; inversion H; subst; clear H; norm_history.
  all: repeat rewrite <- app_assoc; cbn.
  all: first [ eexists [_; _], _; split; [reflexivity | reflexivity]
             | eexists [_], _; split; [reflexivity | reflexivity]
             | eexists [], _; split; [reflexivity | reflexivity] ].
Qed.

Lemma getDropboxTokenFromDB_last_write (E : Env) (w w' : World)
  (tok : Js.Str) (aid : string) :
  getDropboxTokenFromDB E w = (Returned (tok, aid), w') ->
  exists pre ev,
    history w' = (history w ++ pre ++ [ev])%list /\ account_write_of ev = Some aid.
Proof.
  unfold getDropboxTokenFromDB, bind, ret.
  pose proof (quiet_selectDropboxAccount E w) as Hq.
  destruct (selectDropboxAccount E w) as [[account | e] w1]; [| discriminate].
  destruct (ensureAccessToken E account w1) as [[res | e] w2] eqn:Hens;
    [| discriminate].
  intros H. injection H as <- <- <-.
  destruct (ensureAccessToken_last_write _ _ _ _ _ Hens) as (pre & ev & Hh & Hev).
  destruct Hq as [_ _ _ (bg & Hbg & _)]. cbn in Hbg.
  exists (bg ++ pre)%list, ev. split; [| exact Hev].
  rewrite Hh, Hbg, <- !app_assoc. reflexivity.
Qed.

(** The runs of step 7: the upload succeeds at once; or it fails and the
    account row cannot be fetched; or the row is fetched and
    [ensureAccessToken] throws; or [ensureAccessToken] returns and one more
    upload, with the credential it returned, decides the outcome. *)
Lemma upload_with_retry_run (E : Env) (dbx : Dropbox.client) (aid : string)
  (path : string) (buf : list Byte.byte) (w : World) :
  let tok := Dropbox.accessToken dbx in
  let result := upload_with_retry E dbx aid path buf w in
  (exists pl,
      result = (Returned pl, log (EvFilesUpload tok path buf (inr pl)) w)) \/
  exists e1 err,
    let w2 := log (EvStore (SelectAccountById aid) err)
                (log (EvFilesUpload tok path buf (inl e1)) w) in
    result = (Thrown e1, w2) \/
    exists data w3,
      err = None /\ dropbox_accounts.id data = aid /\ quiet w2 w3 /\
      ((exists e, ensureAccessToken E data w2 = (Thrown e, w3) /\
                  result = (Thrown e, w3)) \/
       (exists refreshed res2,
           ensureAccessToken E data w2 = (Returned refreshed, w3) /\
           result =
             (match res2 with
              | inl e2 => Thrown e2
              | inr pl => Returned pl
              end,
              log (EvFilesUpload (accessToken refreshed) path buf res2) w3))).
Proof.
  cbn zeta.
  set (result := upload_with_retry E dbx aid path buf w).
  assert (Hres : result = upload_with_retry E dbx aid path buf w) by reflexivity.
  clearbody result.
  unfold upload_with_retry, try_catch, dbx_filesUpload, perform in Hres.
  destruct (filesUpload_result E (history w) (Dropbox.accessToken dbx) path buf)
    as [e1 | pl] eqn:Hup1.
  - right. exists e1.
    unfold bind at 1 in Hres. unfold select_account_by_id, select_single in Hres.
    cbn [history log] in Hres.
    match type of Hres with
    | context [answer ?e ?s] => destruct (answer e s) as [[data |] [err |]] eqn:Hsel
    end; cbn [snd] in Hres.
    + exists (Some err). left. exact Hres.
    + exists None. right.
      apply answer_found in Hsel. destruct Hsel as [_ Hsel].
      apply single_filter_id in Hsel. destruct Hsel as [Hid _].
      unfold bind in Hres.
      match type of Hres with
      | context [ensureAccessToken E data ?w2] =>
          pose proof (quiet_ensureAccessToken E data w2) as Hq;
          destruct (ensureAccessToken E data w2) as [[refreshed | e] w3] eqn:Hens
      end; cbn [snd] in Hq.
      * exists data, w3.
        split; [reflexivity | split; [exact Hid | split; [exact Hq |]]]. right.
        cbn [history log Dropbox.accessToken] in Hres.
        match type of Hres with
        | context [filesUpload_result E ?h ?t path buf] =>
            exists refreshed, (filesUpload_result E h t path buf);
            destruct (filesUpload_result E h t path buf)
        end; split; auto.
      * exists data, w3.
        split; [reflexivity | split; [exact Hid | split; [exact Hq |]]]. left.
        exists e. split; auto.
    + exists (Some err). left. exact Hres.
    + exists None. left. exact Hres.
  - left. exists pl. exact Hres.
Qed.

(** The runs of the handler once the material is found and below the
    limit: the attempts write, then either a failure before the upload, or
    the upload block followed by link creation, the record, the accounting,
    the final update and the removal of the source. *)
Lemma process_found_run (E : Env) (id : string) (material : study_materials.row)
  (w : World) :
  let n := next_attempts (study_materials.attempts material) in
  let result := process_found E id material w in
  exists err0,
    let w1 := log (EvStore (UpdateMaterialProcessing id n) err0)
                (carry_out (UpdateMaterialProcessing id n) err0 w) in
    (exists e w3, quiet w1 w3 /\ result = (Thrown e, w3)) \/
    exists w3 tok aid path buf p bg3,
      history w3 = (history w1 ++ bg3)%list /\
      forallb background bg3 = true /\
      (exists pre ev,
          bg3 = (pre ++ [ev])%list /\ account_write_of ev = Some aid) /\
      materials w3 = materials w1 /\
      records w3 = records w1 /\
      bucket w3 = bucket w1 /\
      study_materials.storage_path material = Some p /\
      match upload_with_retry E (Dropbox.new tok) aid path buf w3 with
      | (Thrown e, w4) => result = (Thrown e, w4)
      | (Returned pl, w4) =>
          exists res,
            let w5 := log (EvSharingCreateSharedLink tok pl res) w4 in
            match res with
            | inl e => result = (Thrown e, w5)
            | inr url =>
                let u := Js.replace "?dl=0" "?dl=1" url in
                exists t errI w7 errD errR,
                  quiet
                    (log (EvStore (InsertFileRecord (file_records.mk id path u t)) errI)
                       (carry_out (InsertFileRecord (file_records.mk id path u t))
                          errI w5))
                    w7 /\
                  result =
                    (Returned {| status := 200;
                                 body := Json_complete "Processing complete" u |},
                     log (EvStorageRemove [p] errR)
                       (removed [p] errR
                          (log (EvStore (UpdateMaterialDone id u) errD)
                             (carry_out (UpdateMaterialDone id u) errD w7))))
            end
      end.
Proof.
  cbn zeta.
  set (result := process_found E id material w).
  assert (Hres : result = process_found E id material w) by reflexivity.
  clearbody result.
  unfold process_found, bind in Hres.
  unfold request, new_Date, storage_remove, dbx_sharingCreateSharedLinkWithSettings,
    perform in Hres.
  cbv beta iota zeta in Hres.
  eexists. 
  match type of Hres with
  | context [downloadFromSupabase E ?sp ?w1] =>
      pose proof (quiet_downloadFromSupabase E sp w1) as Hq1;
      destruct (downloadFromSupabase E sp w1) as [[buf | e] w2] eqn:Hdl
  end; cbn [snd] in Hq1.
  2:{ left. exists e, w2. split; [exact Hq1 | exact Hres]. }
  pose proof (quiet_getDropboxTokenFromDB E w2) as Hq2.
  destruct (getDropboxTokenFromDB E w2) as [[[tok aid] | e] w3] eqn:Htok;
    cbn [snd] in Hq2.
  2:{ left. exists e, w3. split; [eapply quiet_trans; eauto | exact Hres]. }
  assert (Hq13 := quiet_trans _ _ _ Hq1 Hq2).
  unfold storage_file_name in Hres.
  destruct (study_materials.storage_path material) as [p |] eqn:Hp.
  2:{ left. unfold throw in Hres. eexists _, w3. split; [exact Hq13 | exact Hres]. }
  unfold ret in Hres. cbv beta iota zeta in Hres. cbn [fst snd] in Hres.
  right.
  destruct (getDropboxTokenFromDB_last_write _ _ _ _ _ Htok) as (pre & ev & Hh & Hev).
  destruct Hq1 as [_ _ _ (bg & Hbg & _)].
  destruct Hq13 as [Hm13 Hr13 Hb13 (bg13 & Hbg13 & Hf13)].
  assert (Hbg3 : bg13 = ((bg ++ pre) ++ [ev])%list).
  { rewrite Hh, Hbg, <- !app_assoc in Hbg13.
    apply app_inv_head in Hbg13. rewrite <- !app_assoc. symmetry. exact Hbg13. }
  match type of Hres with
  | context [upload_with_retry E ?d ?a ?pa ?b w3] =>
      exists w3, tok, aid, pa, buf, p, bg13;
      (split; [rewrite Hh, Hbg, Hbg3, <- !app_assoc; reflexivity |]);
      (split; [exact Hf13 |]);
      (split; [exists (bg ++ pre)%list, ev; split; [exact Hbg3 | exact Hev] |]);
      (split; [exact Hm13 |]); (split; [exact Hr13 |]); (split; [exact Hb13 |]);
      (split; [reflexivity |]);
      destruct (upload_with_retry E d a pa b w3) as [[pl | e] w4] eqn:Hup
  end.
  2:{ exact Hres. }
  cbn [Dropbox.accessToken] in Hres.
  match type of Hres with
  | context [sharingCreateSharedLink_result E ?h ?t ?pa] =>
      exists (sharingCreateSharedLink_result E h t pa);
      destruct (sharingCreateSharedLink_result E h t pa) as [e | url] eqn:Hshare
  end.
  { exact Hres. }
  cbn [Js.show] in Hres.
  match type of Hres with
  | context [incrementDropboxBytesUsed E ?a ?n ?w6] =>
      pose proof (quiet_incrementDropboxBytesUsed E a n w6) as Hq7;
      pose proof (incrementDropboxBytesUsed_returns E a n w6) as Hret;
      destruct (incrementDropboxBytesUsed E a n w6) as [[[] | e] w7] eqn:Hinc
  end; cbn [fst snd] in Hq7, Hret; [| discriminate Hret].
  eexists _, _, w7, _, _. split; [exact Hq7 |].
  norm_history. exact Hres.
Qed.

(** The runs of the handler: not found; refused at the limit; or the body
    above, whose exception the [catch] block turns into the failed state and
    a 500 answer. *)
Lemma process_material_run (E : Env) (id : string) (w : World) :
  let result := process_material E id w in
  let sel := answer (store_error E (history w) (SelectMaterialById id))
               (single (filter (fun r => study_materials.id r =? id) (materials w))) in
  let w0 := log (EvStore (SelectMaterialById id) (snd sel)) w in
  match sel with
  | (Some material, None) =>
      if attempts_ge_3 (study_materials.attempts material) then
        exists err,
          result =
            (Returned {| status := 400; body := Json_error "Max retries reached" |},
             log (EvStore (UpdateMaterialFailed id "Max retries reached") err)
               (carry_out (UpdateMaterialFailed id "Max retries reached") err w0))
      else
        match process_found E id material w0 with
        | (Returned r, w') => result = (Returned r, w')
        | (Thrown e, w') =>
            exists err,
              result =
                (Returned {| status := 500;
                             body := Json_failed "Processing failed"
                                       (Js.message_or_string e) |},
                 log (EvStore (UpdateMaterialFailed id (Js.message e)) err)
                   (carry_out (UpdateMaterialFailed id (Js.message e)) err w'))
        end
  | _ =>
      result =
        (Returned {| status := 404; body := Json_error "Material not found" |}, w0)
  end.
Proof.
  cbn zeta.
  unfold process_material, process_material_try, process_material_catch,
    select_material_by_id, select_single.
  unfold try_catch, bind, request, ret. cbv beta iota zeta.
  destruct (answer _ _) as [[material |] [err |]]; cbn [snd]; try reflexivity.
  destruct (attempts_ge_3 (study_materials.attempts material)).
  - eexists. reflexivity.
  - destruct (process_found E id material _) as [[r | e] w']; [reflexivity |].
    eexists. reflexivity.
Qed.

(** *** Reading the calls of a run *)

Lemma filter_background (f : Event -> bool) (l : list Event) :
  (forall e, background e = true -> f e = false) ->
  forallb background l = true -> filter f l = [].
Proof.
  intros Hf. induction l as [| e l IH]; cbn; [reflexivity |].
  intros H. apply andb_true_iff in H. destruct H as [He Hl].
  rewrite (Hf e He). apply IH. exact Hl.
Qed.

(** Background calls are no uploads, no link creations and no writes of the
    attempts counter. *)
Lemma background_calls (l : list Event) :
  forallb background l = true ->
  filter is_upload l = [] /\ filter is_share l = [] /\
  filter is_attempts_write l = [].
Proof.
  intros H. repeat split; apply filter_background; try exact H.
  - intros e. destruct e; cbn; congruence.
  - intros e. destruct e; cbn; congruence.
  - intros e. destruct e as [q ? | | | | | | | |]; cbn; try congruence.
    destruct q; cbn; congruence.
Qed.

Ltac open_quiet :=
  repeat match goal with
         | H : quiet _ _ |- _ =>
             let m := fresh "Hmat" in
             let r := fresh "Hrec" in
             let b := fresh "Hbuc" in
             let evs := fresh "bg" in
             let h := fresh "Hhist" in
             let f := fresh "Hbg" in
             destruct H as [m r b (evs & h & f)]
         end.

Ltac hist_norm :=
  repeat first
    [ progress cbn [history log fst snd]
    | rewrite history_carry_out
    | rewrite history_removed
    | match goal with
      | H : history ?x = _ |- context [history ?x] => rewrite H
      end ].

Ltac filter_events :=
  unfold uploads, share_calls;
  repeat rewrite filter_app;
  repeat match goal with
         | H : forallb background ?l = true |- context [filter is_upload ?l] =>
             rewrite (proj1 (background_calls l H))
         | H : forallb background ?l = true |- context [filter is_share ?l] =>
             rewrite (proj1 (proj2 (background_calls l H)))
         | H : forallb background ?l = true
           |- context [filter is_attempts_write ?l] =>
             rewrite (proj2 (proj2 (background_calls l H)))
         end;
  cbn [filter is_upload is_share is_attempts_write app].

(** Case analysis of a run of the handler.  Every case ends with
    [Hrun : process_material E id w = (outcome, world)], the world spelled
    out from [w] through the calls made. *)
Ltac retry_cases Hretry :=
  destruct Hretry as
    [ (pl' & Heq)
    | (e1' & errS & [ Heq
                    | (data & w3' & HerrS & Hid & Hq3 &
                       [ (eE & Hens & Heq)
                       | (refreshed & res2 & Hens & Heq) ]) ]) ];
  [ | | | destruct res2 as [e2 | pl2] ];
  inversion Heq; subst; clear Heq.

Ltac handler_cases E id w :=
  pose proof (process_material_run E id w) as Hrun; cbn zeta in Hrun;
  destruct (answer (store_error E (history w) (SelectMaterialById id))
              (single (filter (fun r => study_materials.id r =? id) (materials w))))
    as [[material |] [errM |]] eqn:Hsel; cbn [snd] in Hrun;
  [ | destruct (attempts_ge_3 (study_materials.attempts material)) eqn:Hge;
      [ destruct Hrun as [errF Hrun]
      | pose proof (process_found_run E id material
                      (log (EvStore (SelectMaterialById id) None) w)) as Hfound;
        cbn zeta in Hfound;
        destruct Hfound as
          [err0 [ (eP & w3 & Hq & Hpf)
                | (w3 & tok & aid & path & buf & p & bg3 &
                   Hhist3 & Hbg3 & Hlast & Hmat3 & Hrec3 & Hbuc3 &
                   Hp & Hup) ]];
        [ rewrite Hpf in Hrun; destruct Hrun as [errF Hrun]
        | pose proof (upload_with_retry_run E (Dropbox.new tok) aid path buf w3)
            as Hretry;
          cbn zeta in Hretry; cbn [Dropbox.accessToken] in Hretry;
          destruct (upload_with_retry E (Dropbox.new tok) aid path buf w3)
            as [[pl | eU] w4] eqn:Hupeq;
          [ destruct Hup as [res Hup]; destruct res as [eS | url];
            [ rewrite Hup in Hrun; destruct Hrun as [errF Hrun]
            | destruct Hup as (t & errI & w7 & errD & errR & Hq7 & Hpf);
              rewrite Hpf in Hrun ]
          | rewrite Hup in Hrun; destruct Hrun as [errF Hrun] ];
          retry_cases Hretry ] ]
    | | ].

(** Replace [events_since] of a run by the calls made. *)
Ltac trace_run :=
  match goal with
  | |- context [events_since ?a ?b] =>
      let H := fresh "Hevs" in
      eassert (H : events_since a b = _)
        by (apply events_since_app; hist_norm; repeat rewrite <- app_assoc;
            reflexivity);
      rewrite H; clear H
  end.

(** The handler answers every request, and a run makes at most two
    uploads, one shared-link call and one write of the attempts counter. *)
Lemma process_material_answers (E : Env) (id : string) (w : World) :
  let result := process_material E id w in
  let evs := events_since w (snd result) in
  (exists resp, fst result = Returned resp) /\
  (List.length (uploads evs) <= 2)%nat /\
  (List.length (share_calls evs) <= 1)%nat /\
  (List.length (filter is_attempts_write evs) <= 1)%nat.
Proof.
  cbn zeta.
  handler_cases E id w.
  all: rewrite Hrun; cbn [fst snd]; open_quiet.
  all: trace_run; filter_events.
  all: (split; [eexists; reflexivity |]); cbn; lia.
Qed.

(** ** The upload and its single retry *)

(** Claim C8.  In a run of the handler whose first upload fails and whose
    retry succeeds, the one shared-link call that follows is made with the
    credential of the first, failed upload (the client built before the
    retry), on the path the retry reported. *)
Theorem share_link_uses_original_client
  (E : Env) (id : string) (w : World)
  (tok1 tok2 : Js.Str) (p1 p2 : string) (c1 c2 : list Byte.byte)
  (e1 : Js.Error) (path_lower : string) :
  let w' := snd (process_material E id w) in
  uploads (events_since w w') =
    [EvFilesUpload tok1 p1 c1 (inl e1); EvFilesUpload tok2 p2 c2 (inr path_lower)] ->
  exists res,
    share_calls (events_since w w') = [EvSharingCreateSharedLink tok1 path_lower res].
Proof.
  cbn zeta.
  handler_cases E id w.
  all: rewrite Hrun; cbn [snd]; open_quiet.
  all: trace_run.
  all: filter_events.
  all: intros Hup'; try discriminate Hup'.
  all: inversion Hup'; subst; eexists; reflexivity.
Qed.

Lemma In_update_where {R} (key : R -> string) (id : string) (f : R -> R)
  (l : list R) (r : R) :
  (forall x, key (f x) = key x) ->
  In r (update_where key id f l) -> key r = id -> exists x, r = f x.
Proof.
  intros Hkey Hin Hr. unfold update_where in Hin.
  apply in_map_iff in Hin. destruct Hin as (x & Hx & _).
  destruct (key x =? id) eqn:Hk.
  - exists x. symmetry. exact Hx.
  - subst r. apply String.eqb_neq in Hk. contradiction.
Qed.



(** ** The attempts counter *)

Lemma materials_removed (paths : list string) (error : option Js.Error) (w : World) :
  materials (removed paths error w) = materials w.
Proof. destruct error; reflexivity. Qed.

Lemma map_update_where {R B} (key : R -> string) (id : string) (f : R -> R)
  (g : R -> B) (l : list R) :
  (forall x, g (f x) = g x) -> map g (update_where key id f l) = map g l.
Proof.
  intros Hg. unfold update_where. rewrite map_map. apply map_ext.
  intros x. destruct (key x =? id); [apply Hg | reflexivity].
Qed.

(** Only the write that marks a job as processing touches its counter. *)
Lemma attempts_carry_out (q : Query) (error : option string) (w : World) :
  (forall id n, q <> UpdateMaterialProcessing id n) ->
  map study_materials.attempts (materials (carry_out q error w)) =
  map study_materials.attempts (materials w).
Proof.
  intros Hq. destruct error; [reflexivity |].
  destruct q; cbn; try reflexivity.
  - apply map_update_where. reflexivity.
  - exfalso. eapply Hq. reflexivity.
  - apply map_update_where. reflexivity.
Qed.


Lemma materials_carry_out_log (q : Query) (error : option string) (e : Event)
  (w : World) :
  materials (carry_out q error (log e w)) = materials (carry_out q error w).
Proof. destruct error; [reflexivity |]. destruct q; reflexivity. Qed.






(** ** The end-to-end success *)

Lemma update_where_twice {R} (key : R -> string) (id : string) (f g : R -> R)
  (l : list R) :
  (forall x, key (f x) = key x) ->
  update_where key id g (update_where key id f l) =
  update_where key id (fun x => g (f x)) l.
Proof.
  intros Hkey. unfold update_where. rewrite map_map. apply map_ext.
  intros x. destruct (key x =? id) eqn:Hx.
  - rewrite Hkey, Hx. reflexivity.
  - rewrite Hx. reflexivity.
Qed.

Lemma update_where_single {R} (key : R -> string) (id : string) (f : R -> R)
  (l : list R) (x : R) :
  (forall y, key (f y) = key y) ->
  filter (fun r => key r =? id) l = [x] ->
  In (f x) (update_where key id f l) /\
  forall r, In r (update_where key id f l) -> key r = id -> r = f x.
Proof.
  intros Hkey Hf.
  assert (Hx : In x l /\ (key x =? id) = true).
  { apply (filter_In (fun r => key r =? id)). rewrite Hf. left. reflexivity. }
  destruct Hx as [Hin Hk]. split.
  - unfold update_where. apply in_map_iff. exists x. rewrite Hk. auto.
  - intros r Hr Hid. unfold update_where in Hr.
    apply in_map_iff in Hr. destruct Hr as (y & Hy & Hyl).
    destruct (key y =? id) eqn:Hyk.
    + assert (Hyf : In y (filter (fun r => key r =? id) l))
        by (apply (filter_In (fun r => key r =? id)); auto).
      rewrite Hf in Hyf. destruct Hyf as [<- | []]. symmetry. exact Hy.
    + subst r. apply String.eqb_neq in Hyk. contradiction.
Qed.

Ltac tables_norm :=
  repeat first
    [ progress cbn [materials records bucket log]
    | match goal with
      | H : materials ?x = _ |- context [materials ?x] => rewrite H
      | H : records ?x = _ |- context [records ?x] => rewrite H
      | H : bucket ?x = _ |- context [bucket ?x] => rewrite H
      end ].

(** Claim C2, as amended.  A job the store finds, with zero attempts and a
    storage path, in a run the handler answers with success and in which the
    store and the storage carried out every request on the materials, the
    file records and the bucket: the provider answered the shared-link call
    with some [url]; the job's row is the one row with its id, now with one
    attempt, the state [done] and, as processed link, [url] with its first
    "?dl=0" replaced by "?dl=1" (the host is left as the provider gave it);
    exactly one file record, with that link, was added; and the bucket has
    lost the blobs at the job's storage path and nothing else. *)
Theorem process_material_success
  (E : Env) (id : string) (w : World) (job : study_materials.row) (source : string) :
  let result := process_material E id w in
  let w' := snd result in
  let evs := events_since w w' in
  fst (select_material_by_id E id w) = Returned (Some job, None) ->
  study_materials.attempts job = Some 0%Z ->
  study_materials.storage_path job = Some source ->
  (exists resp, fst result = Returned resp /\ status resp = 200%Z) ->
  forallb carried_out evs = true ->
  exists tok path_lower url dropboxPath uploaded_at,
    let dropboxUrl := Js.replace "?dl=0" "?dl=1" url in
    share_calls evs = [EvSharingCreateSharedLink tok path_lower (inr url)] /\
    fst result =
      Returned {| status := 200;
                  body := Json_complete "Processing complete" dropboxUrl |} /\
    In (processed job 1 dropboxUrl) (materials w') /\
    (forall r, In r (materials w') -> study_materials.id r = id ->
               r = processed job 1 dropboxUrl) /\
    records w' =
      (records w ++ [file_records.mk id dropboxPath dropboxUrl uploaded_at])%list /\
    bucket w' = filter (fun kv => negb (fst kv =? source)) (bucket w).
Proof.
  cbn zeta. intros Hjob Hatt Hpath.
  unfold select_material_by_id, select_single in Hjob. cbn [fst] in Hjob.
  injection Hjob as Hjob.
  handler_cases E id w.
  all: try discriminate Hjob.
  all: injection Hjob as ->.
  all: rewrite Hrun; cbn [fst snd]; open_quiet.
  all: trace_run.
  all: intros (resp & Hresp & Hst) Hok; injection Hresp as <-;
       try discriminate Hst; clear Hst.
  all: assert (Herrs : err0 = None /\ errI = None /\ errD = None /\ errR = None)
    by (repeat rewrite forallb_app in Hok; cbn in Hok;
        repeat rewrite andb_true_iff in Hok;
        destruct err0, errI, errD, errR; cbn in Hok; intuition discriminate).
  all: destruct Herrs as (-> & -> & -> & ->); clear Hok.
  all: apply answer_found in Hsel; destruct Hsel as [_ Hsel];
       apply single_filter_id in Hsel; destruct Hsel as [Hid Hone].
  all: rewrite Hpath in Hp; injection Hp as <-.
  all: rewrite Hatt in *.
  all: filter_events.
  all: unfold carry_out, removed in *; cbn in *.
  all: eexists _, _, url, _, _.
  all: (split; [reflexivity |]); (split; [reflexivity |]).
  all: tables_norm.
  all: rewrite update_where_twice by reflexivity.
  all: match goal with
       | Hone' : filter _ (materials ?x) = [?j]
         |- context [update_where study_materials.id ?i ?f (materials ?x)] =>
           destruct (update_where_single study_materials.id i f (materials x) j
                       (fun _ => eq_refl) Hone') as [Hin Huniq]
       end.
  all: (split; [exact Hin |]); (split; [exact Huniq |]); (split; [reflexivity |]).
  all: apply filter_ext; intros kv; rewrite orb_false_r; reflexivity.
Qed.

(** ** The program on explicit inputs *)

Section Runs.

Import Scenario.

(** The refresh succeeds, the store refuses the write: the caller gets the
    exception and nothing else; no result carries the new credential. *)
Lemma persist_failure_loses_credential :
  let result := ensureAccessToken E_persist_fails acc_stale W0 in
  let evs := events_since W0 (snd result) in
  In (EvOAuthToken (Some "r1") (Some "cid") (Some "sec") (inr "fresh")) evs /\
  In (EvStore (UpdateAccountToken "a1" "fresh" 1700000000002) (Some "db down")) evs /\
  fst result =
    Thrown (Js.new_Error "Failed to update refreshed access token in DB: db down") /\
  ~ (exists res, fst result = Returned res /\ accessToken res = Some "fresh").
Proof.
  vm_compute. repeat split; auto.
  intros (res & H & _). discriminate H.
Qed.

Lemma persist_failure_throws_witness :
  In (EvStore (UpdateAccountToken "a1" "fresh" 1700000000002) (Some "db down"))
     (events_since W0 (snd (ensureAccessToken E_persist_fails acc_stale W0))) /\
  fst (ensureAccessToken E_persist_fails acc_stale W0) =
    Thrown (Js.new_Error "Failed to update refreshed access token in DB: db down") /\
  accounts (snd (ensureAccessToken E_persist_fails acc_stale W0)) = accounts W0.
Proof.
  assert (Hin :
    In (EvStore (UpdateAccountToken "a1" "fresh" 1700000000002) (Some "db down"))
       (events_since W0 (snd (ensureAccessToken E_persist_fails acc_stale W0))))
    by (vm_compute; auto).
  split; [exact Hin |].
  destruct (persist_failure_throws E_persist_fails acc_stale W0
              "fresh" 1700000000002 "db down" Hin) as (H1 & _ & _ & H4).
  split; [exact H1 | exact H4].
Defined.

(** A successful run leaves the provider's host in the processed link and
    turns "?dl=0" into "?dl=1"; the direct-download form of the same link is
    another string. *)
Lemma processed_url_keeps_host :
  let result := process_material E_ok "abc" W0 in
  let w' := snd result in
  fst result =
    Returned {| status := 200;
                body := Json_complete "Processing complete"
                          "https://www.dropbox.com/s/abc/x.pdf?dl=1" |} /\
  share_calls (events_since W0 w') =
    [EvSharingCreateSharedLink (Some "fresh") "/campus-files/1700000000007_x.pdf"
       (inr "https://www.dropbox.com/s/abc/x.pdf?dl=0")] /\
  map study_materials.processed_url (materials w') =
    [Some "https://www.dropbox.com/s/abc/x.pdf?dl=1"] /\
  direct_url "https://www.dropbox.com/s/abc/x.pdf?dl=0" =
    "https://dl.dropboxusercontent.com/s/abc/x.pdf" /\
  "https://www.dropbox.com/s/abc/x.pdf?dl=1" <>
    direct_url "https://www.dropbox.com/s/abc/x.pdf?dl=0" /\
  String.prefix "https://www.dropbox.com"
    "https://www.dropbox.com/s/abc/x.pdf?dl=1" = true.
Proof.
  vm_compute. repeat split; auto. discriminate.
Qed.

Lemma process_material_success_witness :
  fst (select_material_by_id E_ok "abc" W0) = Returned (Some (job 0), None) /\
  forallb carried_out (events_since W0 (snd (process_material E_ok "abc" W0))) = true /\
  exists url,
    share_calls (events_since W0 (snd (process_material E_ok "abc" W0))) =
      [EvSharingCreateSharedLink (Some "fresh") "/campus-files/1700000000007_x.pdf"
         (inr url)] /\
    In (processed (job 0) 1 (Js.replace "?dl=0" "?dl=1" url))
       (materials (snd (process_material E_ok "abc" W0))).
Proof.
  assert (H1 : fst (select_material_by_id E_ok "abc" W0) =
               Returned (Some (job 0), None)) by reflexivity.
  assert (H2 : study_materials.attempts (job 0) = Some 0%Z) by reflexivity.
  assert (H3 : study_materials.storage_path (job 0) = Some "materials/x.pdf")
    by reflexivity.
  assert (H4 : exists resp,
             fst (process_material E_ok "abc" W0) = Returned resp /\
             status resp = 200%Z)
    by (eexists; split; vm_compute; reflexivity).
  assert (H5 : forallb carried_out
                 (events_since W0 (snd (process_material E_ok "abc" W0))) = true)
    by (vm_compute; reflexivity).
  split; [exact H1 |]. split; [exact H5 |].
  destruct (process_material_success E_ok "abc" W0 (job 0) "materials/x.pdf"
              H1 H2 H3 H4 H5)
    as (tok & path_lower & url & dropboxPath & uploaded_at & Hs & _ & Hin & _).
  exists url. split; [| exact Hin].
  rewrite Hs.
  assert (Hc : share_calls (events_since W0 (snd (process_material E_ok "abc" W0))) =
               [EvSharingCreateSharedLink (Some "fresh")
                  "/campus-files/1700000000007_x.pdf"
                  (inr "https://www.dropbox.com/s/abc/x.pdf?dl=0")])
    by (vm_compute; reflexivity).
  rewrite Hs in Hc. injection Hc as -> -> ->. reflexivity.
Defined.

(** An account with a non-null but empty refresh credential: no refresh call
    is made, the account is reported as having no refresh credential. *)
Lemma empty_refresh_credential_not_refreshed :
  let row := acc_empty_refresh in
  let result := ensureAccessToken E_ok row W0 in
  dropbox_accounts.access_token row = None /\
  dropbox_accounts.refresh_token row <> None /\
  Js.or (dropbox_accounts.app_key row) (DROPBOX_CLIENT_ID (env E_ok)) = Some "key" /\
  Js.or (dropbox_accounts.app_secret row) (DROPBOX_CLIENT_SECRET (env E_ok)) =
    Some "secret" /\
  refresh_calls (events_since W0 (snd result)) = [] /\
  fst result =
    Thrown (Js.new_Error
              "Dropbox access token invalid and no refresh token for account id=a5").
Proof.
  vm_compute. repeat split; auto. discriminate.
Qed.

Lemma ensureAccessToken_refreshes_once_witness :
  usersGetCurrentAccount E_ok (history W0) (dropbox_accounts.access_token acc_stale)
    <> None /\
  Js.truthy (dropbox_accounts.refresh_token acc_stale) = true /\
  exists res,
    refresh_calls (events_since W0 (snd (ensureAccessToken E_ok acc_stale W0))) =
      [EvOAuthToken (Some "r1") (Some "cid") (Some "sec") res].
Proof.
  assert (H1 : usersGetCurrentAccount E_ok (history W0)
                 (dropbox_accounts.access_token acc_stale) <> None)
    by (vm_compute; discriminate).
  assert (H2 : Js.truthy (dropbox_accounts.refresh_token acc_stale) = true)
    by reflexivity.
  split; [exact H1 |]. split; [exact H2 |].
  destruct (ensureAccessToken_refreshes_once E_ok acc_stale W0
              (or_intror H1) H2 eq_refl eq_refl) as (_ & _ & res & Hres & _).
  exists res. exact Hres.
Defined.

Lemma ensureAccessToken_live_credential_witness :
  dropbox_accounts.access_token acc_live = Some "good" /\
  usersGetCurrentAccount E_ok (history W0) (Some "good") = None /\
  usersGetCurrentAccount E_ok (history W0) (Some "") <> None /\
  fst (ensureAccessToken E_ok acc_live W0) =
    Returned {| accountRow := acc_live; accessToken := Some "good" |} /\
  refresh_calls (events_since W0 (snd (ensureAccessToken E_ok acc_live W0))) = [].
Proof.
  assert (H3 : usersGetCurrentAccount E_ok (history W0) (Some "") <> None)
    by (vm_compute; discriminate).
  split; [reflexivity |]. split; [reflexivity |]. split; [exact H3 |].
  destruct (ensureAccessToken_live_credential E_ok acc_live W0 "good"
              eq_refl eq_refl H3) as (Hres & Hcalls & _).
  split; [exact Hres | exact Hcalls].
Defined.




Lemma selectDropboxAccount_contract_witness :
  (forall lt, store_error E_ok (history W0) (SelectAccountsByLastUsed lt) = None) /\
  fst (selectDropboxAccount E_ok W0) = Returned acc_stale /\
  within_quota (env E_ok) acc_stale /\
  last_used_le (dropbox_accounts.last_used acc_stale)
               (dropbox_accounts.last_used acc_live) = true.
Proof.
  assert (H : forall lt,
             store_error E_ok (history W0) (SelectAccountsByLastUsed lt) = None)
    by (intros lt; reflexivity).
  split; [exact H |]. split; [reflexivity |].
  destruct (selectDropboxAccount_contract E_ok W0 H) as [Hsel _].
  change (In acc_stale (accounts W0) /\ within_quota (env E_ok) acc_stale /\
          forall r', In r' (accounts W0) -> within_quota (env E_ok) r' ->
            last_used_le (dropbox_accounts.last_used acc_stale)
                         (dropbox_accounts.last_used r') = true) in Hsel.
  destruct Hsel as (_ & Hq & Hmin).
  split; [exact Hq |].
  apply Hmin; [right; left; reflexivity |].
  intros c Hc _. injection Hc as <-.
  exists (Qmake 2 1). split; [reflexivity | reflexivity].
Defined.

Lemma share_link_uses_original_client_witness :
  uploads (events_since W_old (snd (process_material E_retry "abc" W_old))) =
    [EvFilesUpload (Some "old") upload_path pdf
       (inl (failure "expired_access_token"));
     EvFilesUpload (Some "fresh") upload_path pdf (inr upload_path)] /\
  exists res,
    share_calls (events_since W_old (snd (process_material E_retry "abc" W_old))) =
      [EvSharingCreateSharedLink (Some "old") upload_path res].
Proof.
  assert (H : uploads (events_since W_old (snd (process_material E_retry "abc" W_old))) =
              [EvFilesUpload (Some "old") upload_path pdf
                 (inl (failure "expired_access_token"));
               EvFilesUpload (Some "fresh") upload_path pdf (inr upload_path)])
    by (vm_compute; reflexivity).
  split; [exact H |].
  exact (share_link_uses_original_client E_retry "abc" W_old _ _ _ _ _ _ _ _ H).
Defined.

Lemma createSharedLinkDirect_existing_link_witness :
  events_since W0 (snd (createSharedLinkDirect E_ok (Some "t") "/x.pdf" W0)) =
    [EvHttpCreateSharedLink (Some "t") "/x.pdf"
       (inl (failure "shared_link_already_exists"));
     EvHttpListSharedLinks (Some "t") "/x.pdf" (inr [shared_link])] /\
  fst (createSharedLinkDirect E_ok (Some "t") "/x.pdf" W0) =
    Returned "https://dl.dropboxusercontent.com/s/abc/x.pdf".
Proof.
  assert (H : events_since W0
                (snd (createSharedLinkDirect E_ok (Some "t") "/x.pdf" W0)) =
              [EvHttpCreateSharedLink (Some "t") "/x.pdf"
                 (inl (failure "shared_link_already_exists"));
               EvHttpListSharedLinks (Some "t") "/x.pdf" (inr [shared_link])])
    by (vm_compute; reflexivity).
  split; [exact H |].
  exact (proj2 (createSharedLinkDirect_existing_link E_ok (Some "t") "/x.pdf" W0
                  _ _ H) "/s/abc/x.pdf" eq_refl eq_refl).
Defined.

End Runs.

(** ** Further properties of the token lifecycle *)

Lemma update_where_Forall2 {R} (key : R -> string) (id : string) (f : R -> R)
  (P : R -> R -> Prop) (l : list R) :
  (forall r, P r r) -> (forall r, key r = id -> P r (f r)) ->
  Forall2 P l (update_where key id f l).
Proof.
  intros Hrefl Hf. unfold update_where.
  induction l as [| r l IH]; cbn; constructor; [| exact IH].
  destruct (key r =? id) eqn:Hk; [| apply Hrefl].
  apply Hf. apply String.eqb_eq. exact Hk.
Qed.

Lemma Forall2_refl {R} (P : R -> R -> Prop) (l : list R) :
  (forall r, P r r) -> Forall2 P l l.
Proof. intros H. induction l; constructor; auto. Qed.

Lemma Forall2_trans {R} (P : R -> R -> Prop) (a b c : list R) :
  (forall x y z, P x y -> P y z -> P x z) ->
  Forall2 P a b -> Forall2 P b c -> Forall2 P a c.
Proof.
  intros Htrans Hab. revert c.
  induction Hab as [| x y a b Hxy Hab IH]; intros c Hbc; inversion Hbc; subst;
    constructor; eauto.
Qed.

Ltac which_event :=
  repeat match goal with
         | H : _ \/ _ |- _ => destruct H
         | H : False |- _ => contradiction
         | H : @eq Event _ _ |- _ =>
             first [discriminate H | inversion H; clear H; subst]
         | H : In _ (_ :: _) |- _ => cbn [In] in H
         | H : In _ [] |- _ => destruct H
         end.

(** An account whose access credential is absent or fails the liveness
    check and which cannot be refreshed (no refresh credential, or no app key
    or secret even with the process-wide defaults): [ensureAccessToken]
    throws, naming the account when the refresh credential is what is missing
    (this is tested first) and the missing client credentials otherwise; the
    only call it has made is the failed liveness check, if any: no refresh
    call, no store request, and no table has changed. *)
Theorem ensureAccessToken_cannot_refresh
  (E : Env) (row : dropbox_accounts.row) (w : World) :
  let accessToken := dropbox_accounts.access_token row in
  let refreshToken := dropbox_accounts.refresh_token row in
  let clientId :=
    Js.or (dropbox_accounts.app_key row) (DROPBOX_CLIENT_ID (env E)) in
  let clientSecret :=
    Js.or (dropbox_accounts.app_secret row) (DROPBOX_CLIENT_SECRET (env E)) in
  let result := ensureAccessToken E row w in
  let w' := snd result in
  Js.truthy accessToken = false \/
    usersGetCurrentAccount E (history w) accessToken <> None ->
  Js.truthy refreshToken && Js.truthy clientId && Js.truthy clientSecret = false ->
  fst result =
    Thrown (Js.new_Error
              (if Js.truthy refreshToken
               then "Missing Dropbox client credentials for token refresh"
               else "Dropbox access token invalid and no refresh token for account id="
                      ++ dropbox_accounts.id row)) /\
  (forall ev, In ev (events_since w w') ->
     exists err, ev = EvUsersGetCurrentAccount accessToken (Some err)) /\
  accounts w' = accounts w /\ materials w' = materials w /\
  records w' = records w /\ bucket w' = bucket w.
Proof.
  cbn zeta. intros Hstale Hcannot.
  unfold_ensure.
  destruct (Js.truthy (dropbox_accounts.refresh_token row)) eqn:Hrt;
    cbn [andb negb] in *.
  all: try (apply andb_false_iff in Hcannot;
            destruct Hcannot as [Hc | Hc]; rewrite Hc; cbn [negb orb];
            rewrite ?orb_true_r).
  all: run.
  all: try (destruct Hstale; congruence).
  all: calc_events.
  all: (split; [reflexivity |]); (split; [| auto]).
  all: intros ev Hin; which_event; eauto.
Qed.

(** Every credential [ensureAccessToken] returns was vouched for in the
    same run: either it is the account's own credential, returned with the
    row as it was after the liveness check on it succeeded and without any
    refresh call; or it is the credential a successful refresh call for this
    account yielded and the store has written for it.  The row returned has
    the id and the refresh credential of the row given and holds the
    credential returned. *)
Theorem ensureAccessToken_returns_vouched_credential
  (E : Env) (row : dropbox_accounts.row) (w : World) (res : Ensured) :
  let result := ensureAccessToken E row w in
  let evs := events_since w (snd result) in
  fst result = Returned res ->
  dropbox_accounts.id (accountRow res) = dropbox_accounts.id row /\
  dropbox_accounts.access_token (accountRow res) = accessToken res /\
  dropbox_accounts.refresh_token (accountRow res) =
    dropbox_accounts.refresh_token row /\
  ((accountRow res = row /\
    In (EvUsersGetCurrentAccount (accessToken res) None) evs /\
    refresh_calls evs = []) \/
   (exists newTok now,
      accessToken res = Some newTok /\
      In (EvOAuthToken (dropbox_accounts.refresh_token row)
            (Js.or (dropbox_accounts.app_key row) (DROPBOX_CLIENT_ID (env E)))
            (Js.or (dropbox_accounts.app_secret row) (DROPBOX_CLIENT_SECRET (env E)))
            (inr newTok)) evs /\
      In (EvStore (UpdateAccountToken (dropbox_accounts.id row) newTok now) None)
         evs)).
Proof.
  cbn zeta. unfold_ensure. run.
  all: intros Hres; try discriminate Hres; injection Hres as <-.
  all: calc_events.
  all: repeat split.
  all: first [ left; repeat split; cbn; auto; fail
             | right; eexists _, _; repeat split; cbn; eauto 6 ].
Qed.

(** Whatever the collaborators answer, a run of [ensureAccessToken] keeps
    every account in its place and changes at most the access credential and
    [last_used], and that only of accounts with the id of the row given; it
    leaves materials, file records and bucket alone, and makes at most one
    store request and at most one refresh call. *)
Theorem ensureAccessToken_touches_one_account
  (E : Env) (row : dropbox_accounts.row) (w : World) :
  let w' := snd (ensureAccessToken E row w) in
  let evs := events_since w w' in
  Forall2
    (fun r r' =>
       r' = r \/
       dropbox_accounts.id r = dropbox_accounts.id row /\
       same_account_but_token r r')
    (accounts w) (accounts w') /\
  materials w' = materials w /\ records w' = records w /\ bucket w' = bucket w /\
  (List.length (filter is_store_call evs) <= 1)%nat /\
  (List.length (refresh_calls evs) <= 1)%nat.
Proof.
  cbn zeta. unfold_ensure. run.
  all: calc_events.
  all: repeat match goal with
              | |- context [match ?x with _ => _ end] => destruct x; cbn
              end.
  all: (split; [| repeat split; solve [reflexivity | cbn; lia]]).
  all: try (apply Forall2_refl; auto).
  all: apply update_where_Forall2;
    [ intros r; left; reflexivity
    | intros r Hr; right; split; [exact Hr |]; repeat split ].
  all: apply update_where_Forall2;
    [ intros r; left; reflexivity
    | intros r Hr; right; split; [exact Hr |]; repeat split ].
Qed.

(** ** Account selection and token together *)

(** [getDropboxTokenFromDB]: when the store fails the selection, that
    failure is thrown and the selection is the only call.  When the store
    answers it, either an account within quota that is least recently used
    among those within quota is chosen, and the result is the credential
    [ensureAccessToken] returns for it, paired with the id of that account
    (or the exception [ensureAccessToken] throws); or no account is within
    quota, "No suitable Dropbox account found" is thrown and no provider call
    is made. *)
Theorem getDropboxTokenFromDB_contract (E : Env) (w : World) :
  let result := getDropboxTokenFromDB E w in
  let select := SelectAccountsByLastUsed (quota_filter (env E)) in
  let evs := events_since w (snd result) in
  match store_error E (history w) select with
  | Some msg =>
      fst result =
        Thrown (Js.new_Error ("Failed to select dropbox account: " ++ msg)) /\
      evs = [EvStore select (Some msg)]
  | None =>
      (exists account,
          In account (accounts w) /\ within_quota (env E) account /\
          (forall r, In r (accounts w) -> within_quota (env E) r ->
             last_used_le (dropbox_accounts.last_used account)
                          (dropbox_accounts.last_used r) = true) /\
          fst result =
            match fst (ensureAccessToken E account (log (EvStore select None) w)) with
            | Returned res => Returned (accessToken res, dropbox_accounts.id account)
            | Thrown e => Thrown e
            end) \/
      ((forall r, In r (accounts w) -> ~ within_quota (env E) r) /\
       fst result = Thrown (Js.new_Error "No suitable Dropbox account found") /\
       evs = [EvStore select None])
  end.
Proof.
  cbn zeta.
  unfold getDropboxTokenFromDB, selectDropboxAccount, select_accounts_by_last_used.
  change (if Qltb 0 match MAX_DROPBOX_ACCOUNT_BYTES_MB (env E) with
                    | Some q => q
                    | None => 0%Q
                    end
          then Some match MAX_DROPBOX_ACCOUNT_BYTES_MB (env E) with
                    | Some q => q
                    | None => 0%Q
                    end
          else None) with (quota_filter (env E)).
  unfold bind, ret, throw, answer. cbv beta iota zeta.
  destruct (store_error E (history w) (SelectAccountsByLastUsed (quota_filter (env E))))
    as [msg |] eqn:Hstore; cbn [fst snd].
  - split; [reflexivity |]. calc_since. reflexivity.
  - destruct (order_by_last_used (eligible (quota_filter (env E)) (accounts w)))
      as [| account rest] eqn:Hord; cbn [firstn fst snd].
    + right. split; [| split; [reflexivity | calc_since; reflexivity]].
      intros r Hin Hq.
      assert (Hr : In r (order_by_last_used
                           (eligible (quota_filter (env E)) (accounts w)))).
      { apply In_order_by_last_used. apply (In_eligible (env E)). auto. }
      rewrite Hord in Hr. destruct Hr.
    + left.
      assert (Hacc : In account (accounts w) /\ within_quota (env E) account).
      { apply (In_eligible (env E)). apply In_order_by_last_used.
        fold (quota_filter (env E)). rewrite Hord. left. reflexivity. }
      exists account.
      split; [exact (proj1 Hacc) |]. split; [exact (proj2 Hacc) |].
      split.
      * intros r Hr Hq. eapply order_by_last_used_head; [exact Hord |].
        apply (In_eligible (env E)). auto.
      * destruct (ensureAccessToken E account _) as [[res | e] w2]; reflexivity.
Qed.

(** ** Usage accounting: [incrementDropboxBytesUsed] *)


(** The two runs of the accounting: the remote procedure is carried out; or
    it fails, and the usage is read, added to and written back. *)
Lemma incrementDropboxBytesUsed_run
  (E : Env) (accountId : string) (uploadBytes : Z) (w : World) :
  let mb := to_mb uploadBytes in
  let rpc := RpcIncrementBytesUsed accountId mb in
  incrementDropboxBytesUsed E accountId uploadBytes w =
  match store_error E (history w) rpc with
  | None => (Returned tt, log (EvStore rpc None) (effect rpc w))
  | Some msg =>
      let w1 := log (EvStore rpc (Some msg)) w in
      let sel :=
        answer (store_error E (history w1) (SelectAccountBytesUsed accountId))
          (single (filter (fun r => dropbox_accounts.id r =? accountId)
                     (accounts w))) in
      let w2 := log (EvStore (SelectAccountBytesUsed accountId) (snd sel)) w1 in
      let upd :=
        UpdateAccountBytesUsed accountId
          (number_plus E (current_bytes_used (fst sel)) mb) in
      let err := store_error E (history w2) upd in
      (Returned tt, log (EvStore upd err) (carry_out upd err w2))
  end.
Proof.
  cbn zeta.
  unfold incrementDropboxBytesUsed, select_account_bytes_used, select_single.
  unfold_monad. cbv beta iota zeta.
  destruct (store_error E (history w) _) as [msg |]; reflexivity.
Qed.


Lemma answer_single_error {R} (error : option string) (rows : list R)
  (data : option R) (msg : string) :
  answer error (single rows) = (data, Some msg) -> data = None.
Proof.
  unfold answer, single. destruct error; [congruence |].
  destruct rows as [| r [| r' rows]]; congruence.
Qed.

(** The fallback of the usage accounting forgets the usage so far when its
    read fails: if the read of [bytes_used] is answered with an error (the
    store's, or that of a selection that is not exactly one row) and the
    write that follows is carried out, the value written is the size of this
    upload alone, and every row of that account holds it afterwards. *)
Theorem incrementDropboxBytesUsed_fallback_forgets_usage
  (E : Env) (accountId : string) (uploadBytes : Z) (w : World)
  (msg : string) (newVal : Q) :
  let w' := snd (incrementDropboxBytesUsed E accountId uploadBytes w) in
  let evs := events_since w w' in
  In (EvStore (SelectAccountBytesUsed accountId) (Some msg)) evs ->
  In (EvStore (UpdateAccountBytesUsed accountId newVal) None) evs ->
  (newVal == to_mb uploadBytes)%Q /\
  accounts w' =
    update_where dropbox_accounts.id accountId
      (dropbox_accounts.set_bytes_used newVal) (accounts w) /\
  forall r, In r (accounts w') -> dropbox_accounts.id r = accountId ->
    dropbox_accounts.bytes_used r = Some newVal.
Proof.
  cbn zeta. rewrite incrementDropboxBytesUsed_run. cbv zeta.
  destruct (store_error E (history w) _) as [msg1 |] eqn:Hrpc; cbn [snd].
  - match goal with
    | |- context [answer ?e ?s] => destruct (answer e s) as [data err] eqn:Hsel
    end.
    cbn [fst snd].
    match goal with
    | |- context [carry_out ?u ?e _] => destruct e as [msg3 |] eqn:Hupd
    end.
    all: intros Hread Hwrite; calc_events; which_event.
    apply answer_single_error in Hsel. subst data.
    split; [unfold current_bytes_used, number_plus; cbn; apply Qeq_refl |].
    split; [reflexivity |].
    intros r Hr Hid.
    apply In_update_where in Hr; [| reflexivity | exact Hid].
    destruct Hr as [x ->]. reflexivity.
  - intros Hread. calc_events. which_event.
Qed.

(** Whatever the store answers, [incrementDropboxBytesUsed] returns (it
    never raises), makes between one and three requests, all of them store
    requests on the accounts table, keeps every account in its place,
    changes at most [bytes_used] and that only of accounts with the id given,
    and leaves materials, file records and bucket alone. *)
Theorem incrementDropboxBytesUsed_touches_usage_only
  (E : Env) (accountId : string) (uploadBytes : Z) (w : World) :
  let result := incrementDropboxBytesUsed E accountId uploadBytes w in
  let w' := snd result in
  let evs := events_since w w' in
  fst result = Returned tt /\
  Forall2
    (fun r r' =>
       r' = r \/
       dropbox_accounts.id r = accountId /\ same_account_but_usage r r')
    (accounts w) (accounts w') /\
  materials w' = materials w /\ records w' = records w /\ bucket w' = bucket w /\
  (forall ev, In ev evs ->
     exists q err, ev = EvStore q err /\ account_query q = true) /\
  (1 <= List.length evs <= 3)%nat.
Proof.
  cbn zeta. rewrite incrementDropboxBytesUsed_run. cbv zeta.
  destruct (store_error E (history w) _) as [msg1 |] eqn:Hrpc; cbn [fst snd].
  - match goal with
    | |- context [answer ?e ?s] => destruct (answer e s) as [data err] eqn:Hsel
    end.
    cbn [fst snd].
    match goal with
    | |- context [carry_out ?u ?e _] => destruct e as [msg3 |] eqn:Hupd
    end.
    all: calc_events.
    all: (split; [reflexivity |]).
    all: (split;
          [| repeat split; try solve [reflexivity | cbn; lia];
             intros ev Hin; which_event; eexists _, _; split; reflexivity]).
    + apply Forall2_refl. auto.
    + apply update_where_Forall2;
        [ intros r; left; reflexivity
        | intros r Hr; right; split; [exact Hr | reflexivity] ].
  - calc_events.
    split; [reflexivity |].
    split;
      [| repeat split; try solve [reflexivity | cbn; lia];
         intros ev Hin; which_event; eexists _, _; split; reflexivity].
    apply update_where_Forall2;
      [ intros r; left; reflexivity
      | intros r Hr; right; split; [exact Hr | reflexivity] ].
Qed.

(** ** The helper library: the other outcomes of [createSharedLinkDirect] *)

(** Every outcome of [createSharedLinkDirect].  When the creation call
    succeeds, its link is returned normalised and no listing is requested.
    When it fails, the path's links are listed with the same credential and
    path, and the outcome is that of the listing: its error when it fails
    (the error of the creation call is dropped), the first listed link
    normalised, or the [TypeError] of an empty list.  No table changes. *)
Theorem createSharedLinkDirect_outcomes
  (E : Env) (token : Js.Str) (dropboxPath : string) (w : World) :
  let result := createSharedLinkDirect E token dropboxPath w in
  let w' := snd result in
  let evs := events_since w w' in
  match http_create_shared_link E (history w) token dropboxPath with
  | inr url =>
      fst result = Returned (direct_url url) /\
      evs = [EvHttpCreateSharedLink token dropboxPath (inr url)]
  | inl e =>
      exists res,
        evs = [EvHttpCreateSharedLink token dropboxPath (inl e);
               EvHttpListSharedLinks token dropboxPath res] /\
        fst result =
          match res with
          | inl e' => Thrown e'
          | inr (url :: _) => Returned (direct_url url)
          | inr [] =>
              Thrown (Js.new_TypeError
                        "Cannot read properties of undefined (reading 'url')")
          end
  end /\
  accounts w' = accounts w /\ materials w' = materials w /\
  records w' = records w /\ bucket w' = bucket w.
Proof.
  cbn zeta.
  unfold createSharedLinkDirect, post_create_shared_link, post_list_shared_links.
  unfold_monad. run.
  all: calc_events.
  all: (split; [| auto]).
  all: try (split; reflexivity).
  all: eexists; split; reflexivity.
Qed.

(** ** Further properties of the processing route *)

Lemma records_carry_out (q : Query) (error : option string) (w : World) :
  (forall r, q <> InsertFileRecord r) ->
  records (carry_out q error w) = records w.
Proof.
  intros Hq. destruct error; [reflexivity |].
  destruct q; try reflexivity. exfalso. eapply Hq. reflexivity.
Qed.

Lemma bucket_carry_out (q : Query) (error : option string) (w : World) :
  bucket (carry_out q error w) = bucket w.
Proof. destruct error; [reflexivity |]. destruct q; reflexivity. Qed.

Lemma records_removed (paths : list string) (error : option Js.Error) (w : World) :
  records (removed paths error w) = records w.
Proof. destruct error; reflexivity. Qed.

Lemma ids_carry_out (q : Query) (error : option string) (w : World) :
  map study_materials.id (materials (carry_out q error w)) =
  map study_materials.id (materials w).
Proof.
  destruct error; [reflexivity |].
  destruct q; cbn; try reflexivity; apply map_update_where; reflexivity.
Qed.

Lemma ends_one {A} (x : A) : exists pre, [x] = (pre ++ [x])%list.
Proof. exists []. reflexivity. Qed.

Lemma ends_cons {A} (a x : A) (l : list A) :
  (exists pre, l = (pre ++ [x])%list) -> exists pre, a :: l = (pre ++ [x])%list.
Proof. intros [pre ->]. exists (a :: pre). reflexivity. Qed.

Lemma ends_app {A} (x : A) (m l : list A) :
  (exists pre, l = (pre ++ [x])%list) -> exists pre, (m ++ l)%list = (pre ++ [x])%list.
Proof. intros [pre ->]. exists (m ++ pre)%list. apply app_assoc. Qed.

(** Membership in a list written with [::] and [++]. *)
Ltac find_in :=
  solve [repeat first [left; reflexivity | apply in_or_app; right | right]].

Ltac side_tables :=
  repeat first
    [ progress cbn [records bucket accounts log]
    | rewrite records_removed
    | rewrite records_carry_out by discriminate
    | rewrite bucket_carry_out
    | match goal with
      | H : records ?x = _ |- context [records ?x] => rewrite H
      | H : bucket ?x = _ |- context [bucket ?x] => rewrite H
      end ].

(** The writes on a job and the removal of a blob leave the file records
    alone, and the writes leave the bucket alone. *)
Lemma records_and_bucket_after_writes (q : Query) (error : option string)
  (paths : list string) (errR : option Js.Error) (ev : Event) (w : World) :
  (forall r, q <> InsertFileRecord r) ->
  records (log ev (carry_out q error (removed paths errR w))) = records w /\
  bucket (log ev (carry_out q error w)) = bucket w.
Proof.
  intros Hq. split.
  - cbn [records log]. rewrite records_carry_out by exact Hq.
    apply records_removed.
  - side_tables. reflexivity.
Qed.

Ltac found_or_not Hsel :=
  unfold select_material_by_id, select_single; cbn [fst];
  rewrite Hsel.

(** A job the selection does not find as exactly one row without error
    (no such id, several rows, or a store failure): the handler answers 404
    "Material not found", the selection is the only call of the run, and no
    table and no blob has changed.  A job that is found is never answered
    with 404. *)
Theorem process_material_not_found (E : Env) (id : string) (w : World) :
  let result := process_material E id w in
  let w' := snd result in
  match fst (select_material_by_id E id w) with
  | Returned (Some _, None) =>
      exists resp, fst result = Returned resp /\ status resp <> 404%Z
  | _ =>
      fst result =
        Returned {| status := 404; body := Json_error "Material not found" |} /\
      (exists err, events_since w w' = [EvStore (SelectMaterialById id) err]) /\
      accounts w' = accounts w /\ materials w' = materials w /\
      records w' = records w /\ bucket w' = bucket w
  end.
Proof.
  cbn zeta.
  handler_cases E id w.
  all: rewrite Hrun; cbn [fst snd].
  all: found_or_not Hsel.
  all: try (eexists; split; [reflexivity | discriminate]).
  all: (split; [reflexivity |]).
  all: (split; [eexists; calc_since; reflexivity | auto]).
Qed.

(** A run answered with 500 has lost nothing and recorded nothing: no file
    record was added, no blob was removed, and no shared link was obtained.
    The answer carries the message of the exception that ended the run, the
    last call of the run is the write of the failed state with that message,
    and when the store carries that write out, the job is [failed] with that
    message. *)
Theorem process_material_failure_keeps_source
  (E : Env) (id : string) (w : World) (resp : Response) :
  let result := process_material E id w in
  let w' := snd result in
  let evs := events_since w w' in
  fst result = Returned resp -> status resp = 500%Z ->
  records w' = records w /\ bucket w' = bucket w /\
  (forall ev, In ev (share_calls evs) ->
     exists tok path e, ev = EvSharingCreateSharedLink tok path (inl e)) /\
  exists e err,
    resp = {| status := 500;
              body := Json_failed "Processing failed" (Js.message_or_string e) |} /\
    (exists pre,
        evs = (pre ++ [EvStore (UpdateMaterialFailed id (Js.message e)) err])%list) /\
    (err = None ->
     forall r, In r (materials w') -> study_materials.id r = id ->
       study_materials.processing_status r = Some "failed" /\
       study_materials.processing_error r = Some (Js.message e)).
Proof.
  cbn zeta.
  handler_cases E id w.
  all: rewrite Hrun; cbn [fst snd]; open_quiet.
  all: intros Hresp Hst; injection Hresp as <-; try discriminate Hst; clear Hst.
  all: trace_run.
  all: (split; [side_tables; reflexivity |]).
  all: (split; [side_tables; reflexivity |]).
  all: split;
    [ filter_events; intros ev Hin; which_event; eauto
    | eexists _, errF; split; [reflexivity |]; split;
      [repeat first [apply ends_one | apply ends_cons | apply ends_app] |] ].
  all: intros -> r Hin Hr; unfold carry_out in Hin; cbn in Hin.
  all: (apply In_update_where in Hin; [| reflexivity | exact Hr]).
  all: destruct Hin as [x ->]; split; reflexivity.
Qed.

(** A run of the handler adds at most one file record, for the job of the
    request, and only in a run answered with success: the record's link is
    the one the answer reports (the provider's link with "?dl=0" turned into
    "?dl=1"), the provider did give that link in this run, for the path that
    an upload of this run to the record's path had reported. *)
Theorem file_record_only_for_completed_upload
  (E : Env) (id : string) (w : World) :
  let result := process_material E id w in
  let w' := snd result in
  let evs := events_since w w' in
  records w' = records w \/
  exists r url tok tok' contents path_lower,
    records w' = (records w ++ [r])%list /\
    file_records.material_id r = id /\
    file_records.dropbox_url r = Js.replace "?dl=0" "?dl=1" url /\
    fst result =
      Returned {| status := 200;
                  body := Json_complete "Processing complete"
                            (file_records.dropbox_url r) |} /\
    In (EvFilesUpload tok' (file_records.dropbox_path r) contents (inr path_lower))
       evs /\
    In (EvSharingCreateSharedLink tok path_lower (inr url)) evs.
Proof.
  cbn zeta.
  handler_cases E id w.
  all: rewrite Hrun; cbn [fst snd]; open_quiet.
  all: trace_run.
  all: try (left; side_tables; reflexivity).
  all: destruct errI as [msgI |];
    [ left; side_tables; unfold carry_out; cbn; side_tables; reflexivity
    | right ].
  all: eexists _, url, _, _, _, _.
  all: (split; [side_tables; unfold carry_out; cbn; side_tables; reflexivity |]).
  all: cbn [file_records.material_id file_records.dropbox_url
              file_records.dropbox_path].
  all: repeat (split; [reflexivity |]).
  all: split; find_in.
Qed.

(** A job whose row has no storage path, found below the attempts limit,
    is never processed: the run is answered with 500, makes no upload and
    asks for no shared link, adds no file record and removes no blob. *)
Theorem process_material_without_storage_path
  (E : Env) (id : string) (w : World) (job : study_materials.row) :
  let result := process_material E id w in
  let w' := snd result in
  let evs := events_since w w' in
  fst (select_material_by_id E id w) = Returned (Some job, None) ->
  attempts_ge_3 (study_materials.attempts job) = false ->
  study_materials.storage_path job = None ->
  (exists details,
      fst result =
        Returned {| status := 500; body := Json_failed "Processing failed" details |}) /\
  uploads evs = [] /\ share_calls evs = [] /\
  records w' = records w /\ bucket w' = bucket w.
Proof.
  cbn zeta. intros Hjob Hbelow Hpath.
  unfold select_material_by_id, select_single in Hjob. cbn [fst] in Hjob.
  injection Hjob as Hjob.
  handler_cases E id w.
  all: try discriminate Hjob.
  all: injection Hjob as ->.
  all: try congruence.
  rewrite Hrun; cbn [fst snd]; open_quiet.
  trace_run. filter_events.
  split; [eexists; reflexivity |].
  split; [reflexivity |]. split; [reflexivity |].
  split; side_tables; reflexivity.
Qed.

Lemma Forall2_map_in {A B} (P : B -> B -> Prop) (f g : A -> B) (l : list A) :
  (forall x, In x l -> P (f x) (g x)) -> Forall2 P (map f l) (map g l).
Proof.
  induction l as [| x l IH]; intros H; cbn; constructor.
  - apply H. left. reflexivity.
  - apply IH. intros y Hy. apply H. right. exact Hy.
Qed.

Lemma attempts_grow_refl (a : option Z) : attempts_grow a a.
Proof. unfold attempts_grow. lia. Qed.

Lemma attempts_grow_trans (a b c : option Z) :
  attempts_grow a b -> attempts_grow b c -> attempts_grow a c.
Proof. unfold attempts_grow. lia. Qed.

(** The write that marks a job as processing raises the counter of the one
    row the selection found and touches no other counter. *)
Lemma attempts_grow_increment (id : string) (material : study_materials.row)
  (error : option string) (w : World) :
  filter (fun r => study_materials.id r =? id) (materials w) = [material] ->
  Forall2 attempts_grow
    (map study_materials.attempts (materials w))
    (map study_materials.attempts
       (materials
          (carry_out
             (UpdateMaterialProcessing id
                (next_attempts (study_materials.attempts material)))
             error w))).
Proof.
  intros Hone. destruct error as [msg |].
  - apply Forall2_refl. apply attempts_grow_refl.
  - unfold carry_out. cbn. unfold update_where. rewrite map_map.
    apply Forall2_map_in. intros x Hx.
    destruct (study_materials.id x =? id) eqn:Hk; [| apply attempts_grow_refl].
    assert (Hin : In x (filter (fun r => study_materials.id r =? id) (materials w)))
      by (apply filter_In; auto).
    rewrite Hone in Hin. destruct Hin as [<- | []].
    cbn. unfold attempts_grow, next_attempts, attempts_value.
    destruct (study_materials.attempts material); lia.
Qed.

(** The processing route creates no job and deletes none, and no attempts
    counter ever goes down (a null counter counting as 0): in one run, and in
    any sequence of runs served one after the other. *)
Theorem attempts_never_decrease (E : Env) (id : string) (w : World) :
  let unchanged_jobs w' :=
    map study_materials.id (materials w') = map study_materials.id (materials w) in
  let counters_grow w' :=
    Forall2 attempts_grow
      (map study_materials.attempts (materials w))
      (map study_materials.attempts (materials w')) in
  (unchanged_jobs (snd (process_material E id w)) /\
   counters_grow (snd (process_material E id w))) /\
  forall ids, unchanged_jobs (serve E ids w) /\ counters_grow (serve E ids w).
Proof.
  cbn zeta.
  assert (Hrun1 : forall id w,
    map study_materials.id (materials (snd (process_material E id w))) =
      map study_materials.id (materials w) /\
    Forall2 attempts_grow
      (map study_materials.attempts (materials w))
      (map study_materials.attempts (materials (snd (process_material E id w))))).
  { clear id w. intros id w.
    handler_cases E id w.
    all: rewrite Hrun; cbn [fst snd]; open_quiet.
    all: try (apply answer_found in Hsel; destruct Hsel as [_ Hsel];
              apply single_filter_id in Hsel; destruct Hsel as [Hid Hone]).
    all: repeat first
           [ progress cbn [materials log fst snd]
           | rewrite materials_removed
           | rewrite materials_carry_out_log
           | rewrite attempts_carry_out by discriminate
           | rewrite ids_carry_out
           | match goal with
             | H : materials ?x = _ |- context [materials ?x] => rewrite H
             end ].
    all: (split; [reflexivity |]).
    all: first [ apply attempts_grow_increment; exact Hone
               | apply Forall2_refl; apply attempts_grow_refl ]. }
  split; [exact (Hrun1 id w) |].
  intros ids. clear id. revert w.
  induction ids as [| id ids IH]; intros w; cbn [serve].
  - split; [reflexivity | apply Forall2_refl; apply attempts_grow_refl].
  - destruct (Hrun1 id w) as [Hids Hgrow].
    destruct (IH (snd (process_material E id w))) as [Hids' Hgrow'].
    split; [congruence |].
    eapply Forall2_trans; [exact attempts_grow_trans | exact Hgrow | exact Hgrow'].
Qed.

(** ** Where an upload goes and what it carries *)

Lemma storage_download_returns (E : Env) (path : string) (w w' : World)
  (buf : list Byte.byte) :
  storage_download E path w = (Returned buf, w') ->
  exists kv, find (fun kv => fst kv =? path) (bucket w) = Some kv /\ snd kv = buf.
Proof.
  unfold storage_download.
  destruct (storage_download_error E (history w) path); [discriminate |].
  destruct (find (fun kv => fst kv =? path) (bucket w)) as [kv |]; [| discriminate].
  intros H. injection H as <- _. exists kv. split; reflexivity.
Qed.

(** The runs of the handler's body that reach the upload: the path it
    uploads to and the bytes it uploads. *)
Lemma process_found_target (E : Env) (id : string) (material : study_materials.row)
  (w : World) :
  let n := next_attempts (study_materials.attempts material) in
  let result := process_found E id material w in
  exists err0,
    let w1 := log (EvStore (UpdateMaterialProcessing id n) err0)
                (carry_out (UpdateMaterialProcessing id n) err0 w) in
    (exists e w3, quiet w1 w3 /\ result = (Thrown e, w3)) \/
    exists w3 tok aid path buf p bg3,
      history w3 = (history w1 ++ bg3)%list /\
      forallb background bg3 = true /\
      study_materials.storage_path material = Some p /\
      (exists t, path = "/campus-files/" ++ Js.show_Z t ++ "_" ++ Js.split_pop p) /\
      (exists kv,
          find (fun kv => fst kv =? p) (bucket w) = Some kv /\ snd kv = buf) /\
      match upload_with_retry E (Dropbox.new tok) aid path buf w3 with
      | (Thrown e, w4) => result = (Thrown e, w4)
      | (Returned pl, w4) =>
          exists res,
            let w5 := log (EvSharingCreateSharedLink tok pl res) w4 in
            match res with
            | inl e => result = (Thrown e, w5)
            | inr url =>
                let u := Js.replace "?dl=0" "?dl=1" url in
                exists t errI w7 errD errR,
                  quiet
                    (log (EvStore (InsertFileRecord (file_records.mk id path u t)) errI)
                       (carry_out (InsertFileRecord (file_records.mk id path u t))
                          errI w5))
                    w7 /\
                  result =
                    (Returned {| status := 200;
                                 body := Json_complete "Processing complete" u |},
                     log (EvStorageRemove [p] errR)
                       (removed [p] errR
                          (log (EvStore (UpdateMaterialDone id u) errD)
                             (carry_out (UpdateMaterialDone id u) errD w7))))
            end
      end.
Proof.
  cbn zeta.
  set (result := process_found E id material w).
  assert (Hres : result = process_found E id material w) by reflexivity.
  clearbody result.
  unfold process_found, bind in Hres.
  unfold request, new_Date, storage_remove, dbx_sharingCreateSharedLinkWithSettings,
    perform in Hres.
  cbv beta iota zeta in Hres.
  eexists.
  match type of Hres with
  | context [downloadFromSupabase E ?sp ?w1] =>
      pose proof (quiet_downloadFromSupabase E sp w1) as Hq1;
      destruct (downloadFromSupabase E sp w1) as [[buf | e] w2] eqn:Hdl
  end; cbn [snd] in Hq1.
  2:{ left. exists e, w2. split; [exact Hq1 | exact Hres]. }
  pose proof (quiet_getDropboxTokenFromDB E w2) as Hq2.
  destruct (getDropboxTokenFromDB E w2) as [[[tok aid] | e] w3] eqn:Htok;
    cbn [snd] in Hq2.
  2:{ left. exists e, w3. split; [eapply quiet_trans; eauto | exact Hres]. }
  assert (Hq13 := quiet_trans _ _ _ Hq1 Hq2).
  unfold storage_file_name in Hres.
  destruct (study_materials.storage_path material) as [p |] eqn:Hp.
  2:{ left. unfold throw in Hres. eexists _, w3. split; [exact Hq13 | exact Hres]. }
  unfold ret in Hres. cbv beta iota zeta in Hres. cbn [fst snd] in Hres.
  right.
  unfold downloadFromSupabase in Hdl. cbn [Js.show] in Hdl.
  apply storage_download_returns in Hdl. cbn [bucket log] in Hdl.
  rewrite bucket_carry_out in Hdl.
  destruct Hq13 as [Hm13 Hr13 Hb13 (bg13 & Hbg13 & Hf13)].
  match type of Hres with
  | context [upload_with_retry E ?d ?a ?pa ?b w3] =>
      exists w3, tok, aid, pa, buf, p, bg13;
      (split; [exact Hbg13 |]);
      (split; [exact Hf13 |]);
      (split; [reflexivity |]);
      (split; [eexists; reflexivity |]);
      (split; [exact Hdl |]);
      destruct (upload_with_retry E d a pa b w3) as [[pl | e] w4] eqn:Hup
  end.
  2:{ exact Hres. }
  cbn [Dropbox.accessToken] in Hres.
  match type of Hres with
  | context [sharingCreateSharedLink_result E ?h ?t ?pa] =>
      exists (sharingCreateSharedLink_result E h t pa);
      destruct (sharingCreateSharedLink_result E h t pa) as [e | url] eqn:Hshare
  end.
  { exact Hres. }
  cbn [Js.show] in Hres.
  match type of Hres with
  | context [incrementDropboxBytesUsed E ?a ?n ?w6] =>
      pose proof (quiet_incrementDropboxBytesUsed E a n w6) as Hq7;
      pose proof (incrementDropboxBytesUsed_returns E a n w6) as Hret;
      destruct (incrementDropboxBytesUsed E a n w6) as [[[] | e] w7] eqn:Hinc
  end; cbn [fst snd] in Hq7, Hret; [| discriminate Hret].
  eexists _, _, w7, _, _. split; [exact Hq7 |].
  norm_history. exact Hres.
Qed.

Lemma without_append (c : ascii) (a b : string) :
  JsString.without c (a ++ b) = JsString.without c a && JsString.without c b.
Proof.
  induction a as [| x a IH]; [reflexivity |].
  change (String x a ++ b) with (String x (a ++ b)).
  cbn [JsString.without]. rewrite IH. apply andb_assoc.
Qed.

Lemma split_pop_aux_without_slash (acc s : string) :
  JsString.without "/" acc = true ->
  JsString.without "/" (Js.split_pop_aux acc s) = true.
Proof.
  revert acc. induction s as [| c s IH]; intros acc Hacc; cbn [Js.split_pop_aux].
  - exact Hacc.
  - destruct (Ascii.eqb c "/") eqn:Hc.
    + apply IH. reflexivity.
    + apply IH. rewrite without_append, Hacc. cbn [JsString.without].
      rewrite Hc. reflexivity.
Qed.

(** The name [split('/').pop()] yields holds no ['/']. *)
Lemma split_pop_has_no_slash (s : string) :
  JsString.without "/" (Js.split_pop s) = true.
Proof. unfold Js.split_pop. apply split_pop_aux_without_slash. reflexivity. Qed.

Lemma background_not_upload (l : list Event) (tok : Js.Str) (path : string)
  (contents : list Byte.byte) (res : Js.Error + string) :
  forallb background l = true -> ~ In (EvFilesUpload tok path contents res) l.
Proof.
  intros Hbg Hin. rewrite forallb_forall in Hbg.
  specialize (Hbg _ Hin). discriminate Hbg.
Qed.

(** A quiet step makes no upload. *)
Lemma quiet_makes_no_upload (w w' : World) (tok : Js.Str) (path : string)
  (contents : list Byte.byte) (res : Js.Error + string) :
  quiet w w' -> ~ In (EvFilesUpload tok path contents res) (events_since w w').
Proof.
  intros [_ _ _ (evs & Hevs & Hbg)]. rewrite (events_since_app _ _ _ Hevs).
  apply background_not_upload. exact Hbg.
Qed.

(** Where, in a list written with [::] and [++], an upload can be. *)
Ltac which_upload :=
  repeat match goal with
         | H : In _ (_ :: _) |- _ => destruct H as [H | H]
         | H : In _ [] |- _ => destruct H
         | H : In _ (_ ++ _)%list |- _ => apply in_app_or in H; destruct H as [H | H]
         | H : In (EvFilesUpload _ _ _ _) ?l, Hbg : forallb background ?l = true |- _ =>
             exfalso; exact (background_not_upload _ _ _ _ _ Hbg H)
         | H : @eq Event _ _ |- _ =>
             first [discriminate H | inversion H; clear H; subst]
         end.

(** Where an upload goes and what it carries.  Every upload of a run,
    first attempt or retry, is for the job the selection found, goes to
    "/campus-files/<timestamp>_<name>" with <name> what follows the last '/'
    of the job's storage path (so a name without '/'), and carries the bytes
    the bucket held at that storage path when the run started. *)
Theorem upload_target (E : Env) (id : string) (w : World)
  (tok : Js.Str) (path : string) (contents : list Byte.byte)
  (res : Js.Error + string) :
  In (EvFilesUpload tok path contents res)
     (events_since w (snd (process_material E id w))) ->
  exists job source t kv,
    fst (select_material_by_id E id w) = Returned (Some job, None) /\
    study_materials.storage_path job = Some source /\
    path = "/campus-files/" ++ Js.show_Z t ++ "_" ++ Js.split_pop source /\
    JsString.without "/" (Js.split_pop source) = true /\
    find (fun kv => fst kv =? source) (bucket w) = Some kv /\
    contents = snd kv.
Proof.
  pose proof (process_material_run E id w) as Hrun. cbn zeta in Hrun.
  unfold select_material_by_id, select_single. cbn [fst].
  destruct (answer (store_error E (history w) (SelectMaterialById id))
              (single (filter (fun r => study_materials.id r =? id) (materials w))))
    as [[material |] [errM |]] eqn:Hsel; cbn [snd] in Hrun.
  1, 3, 4: rewrite Hrun; cbn [snd]; trace_run; intros Hin; which_upload.
  destruct (attempts_ge_3 (study_materials.attempts material)) eqn:Hge.
  { destruct Hrun as [errF Hrun]. rewrite Hrun; cbn [snd]; trace_run.
    intros Hin; which_upload. }
  pose proof (process_found_target E id material
                (log (EvStore (SelectMaterialById id) None) w)) as Hfound.
  cbn zeta in Hfound.
  destruct Hfound as
    [err0 [ (eP & w3 & Hq & Hpf)
          | (w3 & tok0 & aid & path0 & buf & p & bg3 &
             Hhist3 & Hbg3 & Hp & (t0 & Hpath) & (kv & Hfind & Hbuf) & Hup) ]].
  { rewrite Hpf in Hrun. destruct Hrun as [errF Hrun].
    rewrite Hrun; cbn [snd]; open_quiet; trace_run.
    intros Hin; which_upload. }
  cbn [bucket log] in Hfind.
  assert (Hgoal :
    In (EvFilesUpload tok path contents res)
       (events_since w (snd (process_material E id w))) ->
    path = path0 /\ contents = buf).
  { pose proof (upload_with_retry_run E (Dropbox.new tok0) aid path0 buf w3)
      as Hretry.
    cbn zeta in Hretry; cbn [Dropbox.accessToken] in Hretry.
    destruct (upload_with_retry E (Dropbox.new tok0) aid path0 buf w3)
      as [[pl | eU] w4] eqn:Hupeq;
      [ destruct Hup as [res0 Hup]; destruct res0 as [eS | url];
        [ rewrite Hup in Hrun; destruct Hrun as [errF Hrun]
        | destruct Hup as (t & errI & w7 & errD & errR & Hq7 & Hpf);
          rewrite Hpf in Hrun ]
      | rewrite Hup in Hrun; destruct Hrun as [errF Hrun] ];
      retry_cases Hretry.
    all: rewrite Hrun; cbn [snd]; open_quiet; trace_run.
    all: intros Hin; which_upload; split; reflexivity. }
  intros Hin. destruct (Hgoal Hin) as [-> ->].
  exists material, p, t0, kv.
  split; [reflexivity |]. split; [exact Hp |]. split; [exact Hpath |].
  split; [apply split_pop_has_no_slash |]. split; [exact Hfind | symmetry; exact Hbuf].
Qed.

(** A run on a job whose blob is not in the bucket: the download fails and
    the body of the handler stops there. *)
Lemma process_found_without_blob (E : Env) (id : string)
  (material : study_materials.row) (source : string) (w : World) :
  study_materials.storage_path material = Some source ->
  find (fun kv => fst kv =? source) (bucket w) = None ->
  exists e err0,
    process_found E id material w =
      (Thrown e,
       log (EvStorageDownload source (Some e))
         (log (EvStore (UpdateMaterialProcessing id
                          (next_attempts (study_materials.attempts material))) err0)
            (carry_out (UpdateMaterialProcessing id
                          (next_attempts (study_materials.attempts material)))
               err0 w))).
Proof.
  intros Hpath Hfind.
  unfold process_found, bind, request, downloadFromSupabase, storage_download.
  rewrite Hpath. cbn [Js.show bucket log history].
  rewrite bucket_carry_out, Hfind.
  match goal with
  | |- context [storage_download_error E ?h source] =>
      destruct (storage_download_error E h source) as [e |]
  end; eexists _, _; reflexivity.
Qed.

(** A job found below the attempts limit whose blob is not in the bucket
    (as after a run that processed it and removed the blob): the download
    fails and the run stops there.  Its calls are the selection, the write
    of the counter, the failed download and the write of the failed state;
    the answer is a 500 with the download's message; no account is selected
    or touched, no record is added; the processed link of every row is left
    as it was, while the job's state becomes [failed] when the store carries
    the last write out. *)
Theorem process_material_missing_blob
  (E : Env) (id : string) (w : World) (job : study_materials.row) (source : string) :
  let result := process_material E id w in
  let w' := snd result in
  fst (select_material_by_id E id w) = Returned (Some job, None) ->
  attempts_ge_3 (study_materials.attempts job) = false ->
  study_materials.storage_path job = Some source ->
  find (fun kv => fst kv =? source) (bucket w) = None ->
  exists e err0 errF,
    fst result =
      Returned {| status := 500;
                  body := Json_failed "Processing failed" (Js.message_or_string e) |} /\
    events_since w w' =
      [EvStore (SelectMaterialById id) None;
       EvStore (UpdateMaterialProcessing id
                  (next_attempts (study_materials.attempts job))) err0;
       EvStorageDownload source (Some e);
       EvStore (UpdateMaterialFailed id (Js.message e)) errF] /\
    accounts w' = accounts w /\ records w' = records w /\ bucket w' = bucket w /\
    map study_materials.processed_url (materials w') =
      map study_materials.processed_url (materials w) /\
    (errF = None ->
     forall r, In r (materials w') -> study_materials.id r = id ->
       study_materials.processing_status r = Some "failed" /\
       study_materials.processing_error r = Some (Js.message e)).
Proof.
  cbn zeta. intros Hjob Hbelow Hpath Hfind.
  unfold select_material_by_id, select_single in Hjob. cbn [fst] in Hjob.
  injection Hjob as Hjob.
  pose proof (process_material_run E id w) as Hrun. cbn zeta in Hrun.
  rewrite Hjob in Hrun. cbn [snd] in Hrun. rewrite Hbelow in Hrun.
  destruct (process_found_without_blob E id job source
              (log (EvStore (SelectMaterialById id) None) w) Hpath Hfind)
    as (e & err0 & Hfound).
  rewrite Hfound in Hrun. destruct Hrun as [errF Hrun].
  exists e, err0, errF. rewrite Hrun. cbn [fst snd].
  split; [reflexivity |].
  split; [calc_since; reflexivity |].
  assert (Hacc : forall q err x,
            account_query q = false ->
            accounts (carry_out q err x) = accounts x).
  { intros q err x Hq. destruct err; [reflexivity |].
    destruct q; try discriminate Hq; reflexivity. }
  split;
    [ repeat first [progress cbn [accounts log] | rewrite Hacc by reflexivity];
      reflexivity |].
  split; [side_tables; reflexivity |].
  split; [side_tables; reflexivity |].
  split.
  - cbn [materials log].
    assert (Hurl : forall q err x,
              (forall i u, q <> UpdateMaterialDone i u) ->
              map study_materials.processed_url (materials (carry_out q err x)) =
              map study_materials.processed_url (materials x)).
    { intros q err x Hq. destruct err; [reflexivity |].
      destruct q; cbn; try reflexivity;
        first [ apply map_update_where; reflexivity
              | exfalso; eapply Hq; reflexivity ]. }
    rewrite Hurl by discriminate. cbn [materials log].
    rewrite Hurl by discriminate. reflexivity.
  - intros -> r Hin Hr. unfold carry_out in Hin. cbn in Hin.
    apply In_update_where in Hin; [| reflexivity | exact Hr].
    destruct Hin as [x ->]. split; reflexivity.
Qed.

(** ** The admin gate *)

Lemma split_without (c : ascii) (s : string) :
  JsString.without c s = true -> JsString.split c s = [s].
Proof.
  induction s as [| x s IH]; cbn [JsString.without JsString.split]; [reflexivity |].
  intros H. apply andb_true_iff in H. destruct H as [Hx Hs].
  apply negb_true_iff in Hx. rewrite Hx, (IH Hs). reflexivity.
Qed.

Lemma split_at_separator (c : ascii) (a b : string) :
  JsString.without c a = true ->
  JsString.split c (a ++ String c b) = a :: JsString.split c b.
Proof.
  induction a as [| x a IH]; intros H.
  - change (EmptyString ++ String c b) with (String c b).
    cbn [JsString.split]. rewrite Ascii.eqb_refl. reflexivity.
  - cbn [JsString.without] in H. apply andb_true_iff in H. destruct H as [Hx Ha].
    apply negb_true_iff in Hx.
    change (String x a ++ String c b) with (String x (a ++ String c b)).
    cbn [JsString.split]. rewrite Hx, (IH Ha). reflexivity.
Qed.

Lemma truthy_inv (v : Js.Str) :
  Js.truthy v = true -> exists s, v = Some s /\ s <> "".
Proof.
  destruct v as [s |]; cbn; [| discriminate].
  intros H. exists s. split; [reflexivity |].
  intros ->. discriminate H.
Qed.

Lemma admin_payload_iff (user : Payload) :
  Json.truthy (Json.get "user_metadata" user) = true /\
  Json.is_true (Json.member "isAdmin" (Json.get "user_metadata" user)) = true <->
  admin_payload user.
Proof.
  unfold admin_payload. split.
  - intros [_ H].
    destruct (Json.get "user_metadata" user) as [[| | | | | fields] |];
      try discriminate H.
    cbn in H. exists fields. split; [reflexivity |].
    destruct (Json.get "isAdmin" fields) as [[| [|] | | | |] |]; try discriminate H.
    reflexivity.
  - intros (fields & -> & Hadmin). cbn. rewrite Hadmin. split; reflexivity.
Qed.

(** What [next()] tells: a token stood second in the header, the secret is
    configured, the token verified with it, and its payload is an admin's. *)
Lemma verifyAdmin_Next (C : Config) (authorization : Js.Str) (user : Payload) :
  verifyAdmin C authorization = Next user ->
  exists header token secret,
    authorization = Some header /\
    nth_error (JsString.split " " header) 1 = Some token /\ token <> "" /\
    SUPABASE_JWT_SECRET C = Some secret /\ secret <> "" /\
    jwtVerify C token secret = inr user /\
    admin_payload user.
Proof.
  unfold verifyAdmin, refuse.
  destruct (Js.truthy authorization) eqn:Hh; cbn [negb]; [| discriminate].
  apply truthy_inv in Hh. destruct Hh as (header & -> & _). cbn [Js.show].
  destruct (Js.truthy (nth_error (JsString.split " " header) 1)) eqn:Ht;
    cbn [negb]; [| discriminate].
  apply truthy_inv in Ht. destruct Ht as (token & Ht & Htok). rewrite Ht.
  destruct (Js.truthy (SUPABASE_JWT_SECRET C)) eqn:Hs; cbn [negb]; [| discriminate].
  apply truthy_inv in Hs. destruct Hs as (secret & Hs & Hsec). rewrite Hs.
  cbn [Js.show].
  destruct (jwtVerify C token secret) as [err | payload] eqn:Hv; [discriminate |].
  destruct (Json.truthy (Json.get "user_metadata" payload)) eqn:Hm;
    cbn [negb orb]; [| discriminate].
  destruct (Json.is_true (Json.member "isAdmin" (Json.get "user_metadata" payload)))
    eqn:Ha; cbn [negb]; [| discriminate].
  intros H. injection H as <-.
  exists header, token, secret. repeat split; auto.
  apply admin_payload_iff. auto.
Qed.

(** The admin gate.  It calls [next()] only for a request whose
    Authorization header has a non-empty second word, with the signing secret
    configured, when that word verifies with that secret and the payload's
    [user_metadata.isAdmin] is [true]; the payload attached is the verified
    one.  Every refusal is a 401, a 500 or a 403: the 500 only when the
    secret is not configured, the 403 only for a token that verified and
    whose payload is not an admin's. *)
Theorem verifyAdmin_contract (C : Config) (authorization : Js.Str) :
  match verifyAdmin C authorization with
  | Next user =>
      exists header token secret,
        authorization = Some header /\
        nth_error (JsString.split " " header) 1 = Some token /\ token <> "" /\
        SUPABASE_JWT_SECRET C = Some secret /\ secret <> "" /\
        jwtVerify C token secret = inr user /\
        admin_payload user
  | Refused r =>
      reply_status r = 401%Z \/
      (reply_status r = 500%Z /\ Js.truthy (SUPABASE_JWT_SECRET C) = false) \/
      (reply_status r = 403%Z /\
       exists header token secret user,
         authorization = Some header /\
         nth_error (JsString.split " " header) 1 = Some token /\
         SUPABASE_JWT_SECRET C = Some secret /\
         jwtVerify C token secret = inr user /\
         ~ admin_payload user)
  end.
Proof.
  destruct (verifyAdmin C authorization) as [user | r] eqn:Hgate.
  - apply verifyAdmin_Next. exact Hgate.
  - revert Hgate. unfold verifyAdmin, refuse.
    destruct (Js.truthy authorization) eqn:Hh; cbn [negb];
      [| intros H; injection H as <-; left; reflexivity].
    apply truthy_inv in Hh. destruct Hh as (header & -> & _). cbn [Js.show].
    destruct (Js.truthy (nth_error (JsString.split " " header) 1)) eqn:Ht;
      cbn [negb]; [| intros H; injection H as <-; left; reflexivity].
    apply truthy_inv in Ht. destruct Ht as (token & Ht & Htok). rewrite Ht.
    destruct (Js.truthy (SUPABASE_JWT_SECRET C)) eqn:Hs; cbn [negb];
      [| intros H; injection H as <-; right; left; split; reflexivity].
    apply truthy_inv in Hs. destruct Hs as (secret & Hs & Hsec). rewrite Hs.
    cbn [Js.show].
    destruct (jwtVerify C token secret) as [err | payload] eqn:Hv;
      [intros H; injection H as <-; left; reflexivity |].
    destruct (negb (Json.truthy (Json.get "user_metadata" payload))
              || negb (Json.is_true
                         (Json.member "isAdmin" (Json.get "user_metadata" payload))))
      eqn:Hadmin; [| discriminate].
    intros H. injection H as <-. right. right. split; [reflexivity |].
    exists header, token, secret, payload. repeat split; auto.
    intros Hp. apply admin_payload_iff in Hp. destruct Hp as [H1 H2].
    rewrite H1, H2 in Hadmin. discriminate Hadmin.
Qed.

(** The gate reads the token as the second space-separated word of the
    header and never looks at the first: with any word for "Bearer", and
    with or without further words after the token, the outcome is that of
    "Bearer <token>". *)
Theorem verifyAdmin_reads_second_word
  (C : Config) (scheme token more : string) :
  JsString.without " " scheme = true ->
  JsString.without " " token = true ->
  verifyAdmin C (Some (scheme ++ " " ++ token)) =
    verifyAdmin C (Some ("Bearer " ++ token)) /\
  verifyAdmin C (Some (scheme ++ " " ++ token ++ " " ++ more)) =
    verifyAdmin C (Some ("Bearer " ++ token)).
Proof.
  intros Hscheme Htoken.
  assert (Hshape : forall header,
    header <> "" ->
    nth_error (JsString.split " " header) 1 = Some token ->
    verifyAdmin C (Some header) = verifyAdmin C (Some ("Bearer " ++ token))).
  { intros header Hne Hnth. unfold verifyAdmin.
    rewrite (truthy_Some header Hne). cbn [negb Js.show].
    rewrite Hnth.
    assert (Hb : "Bearer " ++ token <> "") by discriminate.
    rewrite (truthy_Some _ Hb). cbn [negb].
    change ("Bearer " ++ token) with ("Bearer" ++ String " " token).
    rewrite split_at_separator by reflexivity.
    rewrite (split_without " " token Htoken). reflexivity. }
  assert (Hne : forall tail, scheme ++ String " " tail <> "").
  { intros tail. destruct scheme; discriminate. }
  split.
  - apply Hshape; [apply Hne |].
    change (" " ++ token) with (String " " token).
    rewrite split_at_separator by exact Hscheme.
    rewrite (split_without " " token Htoken). reflexivity.
  - apply Hshape; [apply Hne |].
    change (" " ++ token ++ " " ++ more) with (String " " (token ++ String " " more)).
    rewrite split_at_separator by exact Hscheme.
    rewrite split_at_separator by exact Htoken. reflexivity.
Qed.

(** ** The reject route *)

Lemma calls_since_app (s s' : Backend) (cs : list Call) :
  calls s' = (calls s ++ cs)%list -> calls_since s s' = cs.
Proof.
  intros H. unfold calls_since. rewrite H.
  rewrite skipn_app, skipn_all, Nat.sub_diag. reflexivity.
Qed.

Arguments deleted : simpl never.
Arguments logged : simpl never.

(** The runs of the handler: the job is not found; or its blob is removed
    when it has a storage path, its row is deleted, and the rejection is
    logged when a reason is given. *)
Lemma reject_material_run (C : Config) (id : string) (reason : option Json.value)
  (user : Payload) (s : Backend) :
  let E := base C in
  let w := processing s in
  let sel := answer (store_error E (history w) (SelectMaterialById id))
               (single (filter (fun r => study_materials.id r =? id) (materials w))) in
  let s0 := with_world (log (EvStore (SelectMaterialById id) (snd sel)) w) s in
  reject_material C id reason user s =
  match sel with
  | (Some material, None) =>
      let s1 :=
        if Js.truthy (study_materials.storage_path material) then
          let paths := [Js.show (study_materials.storage_path material)] in
          let errR := storage_remove_error E (history (processing s0)) paths in
          with_world (log (EvStorageRemove paths errR) (removed paths errR (processing s0)))
            s0
        else s0 in
      let errD := delete_material_error C (history (processing s1)) (calls s1) id in
      let s2 := record_call (CallDeleteMaterial id errD) (deleted id errD s1) in
      let s3 :=
        if Json.truthy reason then
          let r := rejection_logs.mk id reason (Json.get "sub" user)
                     (Date_now E (history (processing s2))) in
          let errI :=
            insert_rejection_log_error C (history (processing s2)) (calls s2) r in
          record_call (CallInsertRejectionLog r errI) (logged r errI s2)
        else s2 in
      (Returned {| reply_status := 200;
                   reply_json :=
                     J_message "Material rejected and deleted successfully" |},
       s3)
  | _ =>
      (Returned {| reply_status := 404; reply_json := J_error "Material not found" |},
       s0)
  end.
Proof.
  cbn zeta.
  unfold reject_material, try_catchB, bindB, lift, retB, delete_material,
    insert_rejection_log, select_material_by_id, select_single, storage_remove,
    new_Date.
  cbn [fst snd processing with_world].
  destruct (answer _ _) as [[material |] [errM |]]; cbn [fst snd]; try reflexivity.
  destruct (Js.truthy (study_materials.storage_path material));
    destruct (Json.truthy reason); reflexivity.
Qed.

(** The same runs, with the answers of the collaborators as unknowns. *)
Lemma reject_material_shape (C : Config) (id : string) (reason : option Json.value)
  (user : Payload) (s : Backend) :
  let result := reject_material C id reason user s in
  let w := processing s in
  let sel := answer (store_error (base C) (history w) (SelectMaterialById id))
               (single (filter (fun r => study_materials.id r =? id) (materials w))) in
  let s0 := with_world (log (EvStore (SelectMaterialById id) (snd sel)) w) s in
  match sel with
  | (Some material, None) =>
      exists errR errD rejected_at errI,
        let paths := [Js.show (study_materials.storage_path material)] in
        let s1 :=
          if Js.truthy (study_materials.storage_path material) then
            with_world (log (EvStorageRemove paths errR)
                          (removed paths errR (processing s0))) s0
          else s0 in
        let s2 := record_call (CallDeleteMaterial id errD) (deleted id errD s1) in
        let r := rejection_logs.mk id reason (Json.get "sub" user) rejected_at in
        let s3 :=
          if Json.truthy reason then
            record_call (CallInsertRejectionLog r errI) (logged r errI s2)
          else s2 in
        result =
          (Returned {| reply_status := 200;
                       reply_json :=
                         J_message "Material rejected and deleted successfully" |},
           s3)
  | _ =>
      result =
        (Returned {| reply_status := 404; reply_json := J_error "Material not found" |},
         s0)
  end.
Proof.
  cbn zeta. rewrite reject_material_run. cbv zeta.
  destruct (answer _ _) as [[material |] [errM |]]; try reflexivity.
  eexists _, _, _, _. reflexivity.
Qed.

Ltac reject_cases C id reason user s :=
  pose proof (reject_material_shape C id reason user s) as Hrun; cbn zeta in Hrun;
  unfold select_material_by_id, select_single; cbn [fst];
  destruct (answer (store_error (base C) (history (processing s)) (SelectMaterialById id))
              (single (filter (fun r => study_materials.id r =? id)
                         (materials (processing s)))))
    as [[material |] [errM |]] eqn:Hsel; cbn [fst snd] in Hrun;
  [ | destruct Hrun as (errR & errD & rejected_at & errI & Hrun) | | ];
  rewrite Hrun; cbn [fst snd].

(** The reject route on a job the selection does not find as exactly one
    row without error: the answer is 404 "Material not found", the selection
    is the only call, and no table, no blob and no rejection log has changed.
    For a job that is found the answer is always the success message. *)
Theorem reject_material_not_found
  (C : Config) (id : string) (reason : option Json.value) (user : Payload)
  (s : Backend) :
  let result := reject_material C id reason user s in
  let s' := snd result in
  match fst (select_material_by_id (base C) id (processing s)) with
  | Returned (Some _, None) =>
      fst result =
        Returned {| reply_status := 200;
                    reply_json :=
                      J_message "Material rejected and deleted successfully" |}
  | _ =>
      fst result =
        Returned {| reply_status := 404; reply_json := J_error "Material not found" |} /\
      (exists err,
          events_since (processing s) (processing s') = [EvStore (SelectMaterialById id) err]) /\
      calls s' = calls s /\ rejections s' = rejections s /\
      accounts (processing s') = accounts (processing s) /\
      materials (processing s') = materials (processing s) /\
      records (processing s') = records (processing s) /\
      bucket (processing s') = bucket (processing s)
  end.
Proof.
  cbn zeta. reject_cases C id reason user s.
  all: try reflexivity.
  all: (split; [reflexivity |]).
  all: (split; [eexists; calc_since; reflexivity | cbn; auto 10]).
Qed.

Lemma world_deleted (id : string) (error : option string) (s : Backend) :
  accounts (processing (deleted id error s)) = accounts (processing s) /\
  records (processing (deleted id error s)) = records (processing s) /\
  bucket (processing (deleted id error s)) = bucket (processing s) /\
  history (processing (deleted id error s)) = history (processing s) /\
  rejections (deleted id error s) = rejections s /\
  calls (deleted id error s) = calls s /\
  lib_rows (deleted id error s) = lib_rows s /\
  materials (processing (deleted id error s)) =
    match error with
    | None => filter (fun r => negb (study_materials.id r =? id)) (materials (processing s))
    | Some _ => materials (processing s)
    end.
Proof. unfold deleted. destruct error; cbn; auto 10. Qed.

Lemma world_logged (r : rejection_logs.row) (error : option string) (s : Backend) :
  processing (logged r error s) = processing s /\
  calls (logged r error s) = calls s /\
  lib_rows (logged r error s) = lib_rows s /\
  rejections (logged r error s) =
    match error with
    | None => (rejections s ++ [r])%list
    | Some _ => rejections s
    end.
Proof. unfold logged. destruct error; cbn; auto. Qed.

Ltac backend_norm :=
  repeat first
    [ progress cbn [processing rejections lib_rows calls with_world record_call
                    accounts materials records bucket history log]
    | rewrite (proj1 (world_logged _ _ _))
    | rewrite (proj1 (proj2 (world_logged _ _ _)))
    | rewrite (proj1 (proj2 (proj2 (world_logged _ _ _))))
    | rewrite (proj1 (world_deleted _ _ _))
    | rewrite (proj1 (proj2 (world_deleted _ _ _)))
    | rewrite (proj1 (proj2 (proj2 (world_deleted _ _ _))))
    | rewrite (proj1 (proj2 (proj2 (proj2 (world_deleted _ _ _)))))
    | rewrite (proj1 (proj2 (proj2 (proj2 (proj2 (world_deleted _ _ _))))))
    | rewrite (proj1 (proj2 (proj2 (proj2 (proj2 (proj2 (world_deleted _ _ _)))))))
    | rewrite (proj1 (proj2 (proj2 (proj2 (proj2 (proj2 (proj2 (world_deleted _ _ _))))))))
    | rewrite (proj2 (proj2 (proj2 (proj2 (proj2 (proj2 (proj2 (world_deleted _ _ _))))))))
    | rewrite (proj2 (proj2 (proj2 (world_logged _ _ _))))
    | rewrite materials_removed
    | rewrite records_removed
    | rewrite history_removed ].

(** The reject handler answers every request, and leaves the accounts of
    the helper library and the file records alone. *)
Lemma reject_material_answers
  (C : Config) (id : string) (reason : option Json.value) (user : Payload)
  (s : Backend) :
  let result := reject_material C id reason user s in
  (exists reply, fst result = Returned reply) /\
  lib_rows (snd result) = lib_rows s /\
  records (processing (snd result)) = records (processing s).
Proof.
  cbn zeta.
  pose proof (reject_material_shape C id reason user s) as Hrun. cbn zeta in Hrun.
  destruct (answer _ _) as [[material |] [errM |]]; cbn [fst snd] in Hrun.
  2:{ destruct Hrun as (errR & errD & rejected_at & errI & Hrun).
      rewrite Hrun. cbn [fst snd].
      split; [eexists; reflexivity |].
      destruct (Js.truthy (study_materials.storage_path material));
        destruct (Json.truthy reason); backend_norm; split; reflexivity. }
  all: rewrite Hrun; cbn [fst snd]; (split; [eexists; reflexivity |]);
    split; reflexivity.
Qed.

Lemma accounts_removed (paths : list string) (error : option Js.Error) (w : World) :
  accounts (removed paths error w) = accounts w.
Proof. destruct error; reflexivity. Qed.

(** The reject route on a job that is found: the answer is the success
    message whatever the store and the storage answer afterwards.  Exactly
    one delete is requested, for the job's id, as the first call on the
    tables of this part; the only other such call is the insert of one
    rejection log, made when a reason is given.  Carried out, the delete
    leaves exactly the rows of other ids, in their order; refused, it leaves
    the materials as they were (and the answer is still the success
    message).  Accounts and file records are never touched. *)
Theorem reject_material_deletes_the_job
  (C : Config) (id : string) (reason : option Json.value) (user : Payload)
  (s : Backend) (job : study_materials.row) :
  let result := reject_material C id reason user s in
  let s' := snd result in
  fst (select_material_by_id (base C) id (processing s)) = Returned (Some job, None) ->
  fst result =
    Returned {| reply_status := 200;
                reply_json := J_message "Material rejected and deleted successfully" |} /\
  (exists errD,
      (if Json.truthy reason then
         exists rejected_at errI,
           calls_since s s' =
             [CallDeleteMaterial id errD;
              CallInsertRejectionLog
                (rejection_logs.mk id reason (Json.get "sub" user) rejected_at) errI]
       else calls_since s s' = [CallDeleteMaterial id errD]) /\
      match errD with
      | None =>
          materials (processing s') =
            filter (fun r => negb (study_materials.id r =? id)) (materials (processing s)) /\
          forall r, In r (materials (processing s')) <->
                    In r (materials (processing s)) /\ study_materials.id r <> id
      | Some _ => materials (processing s') = materials (processing s)
      end) /\
  accounts (processing s') = accounts (processing s) /\
  records (processing s') = records (processing s).
Proof.
  cbn zeta. unfold select_material_by_id, select_single. cbn [fst].
  intros Hjob. injection Hjob as Hjob.
  reject_cases C id reason user s.
  all: try discriminate Hjob.
  split; [reflexivity |].
  destruct (Js.truthy (study_materials.storage_path material));
    destruct (Json.truthy reason).
  all: split;
    [ exists errD; split;
      [ try (exists rejected_at, errI);
        erewrite calls_since_app by (backend_norm; rewrite <- ?app_assoc; reflexivity);
        reflexivity
      | ]
    | backend_norm; rewrite ?accounts_removed; auto ].
  all: destruct errD as [msgD |].
  all: backend_norm; try reflexivity.
  all: (split; [reflexivity |]).
  all: intros r; rewrite filter_In, negb_true_iff, String.eqb_neq; reflexivity.
Qed.

(** The calls of [Event] made in a run of these parts. *)
Ltac backend_events :=
  erewrite events_since_app
    by (backend_norm; rewrite <- ?app_assoc;
        first [reflexivity | symmetry; apply app_nil_r]).

(** The reject route and the job's blob: with a non-empty storage path one
    removal of that path is requested, right after the selection, and when
    the storage carries it out the bucket loses the blobs at that path and
    nothing else; with a null or empty storage path the storage is not
    called and the bucket is left as it was. *)
Theorem reject_material_removes_the_blob
  (C : Config) (id : string) (reason : option Json.value) (user : Payload)
  (s : Backend) (job : study_materials.row) :
  let s' := snd (reject_material C id reason user s) in
  let evs := events_since (processing s) (processing s') in
  fst (select_material_by_id (base C) id (processing s)) = Returned (Some job, None) ->
  match study_materials.storage_path job with
  | Some source =>
      if source =? "" then
        evs = [EvStore (SelectMaterialById id) None] /\
        bucket (processing s') = bucket (processing s)
      else
        exists errR,
          evs = [EvStore (SelectMaterialById id) None;
                 EvStorageRemove [source] errR] /\
          bucket (processing s') =
            match errR with
            | None => filter (fun kv => negb (fst kv =? source)) (bucket (processing s))
            | Some _ => bucket (processing s)
            end
  | None =>
      evs = [EvStore (SelectMaterialById id) None] /\
      bucket (processing s') = bucket (processing s)
  end.
Proof.
  cbn zeta. unfold select_material_by_id, select_single. cbn [fst].
  intros Hjob. injection Hjob as Hjob.
  reject_cases C id reason user s.
  all: try discriminate Hjob.
  injection Hjob as ->.
  destruct (study_materials.storage_path job) as [source |]; cbn [Js.truthy Js.show].
  2:{ destruct (Json.truthy reason); backend_norm;
        (split; [backend_events; reflexivity | reflexivity]). }
  destruct (source =? ""); cbn [negb].
  { destruct (Json.truthy reason); backend_norm;
      (split; [backend_events; reflexivity | reflexivity]). }
  exists errR.
  destruct (Json.truthy reason); backend_norm.
  all: (split; [backend_events; reflexivity |]).
  all: destruct errR; unfold removed; cbn; [reflexivity |].
  all: apply filter_ext; intros kv; rewrite orb_false_r; reflexivity.
Qed.

(** A request to the reject route adds at most one rejection log, and one
    it adds is for the job of the request, holds the reason given (a truthy
    one) and, as [rejected_by], the [sub] claim of the payload of a token
    that verified with the configured secret as an admin's. *)
Theorem rejection_log_names_a_verified_admin
  (C : Config) (authorization : Js.Str) (id : string) (reason : option Json.value)
  (s : Backend) :
  let s' := snd (post_reject_material C authorization id reason s) in
  rejections s' = rejections s \/
  exists r header token secret user,
    rejections s' = (rejections s ++ [r])%list /\
    rejection_logs.material_id r = id /\
    rejection_logs.reason r = reason /\ Json.truthy reason = true /\
    rejection_logs.rejected_by r = Json.get "sub" user /\
    authorization = Some header /\
    nth_error (JsString.split " " header) 1 = Some token /\
    SUPABASE_JWT_SECRET C = Some secret /\
    jwtVerify C token secret = inr user /\
    admin_payload user.
Proof.
  cbn zeta. unfold post_reject_material, guarded.
  destruct (verifyAdmin C authorization) as [user | refusal] eqn:Hgate;
    [| left; reflexivity].
  unfold bindB, retB.
  pose proof (reject_material_shape C id reason user s) as Hrun. cbn zeta in Hrun.
  destruct (answer _ _) as [[material |] [errM |]]; cbn [fst snd] in Hrun.
  2:{ destruct Hrun as (errR & errD & rejected_at & errI & Hrun).
      rewrite Hrun. cbn [snd].
      destruct (Json.truthy reason) eqn:Hreason.
      - destruct errI as [msgI |]; backend_norm;
          [ destruct (Js.truthy _); left; reflexivity |].
        right.
        destruct (verifyAdmin_Next C authorization user Hgate)
          as (header & token & secret & Hh & Ht & _ & Hs & _ & Hv & Hadmin).
        eexists _, header, token, secret, user.
        split; [destruct (Js.truthy _); reflexivity |].
        cbn. auto 10.
      - backend_norm. destruct (Js.truthy _); left; reflexivity. }
  all: rewrite Hrun; left; reflexivity.
Qed.

(** ** The admin routes over a sequence of requests *)

Lemma process_material_keeps_jobs (E : Env) (id : string) (w : World) :
  map study_materials.id (materials (snd (process_material E id w))) =
  map study_materials.id (materials w).
Proof.
  handler_cases E id w.
  all: rewrite Hrun; cbn [fst snd]; open_quiet.
  all: repeat first
         [ progress cbn [materials log fst snd]
         | rewrite materials_removed
         | rewrite materials_carry_out_log
         | rewrite ids_carry_out
         | match goal with
           | H : materials ?x = _ |- context [materials ?x] => rewrite H
           end ].
  all: reflexivity.
Qed.

Lemma reject_material_keeps_other_jobs
  (C : Config) (id : string) (reason : option Json.value) (user : Payload)
  (s : Backend) (other : string) :
  other <> id -> In other (job_ids s) ->
  In other (job_ids (snd (reject_material C id reason user s))).
Proof.
  intros Hother Hin. unfold job_ids in *.
  pose proof (reject_material_shape C id reason user s) as Hrun. cbn zeta in Hrun.
  destruct (answer _ _) as [[material |] [errM |]]; cbn [fst snd] in Hrun.
  2:{ destruct Hrun as (errR & errD & rejected_at & errI & Hrun).
      rewrite Hrun. cbn [snd].
      destruct (Js.truthy (study_materials.storage_path material));
        destruct (Json.truthy reason); destruct errD as [msgD |]; backend_norm;
        try exact Hin.
      all: apply in_map_iff in Hin; destruct Hin as (r & Hr & Hin).
      all: apply in_map_iff; exists r; split; [exact Hr |].
      all: apply filter_In; split; [exact Hin |].
      all: apply negb_true_iff, String.eqb_neq; congruence. }
  all: rewrite Hrun; cbn [snd]; backend_norm; exact Hin.
Qed.

(** A request the gate refuses leaves the state as it was. *)
Lemma handle_refused (C : Config) (req : AdminRequest) (s : Backend) :
  ~ admin_header C (authorization_of req) -> handle C req s = s.
Proof.
  intros Hno.
  assert (Hgate : exists refusal,
             verifyAdmin C (authorization_of req) = Refused refusal).
  { destruct (verifyAdmin C (authorization_of req)) as [user | refusal] eqn:Hgate;
      [| eexists; reflexivity].
    exfalso. apply Hno.
    destruct (verifyAdmin_Next C _ user Hgate)
      as (header & token & secret & H).
    exists header, token, secret, user. exact H. }
  destruct Hgate as [refusal Hgate].
  destruct req as [authorization id | authorization id reason];
    cbn [handle authorization_of] in *;
    unfold post_process_material, post_reject_material, guarded;
    rewrite Hgate; reflexivity.
Qed.

(** One request: a job stays, unless the request is a rejection of that job
    with an admin's header. *)
Lemma handle_keeps_jobs (C : Config) (req : AdminRequest) (s : Backend)
  (id : string) :
  In id (job_ids s) ->
  In id (job_ids (handle C req s)) \/
  exists authorization reason,
    req = RejectMaterial authorization id reason /\ admin_header C authorization.
Proof.
  intros Hin.
  destruct req as [authorization rid | authorization rid reason];
    cbn [handle]; unfold post_process_material, post_reject_material, guarded.
  - left.
    destruct (verifyAdmin C authorization) as [user | refusal]; [| exact Hin].
    unfold bindB, retB, lift.
    pose proof (process_material_keeps_jobs (base C) rid (processing s)) as Hids.
    destruct (process_material (base C) rid (processing s)) as [[resp | e] w1];
      cbn [fst snd] in *; unfold job_ids in *; cbn [processing with_world];
      rewrite Hids; exact Hin.
  - destruct (verifyAdmin C authorization) as [user | refusal] eqn:Hgate;
      [| left; exact Hin].
    destruct (string_dec id rid) as [-> | Hother].
    + right. exists authorization, reason. split; [reflexivity |].
      destruct (verifyAdmin_Next C _ user Hgate)
        as (header & token & secret & H).
      exists header, token, secret, user. exact H.
    + left.
      pose proof (reject_material_keeps_other_jobs C rid reason user s id Hother Hin)
        as Hkept.
      unfold bindB, retB.
      destruct (reject_material C rid reason user s) as [[reply | e] s1];
        exact Hkept.
Qed.

(** Over any sequence of requests to the two admin routes, served one after
    the other.  A sequence in which no request carries an admin's header
    leaves the whole state as it was: tables, bucket, logs and both call
    histories.  And a job that was in the store and is no longer there was
    the target of a reject request of the sequence that carried an admin's
    header: the processing route deletes no job, the reject route deletes
    none but its own, and the gate lets nobody else through. *)
Theorem jobs_leave_only_by_admin_rejection
  (C : Config) (requests : list AdminRequest) (s : Backend) :
  let s' := serve_admin C requests s in
  ((forall req, In req requests -> ~ admin_header C (authorization_of req)) ->
   s' = s) /\
  forall id,
    In id (job_ids s) -> ~ In id (job_ids s') ->
    exists authorization reason,
      In (RejectMaterial authorization id reason) requests /\
      admin_header C authorization.
Proof.
  cbn zeta. split.
  - revert s. induction requests as [| req rest IH]; intros s Hno; [reflexivity |].
    cbn [serve_admin].
    rewrite handle_refused by (apply Hno; left; reflexivity).
    apply IH. intros r Hr. apply Hno. right. exact Hr.
  - revert s. induction requests as [| req rest IH]; intros s id Hin Hout.
    + contradiction.
    + cbn [serve_admin] in Hout.
      destruct (handle_keeps_jobs C req s id Hin)
        as [Hkept | (authorization & reason & -> & Hadmin)].
      * destruct (IH _ id Hkept Hout) as (authorization & reason & Hreq & Hadmin).
        exists authorization, reason. split; [right; exact Hreq | exact Hadmin].
      * exists authorization, reason. split; [left; reflexivity | exact Hadmin].
Qed.

(** ** The helper library and the test server *)

Lemma In_insert_by_usage_count (x r : lib_accounts.row) (l : list lib_accounts.row) :
  In x (insert_by_usage_count r l) <-> x = r \/ In x l.
Proof.
  induction l as [| y l IH]; cbn.
  - intuition.
  - destruct (last_used_le _ _); cbn; [intuition |].
    rewrite IH. intuition.
Qed.

Lemma In_order_by_usage_count (x : lib_accounts.row) (l : list lib_accounts.row) :
  In x (order_by_usage_count l) <-> In x l.
Proof.
  induction l as [| y l IH]; cbn; [reflexivity |].
  rewrite In_insert_by_usage_count, IH. intuition.
Qed.

(** The first row of the ordered selection has the least count. *)
Lemma order_by_usage_count_head (l : list lib_accounts.row)
  (r : lib_accounts.row) (rest : list lib_accounts.row) :
  order_by_usage_count l = r :: rest ->
  forall r', In r' l ->
    last_used_le (lib_accounts.usage_count r) (lib_accounts.usage_count r') = true.
Proof.
  revert r rest. induction l as [| x l IH]; intros r rest Hord r' Hin.
  - destruct Hin.
  - cbn in Hord.
    destruct (order_by_usage_count l) as [| y ys] eqn:Hl.
    + cbn in Hord. injection Hord as <- <-.
      destruct Hin as [<- | Hin]; [apply last_used_le_refl |].
      apply In_order_by_usage_count in Hin. rewrite Hl in Hin. destruct Hin.
    + cbn in Hord.
      destruct (last_used_le (lib_accounts.usage_count x)
                  (lib_accounts.usage_count y)) eqn:Hxy.
      * injection Hord as <- <-.
        destruct Hin as [<- | Hin]; [apply last_used_le_refl |].
        eapply last_used_le_trans; [exact Hxy |].
        eapply IH; [reflexivity | exact Hin].
      * injection Hord as <- <-.
        destruct Hin as [<- | Hin].
        -- apply last_used_le_total. exact Hxy.
        -- eapply IH; [reflexivity | exact Hin].
Qed.

(** [pickDropboxToken] with tokens kept in the store (USE_DB_TOKENS is
    "true", the store client is configured, the store answers): the result
    is the credential and the id of an active account with the least
    [usage_count] among the active accounts (nulls last);
    "No Dropbox accounts found in DB" is thrown exactly when no account is
    active; the selection is the only call and the table is left as it
    was. *)
Theorem pickDropboxToken_least_used_active (C : Config) (s : Backend) :
  let result := pickDropboxToken C s in
  let s' := snd result in
  JsString.strictly_equals (USE_DB_TOKENS C) "true" = true ->
  supabaseAdmin_configured C = true ->
  select_lib_account_error C (history (processing s)) (calls s) = None ->
  match fst result with
  | Returned (token, accountId) =>
      exists r,
        In r (lib_rows s) /\ is_active r = true /\
        token = lib_accounts.access_token r /\
        accountId = Some (lib_accounts.id r) /\
        forall r', In r' (lib_rows s) -> is_active r' = true ->
          last_used_le (lib_accounts.usage_count r)
                       (lib_accounts.usage_count r') = true
  | Thrown e =>
      e = Js.new_Error "No Dropbox accounts found in DB" /\
      forall r', In r' (lib_rows s) -> is_active r' = false
  end /\
  calls_since s s' = [CallSelectLibAccount None] /\
  lib_rows s' = lib_rows s /\ processing s' = processing s.
Proof.
  cbn zeta. intros Hdb Hconf Hstore.
  unfold pickDropboxToken. rewrite Hdb, Hconf. cbn [negb].
  unfold bindB, select_lib_account, throwB, retB. rewrite Hstore.
  unfold answer. cbn [fst snd].
  destruct (order_by_usage_count (filter is_active (lib_rows s)))
    as [| r rest] eqn:Hord; cbn [hd_error fst snd].
  - split; [| split; [apply calls_since_app; reflexivity | split; reflexivity]].
    split; [reflexivity |].
    intros r' Hin. destruct (is_active r') eqn:Hact; [| reflexivity].
    assert (Hr' : In r' (order_by_usage_count (filter is_active (lib_rows s))))
      by (apply In_order_by_usage_count, filter_In; auto).
    rewrite Hord in Hr'. destruct Hr'.
  - split; [| split; [apply calls_since_app; reflexivity | split; reflexivity]].
    assert (Hr : In r (filter is_active (lib_rows s))).
    { apply In_order_by_usage_count. rewrite Hord. left. reflexivity. }
    apply filter_In in Hr. destruct Hr as [Hin Hact].
    exists r. repeat split; auto.
    intros r' Hin' Hact'. eapply order_by_usage_count_head; [exact Hord |].
    apply filter_In. auto.
Qed.

(** [pickDropboxToken] makes at most the one selection, and nothing else. *)
Lemma pickDropboxToken_calls (C : Config) (s : Backend) :
  let s' := snd (pickDropboxToken C s) in
  processing s' = processing s /\ rejections s' = rejections s /\ lib_rows s' = lib_rows s /\
  exists cs, calls s' = (calls s ++ cs)%list /\ filter is_upload_call cs = [].
Proof.
  cbn zeta. unfold pickDropboxToken, bindB, select_lib_account, throwB, retB.
  destruct (JsString.strictly_equals _ _).
  - destruct (negb (supabaseAdmin_configured C)); cbn [snd].
    + repeat split. exists []. split; [symmetry; apply app_nil_r | reflexivity].
    + destruct (answer _ _) as [[data |] [msg |]]; cbn [fst snd].
      all: repeat split; eexists [_]; split; reflexivity.
  - destruct (negb (Js.truthy (DROPBOX_ACCESS_TOKEN C))); cbn [snd].
    all: repeat split; exists []; (split; [symmetry; apply app_nil_r | reflexivity]).
Qed.

Lemma free_of_append (cls : ascii -> bool) (a b : string) :
  JsString.free_of cls (a ++ b) = JsString.free_of cls a && JsString.free_of cls b.
Proof.
  induction a as [| x a IH]; [reflexivity |].
  change (String x a ++ b) with (String x (a ++ b)).
  cbn [JsString.free_of]. rewrite IH. apply andb_assoc.
Qed.

Lemma length_append (a b : string) :
  String.length (a ++ b) = (String.length a + String.length b)%nat.
Proof.
  induction a as [| x a IH]; [reflexivity |].
  change (String x a ++ b) with (String x (a ++ b)).
  cbn [String.length]. rewrite IH. reflexivity.
Qed.

Lemma replace_runs_free (cls : ascii -> bool) (rep : string) (in_run : bool)
  (s : string) :
  JsString.free_of cls rep = true ->
  JsString.free_of cls (JsString.replace_runs cls rep in_run s) = true.
Proof.
  intros Hrep. revert in_run.
  induction s as [| c s IH]; intros in_run; cbn [JsString.replace_runs];
    [reflexivity |].
  destruct (cls c) eqn:Hc.
  - destruct in_run; [apply IH |].
    rewrite free_of_append, Hrep, IH. reflexivity.
  - cbn [JsString.free_of]. rewrite Hc, IH. reflexivity.
Qed.

Lemma replace_runs_of_free (cls : ascii -> bool) (rep : string) (in_run : bool)
  (s : string) :
  JsString.free_of cls s = true -> JsString.replace_runs cls rep in_run s = s.
Proof.
  revert in_run.
  induction s as [| c s IH]; intros in_run H; cbn [JsString.replace_runs];
    [reflexivity |].
  cbn [JsString.free_of] in H. apply andb_true_iff in H. destruct H as [Hc Hs].
  apply negb_true_iff in Hc. rewrite Hc, (IH false Hs). reflexivity.
Qed.

Lemma replace_runs_length (cls : ascii -> bool) (rep : string) (in_run : bool)
  (s : string) :
  (String.length rep <= 1)%nat ->
  (String.length (JsString.replace_runs cls rep in_run s) <= String.length s)%nat.
Proof.
  intros Hrep. revert in_run.
  induction s as [| c s IH]; intros in_run; cbn [JsString.replace_runs String.length];
    [lia |].
  destruct (cls c).
  - destruct in_run.
    + specialize (IH true). lia.
    + rewrite length_append. specialize (IH true). lia.
  - cbn [String.length]. specialize (IH false). lia.
Qed.

(** The name a file is uploaded under by the test server,
    [filename.replace(/\s+/g, "_")]: it holds no whitespace; it is the file
    name itself exactly when that holds none; replacing again changes
    nothing; and it is no longer than the file name. *)
Theorem safe_name_has_no_whitespace (name : string) :
  let safeName := JsString.replace_whitespace "_" name in
  JsString.free_of JsString.is_space safeName = true /\
  (safeName = name <-> JsString.free_of JsString.is_space name = true) /\
  JsString.replace_whitespace "_" safeName = safeName /\
  (String.length safeName <= String.length name)%nat.
Proof.
  cbn zeta. unfold JsString.replace_whitespace.
  assert (Hfree : JsString.free_of JsString.is_space
                    (JsString.replace_runs JsString.is_space "_" false name) = true)
    by (apply replace_runs_free; reflexivity).
  split; [exact Hfree |]. split; [| split].
  - split.
    + intros Heq. rewrite <- Heq. exact Hfree.
    + apply replace_runs_of_free.
  - apply replace_runs_of_free. exact Hfree.
  - apply replace_runs_length. cbn. lia.
Qed.

Lemma last_nonempty {A} (y : A) (l : list A) (d d' : A) :
  last (y :: l) d = last (y :: l) d'.
Proof.
  revert y. induction l as [| z l IH]; intros y; [reflexivity |].
  change (last (z :: l) d = last (z :: l) d'). apply IH.
Qed.

Lemma last_app_default {A} (l m : list A) (d : A) :
  last (l ++ m)%list d = last m (last l d).
Proof.
  revert d. induction l as [| x l IH]; intros d; [reflexivity |].
  destruct l as [| y l].
  - destruct m as [| z m]; [reflexivity |].
    change (last (z :: m) d = last (z :: m) x). apply last_nonempty.
  - change (last ((y :: l) ++ m)%list d = last m (last (y :: l) d)).
    apply IH.
Qed.

Lemma received_from (events : list BusboyEvent) (st : Received) :
  fold_left on_event events st =
  {| fileBuffers := (fileBuffers st ++ chunks events)%list;
     filename := last (file_names events) (filename st);
     gotFile := gotFile st || existsb is_file events |}.
Proof.
  revert st. induction events as [| ev events IH]; intros st.
  - cbn. rewrite app_nil_r, orb_false_r. destruct st; reflexivity.
  - cbn [fold_left]. rewrite IH.
    unfold file_names, chunks. cbn [flat_map existsb].
    fold (file_names events). fold (chunks events).
    destruct ev as [name | data]; cbn [on_event fileBuffers filename gotFile is_file].
    + rewrite last_app_default, orb_true_r.
      destruct (Js.truthy name); reflexivity.
    + rewrite <- app_assoc. reflexivity.
Qed.

(** What the handlers of the test server have gathered when the request
    has been read: a file was seen when there was a ["file"] event; the
    buffers are all chunks of data in their order of arrival, whichever file
    they belong to; the name is that of the last file with a non-empty name,
    "file.pdf" when there is none. *)
Theorem received_after (events : list BusboyEvent) :
  fold_left on_event events received_nothing =
  {| fileBuffers := chunks events;
     filename := last (file_names events) "file.pdf";
     gotFile := existsb is_file events |}.
Proof.
  enough (Hfrom : forall st,
    fold_left on_event events st =
    {| fileBuffers := (fileBuffers st ++ chunks events)%list;
       filename := last (file_names events) (filename st);
       gotFile := gotFile st || existsb is_file events |})
    by (rewrite Hfrom; reflexivity).
  induction events as [| ev events IH]; intros st.
  - cbn. rewrite app_nil_r, orb_false_r. destruct st; reflexivity.
  - cbn [fold_left]. rewrite IH.
    unfold file_names, chunks. cbn [flat_map existsb].
    fold (file_names events). fold (chunks events).
    destruct ev as [name | data]; cbn [on_event fileBuffers filename gotFile is_file].
    + rewrite last_app_default, orb_true_r.
      destruct (Js.truthy name); reflexivity.
    + rewrite <- app_assoc. reflexivity.
Qed.

(** What [createSharedLinkDirect] calls, and where a link it returns comes
    from. *)
Lemma createSharedLinkDirect_links (E : Env) (token : Js.Str) (path : string)
  (w : World) :
  let result := createSharedLinkDirect E token path w in
  exists evs,
    history (snd result) = (history w ++ evs)%list /\
    (forall ev, In ev evs ->
       (exists res, ev = EvHttpCreateSharedLink token path res) \/
       (exists res, ev = EvHttpListSharedLinks token path res)) /\
    (forall url, fst result = Returned url ->
       exists link,
         url = direct_url link /\
         (In (EvHttpCreateSharedLink token path (inr link)) evs \/
          exists links, In (EvHttpListSharedLinks token path (inr (link :: links))) evs)).
Proof.
  cbn zeta.
  unfold createSharedLinkDirect, post_create_shared_link, post_list_shared_links.
  unfold_monad. run.
  all: eexists; (split; [rewrite <- ?app_assoc; reflexivity |]).
  all: split;
    [ intros ev Hin; cbn in Hin; which_event; eauto
    | intros url Hurl;
      first [ discriminate Hurl
            | injection Hurl as <-;
              eexists; split; [reflexivity |]; cbn; eauto 6 ] ].
Qed.

(** The runs of the ["finish"] handler on a request with a file. *)
Lemma test_upload_finish_shape (C : Config) (st : Received) (s : Backend) :
  gotFile st = true ->
  let result := test_upload_finish C st s in
  let buffer := concat (fileBuffers st) in
  let failed (e : Js.Error) :=
    Returned {| reply_status := 500; reply_json := J_upload_failed (Js.message e) |} in
  match pickDropboxToken C s with
  | (Thrown e, s1) => result = (failed e, s1)
  | (Returned picked, s1) =>
      let token := fst picked in
      exists ts errU,
        let path := "/campus-files/test/" ++ Js.show_Z ts ++ "_"
                      ++ JsString.replace_whitespace "_" (filename st) in
        let s2 := record_call (CallUpload token path buffer errU) s1 in
        match errU with
        | Some e => result = (failed e, s2)
        | None =>
            match createSharedLinkDirect (base C) token path (processing s2) with
            | (Returned url, w3) =>
                result =
                  (Returned {| reply_status := 200;
                               reply_json := J_uploaded path url |},
                   with_world w3 s2)
            | (Thrown e, w3) => result = (failed e, with_world w3 s2)
            end
        end
  end.
Proof.
  intros Hfile. cbn zeta.
  unfold test_upload_finish. rewrite Hfile. cbn [negb].
  unfold try_catchB, bindB.
  destruct (pickDropboxToken C s) as [[picked | e] s1]; [| reflexivity].
  unfold lift at 1, new_Date. cbn [fst snd].
  unfold uploadBufferToDropbox, lift, retB.
  cbv beta zeta. cbn [fst snd processing with_world record_call history calls].
  match goal with
  | |- context [upload_arg_path ?p] => change (upload_arg_path p) with p
  end.
  match goal with
  | |- context [upload_error C ?h ?c ?t ?p ?b] =>
      exists (Date_now (base C) (history (processing s1))), (upload_error C h c t p b);
      destruct (upload_error C h c t p b) as [e |]
  end; [reflexivity |].
  cbn [fst snd processing with_world record_call history calls].
  destruct (createSharedLinkDirect _ _ _ _) as [[url | e] w3]; reflexivity.
Qed.

Lemma filter_nil_In {A} (f : A -> bool) (l : list A) (x : A) :
  filter f l = [] -> In x l -> f x = false.
Proof.
  intros Hf Hin. destruct (f x) eqn:Hx; [| reflexivity].
  assert (H : In x (filter f l)) by (apply filter_In; auto).
  rewrite Hf in H. destruct H.
Qed.

(** The test upload route.  Without a file part the answer is 400
    "No file uploaded" and nothing is called.  With one, the answer is a 200
    or a 500; at most one upload is made, of all the data received, to
    "/campus-files/test/<timestamp>_<safe name>", the path being sent as it
    is; shared-link calls are made only after an upload that succeeded, with
    its credential and its path; and a 200 reports that path and the
    normalised form of a link the provider gave for it in this run. *)
Theorem test_upload_contract (C : Config) (events : list BusboyEvent) (s : Backend) :
  let result := test_upload C events s in
  let s' := snd result in
  let made := calls_since s s' in
  let evs := events_since (processing s) (processing s') in
  let buffer := concat (chunks events) in
  let safeName :=
    JsString.replace_whitespace "_" (last (file_names events) "file.pdf") in
  if existsb is_file events then
    exists reply,
      fst result = Returned reply /\
      (reply_status reply = 200%Z \/ reply_status reply = 500%Z) /\
      (List.length (filter is_upload_call made) <= 1)%nat /\
      (forall token path buf err,
          In (CallUpload token path buf err) made ->
          buf = buffer /\
          exists ts, path = "/campus-files/test/" ++ Js.show_Z ts ++ "_" ++ safeName) /\
      (forall ev, In ev evs ->
         exists token path buf,
           In (CallUpload token path buf None) made /\
           ((exists res, ev = EvHttpCreateSharedLink token path res) \/
            (exists res, ev = EvHttpListSharedLinks token path res))) /\
      (reply_status reply = 200%Z ->
       exists token path link,
         reply_json reply = J_uploaded path (direct_url link) /\
         In (CallUpload token path buffer None) made /\
         (In (EvHttpCreateSharedLink token path (inr link)) evs \/
          exists links,
            In (EvHttpListSharedLinks token path (inr (link :: links))) evs))
  else
    result =
      (Returned {| reply_status := 400;
                   reply_json := J_upload_failed "No file uploaded" |}, s).
Proof.
  cbn zeta. unfold test_upload. rewrite received_from.
  cbn [received_nothing fileBuffers filename gotFile app orb].
  destruct (existsb is_file events) eqn:Hfile; [| reflexivity].
  pose proof (test_upload_finish_shape C
                {| fileBuffers := chunks events;
                   filename := last (file_names events) "file.pdf";
                   gotFile := true |} s eq_refl) as Hrun.
  cbn zeta in Hrun. cbn [fileBuffers filename] in Hrun.
  pose proof (pickDropboxToken_calls C s) as Hpick. cbn zeta in Hpick.
  destruct (pickDropboxToken C s) as [[picked | e] s1]; cbn [snd] in Hpick;
    destruct Hpick as (Hw1 & _ & _ & cs & Hcs & Hnone).
  2:{ rewrite Hrun. cbn [fst snd]. eexists. split; [reflexivity |].
      split; [right; reflexivity |].
      rewrite (calls_since_app _ _ _ Hcs), Hnone, Hw1.
      split; [cbn; lia |].
      split; [intros token path buf err Hin;
              apply (filter_nil_In _ _ _ Hnone) in Hin; discriminate Hin |].
      split; [intros ev Hin; calc_since; destruct Hin | discriminate]. }
  destruct Hrun as (ts & errU & Hrun).
  assert (Hmade : forall w3,
    calls_since s
      (with_world w3
         (record_call
            (CallUpload (fst picked)
               ("/campus-files/test/" ++ Js.show_Z ts ++ "_" ++
                JsString.replace_whitespace "_" (last (file_names events) "file.pdf"))
               (concat (chunks events)) errU) s1)) =
    (cs ++ [CallUpload (fst picked)
              ("/campus-files/test/" ++ Js.show_Z ts ++ "_" ++
               JsString.replace_whitespace "_" (last (file_names events) "file.pdf"))
              (concat (chunks events)) errU])%list).
  { intros w3. apply calls_since_app. cbn. rewrite Hcs, app_assoc. reflexivity. }
  assert (Hupload : forall token path buf err,
    In (CallUpload token path buf err)
       (cs ++ [CallUpload (fst picked)
                 ("/campus-files/test/" ++ Js.show_Z ts ++ "_" ++
                  JsString.replace_whitespace "_" (last (file_names events) "file.pdf"))
                 (concat (chunks events)) errU])%list ->
    buf = concat (chunks events) /\
    exists ts', path = "/campus-files/test/" ++ Js.show_Z ts' ++ "_" ++
                       JsString.replace_whitespace "_"
                         (last (file_names events) "file.pdf")).
  { intros token path buf err Hin. apply in_app_or in Hin. destruct Hin as [Hin | Hin].
    - apply (filter_nil_In _ _ _ Hnone) in Hin. discriminate Hin.
    - destruct Hin as [Hin | []]. injection Hin as <- <- <- <-.
      split; [reflexivity | exists ts; reflexivity]. }
  assert (Hcount :
    (List.length
       (filter is_upload_call
          (cs ++ [CallUpload (fst picked)
                    ("/campus-files/test/" ++ Js.show_Z ts ++ "_" ++
                     JsString.replace_whitespace "_"
                       (last (file_names events) "file.pdf"))
                    (concat (chunks events)) errU])%list) <= 1)%nat).
  { rewrite filter_app, Hnone. cbn. lia. }
  destruct errU as [e |].
  { rewrite Hrun. cbn [fst snd]. eexists. split; [reflexivity |].
    split; [right; reflexivity |].
    rewrite <- (Hmade (processing s1)) in Hcount, Hupload.
    cbn [with_world record_call processing] in *.
    split; [exact Hcount |]. split; [exact Hupload |].
    rewrite Hw1.
    split; [intros ev Hin; calc_since; destruct Hin | discriminate]. }
  cbn [processing record_call] in Hrun.
  pose proof (createSharedLinkDirect_links (base C) (fst picked)
                ("/campus-files/test/" ++ Js.show_Z ts ++ "_" ++
                 JsString.replace_whitespace "_" (last (file_names events) "file.pdf"))
                (processing s1)) as Hlinks.
  cbn zeta in Hlinks.
  destruct (createSharedLinkDirect _ _ _ _) as [[url | e] w3];
    cbn [fst snd] in Hlinks; destruct Hlinks as (linked & Hhist & Hkinds & Hlink).
  all: rewrite Hrun; cbn [fst snd]; eexists; (split; [reflexivity |]).
  all: rewrite (Hmade w3); cbn [processing with_world].
  all: rewrite Hw1 in Hhist; rewrite (events_since_app _ _ _ Hhist).
  all: (split; [first [left; reflexivity | right; reflexivity] |]).
  all: (split; [exact Hcount |]); (split; [exact Hupload |]).
  all: split;
    [ intros ev Hin; eexists _, _, _;
      split; [apply in_or_app; right; left; reflexivity | exact (Hkinds ev Hin)]
    | ].
  - intros _. destruct (Hlink url eq_refl) as (link & -> & Hfrom).
    eexists _, _, link. split; [reflexivity |].
    split; [apply in_or_app; right; left; reflexivity | exact Hfrom].
  - discriminate.
Qed.

(** The test upload route without a usable token: with USE_DB_TOKENS
    "true" and the store client not configured, or with tokens taken from
    the environment and DROPBOX_ACCESS_TOKEN unset or empty, a request with
    a file is answered 500 with the matching message, and nothing is called:
    the state is left as it was. *)
Theorem test_upload_without_token (C : Config) (events : list BusboyEvent)
  (s : Backend) :
  existsb is_file events = true ->
  (if JsString.strictly_equals (USE_DB_TOKENS C) "true"
   then supabaseAdmin_configured C = false
   else Js.truthy (DROPBOX_ACCESS_TOKEN C) = false) ->
  test_upload C events s =
    (Returned
       {| reply_status := 500;
          reply_json :=
            J_upload_failed
              (if JsString.strictly_equals (USE_DB_TOKENS C) "true"
               then "Cannot read properties of null (reading 'from')"
               else "Missing DROPBOX_ACCESS_TOKEN in .env") |},
     s).
Proof.
  intros Hfile Hmis. unfold test_upload. rewrite received_from.
  cbn [received_nothing fileBuffers filename gotFile app orb]. rewrite Hfile.
  unfold test_upload_finish. cbn [gotFile negb].
  unfold try_catchB, bindB, pickDropboxToken.
  destruct (JsString.strictly_equals (USE_DB_TOKENS C) "true");
    rewrite Hmis; reflexivity.
Qed.

(** ** What the processing route never does to the accounts *)

Lemma accounts_stable_refl (w : World) : accounts_stable w w.
Proof. reflexivity. Qed.

Lemma accounts_stable_trans (a b c : World) :
  accounts_stable a b -> accounts_stable b c -> accounts_stable a c.
Proof. unfold accounts_stable. congruence. Qed.

Lemma accounts_stable_carry_out (q : Query) (error : option string) (w : World) :
  accounts_stable w (carry_out q error w).
Proof.
  unfold accounts_stable. destruct error; [reflexivity |].
  destruct q; cbn; try reflexivity; apply map_update_where; reflexivity.
Qed.

Lemma accounts_stable_log (e : Event) (w : World) : accounts_stable w (log e w).
Proof. reflexivity. Qed.

Lemma accounts_stable_removed (paths : list string) (error : option Js.Error)
  (w : World) :
  accounts_stable w (removed paths error w).
Proof. destruct error; reflexivity. Qed.

Section Stable.

Variable E : Env.

Lemma stable_request (q : Query) : preserves accounts_stable (request E q).
Proof.
  intros w. unfold request. cbn.
  eapply accounts_stable_trans;
    [apply accounts_stable_carry_out | apply accounts_stable_log].
Qed.

Lemma stable_select_single {R} (q : Query) (rows : World -> list R) :
  preserves accounts_stable (select_single E q rows).
Proof. intros w. reflexivity. Qed.

Lemma stable_select_accounts (lt : option Q) :
  preserves accounts_stable (select_accounts_by_last_used E lt).
Proof. intros w. reflexivity. Qed.

Lemma stable_new_Date : preserves accounts_stable (new_Date E).
Proof. intros w. reflexivity. Qed.

Lemma stable_perform {A} (res : Js.Error + A) (ev : Event) :
  preserves accounts_stable (perform res ev).
Proof. intros w. unfold perform. destruct res; reflexivity. Qed.

Lemma stable_storage_download (path : string) :
  preserves accounts_stable (storage_download E path).
Proof.
  intros w. unfold storage_download.
  destruct (storage_download_error E (history w) path); [| destruct (find _ _)];
    reflexivity.
Qed.

Lemma stable_storage_remove (paths : list string) :
  preserves accounts_stable (storage_remove E paths).
Proof.
  intros w. unfold storage_remove. cbn.
  eapply accounts_stable_trans;
    [apply accounts_stable_removed | apply accounts_stable_log].
Qed.

Lemma stable_usersGetCurrentAccount (dbx : Dropbox.client) :
  preserves accounts_stable (dbx_usersGetCurrentAccount E dbx).
Proof.
  intros w. unfold dbx_usersGetCurrentAccount.
  destruct (usersGetCurrentAccount E (history w) _); reflexivity.
Qed.

Lemma stable_post_oauth2_token (a b c : Js.Str) :
  preserves accounts_stable (post_oauth2_token E a b c).
Proof. intros w. unfold post_oauth2_token. apply stable_perform. Qed.

Lemma stable_filesUpload (dbx : Dropbox.client) (path : string)
  (contents : list Byte.byte) :
  preserves accounts_stable (dbx_filesUpload E dbx path contents).
Proof. intros w. unfold dbx_filesUpload. apply stable_perform. Qed.

Lemma stable_sharingCreateSharedLink (dbx : Dropbox.client) (path : string) :
  preserves accounts_stable (dbx_sharingCreateSharedLinkWithSettings E dbx path).
Proof.
  intros w. unfold dbx_sharingCreateSharedLinkWithSettings. apply stable_perform.
Qed.

Ltac stable_step :=
  first
    [ apply (preserves_bind accounts_stable accounts_stable_trans)
    | apply (preserves_try_catch accounts_stable accounts_stable_trans)
    | apply (preserves_ret accounts_stable accounts_stable_refl)
    | apply (preserves_throw accounts_stable accounts_stable_refl)
    | apply stable_request
    | apply stable_select_single
    | apply stable_select_accounts
    | apply stable_new_Date
    | apply stable_storage_download
    | apply stable_storage_remove
    | apply stable_usersGetCurrentAccount
    | apply stable_post_oauth2_token
    | apply stable_filesUpload
    | apply stable_sharingCreateSharedLink
    | match goal with
      | |- preserves _ (match ?x with _ => _ end) => destruct x
      | |- preserves _ (if ?x then _ else _) => destruct x
      | |- forall _, _ => intro
      end ].

Lemma stable_ensureAccessToken (row : dropbox_accounts.row) :
  preserves accounts_stable (ensureAccessToken E row).
Proof.
  unfold ensureAccessToken, testDropboxToken, refreshDropboxAccessToken.
  repeat stable_step.
Qed.

Lemma stable_process_found (id : string) (material : study_materials.row) :
  preserves accounts_stable (process_found E id material).
Proof.
  unfold process_found, downloadFromSupabase, getDropboxTokenFromDB,
    selectDropboxAccount, storage_file_name, upload_with_retry,
    select_account_by_id, incrementDropboxBytesUsed, select_account_bytes_used.
  repeat first [apply stable_ensureAccessToken | stable_step].
Qed.

Lemma stable_process_material (id : string) :
  preserves accounts_stable (process_material E id).
Proof.
  unfold process_material, process_material_try, process_material_catch,
    process_found, select_material_by_id, downloadFromSupabase,
    getDropboxTokenFromDB, selectDropboxAccount, storage_file_name,
    upload_with_retry, select_account_by_id, incrementDropboxBytesUsed,
    select_account_bytes_used.
  repeat first [apply stable_ensureAccessToken | stable_step].
Qed.

End Stable.

(** The processing route never adds or removes an account and never
    changes an account's id, refresh credential, app key or app secret: in
    one run, whatever the collaborators answer, and in any sequence of
    runs. *)
Theorem accounts_keep_their_core (E : Env) (id : string) (w : World) :
  accounts_stable w (snd (process_material E id w)) /\
  forall ids, accounts_stable w (serve E ids w).
Proof.
  split; [apply stable_process_material |].
  intros ids. clear id. revert w.
  induction ids as [| id ids IH]; intros w; cbn [serve].
  - apply accounts_stable_refl.
  - eapply accounts_stable_trans; [apply stable_process_material | apply IH].
Qed.

(** ** These properties on explicit inputs *)

Section Further_runs.

Import Scenario.
Import Cases.

(** Membership in the calls of a run, by running it. *)
Ltac in_run := vm_compute; repeat first [left; reflexivity | right].

Lemma ensureAccessToken_cannot_refresh_witness :
  Js.truthy (dropbox_accounts.access_token acc_empty_refresh) = false /\
  Js.truthy (dropbox_accounts.refresh_token acc_empty_refresh) = false /\
  fst (ensureAccessToken E_ok acc_empty_refresh W0) =
    Thrown (Js.new_Error
              "Dropbox access token invalid and no refresh token for account id=a5") /\
  events_since W0 (snd (ensureAccessToken E_ok acc_empty_refresh W0)) = [].
Proof.
  split; [reflexivity |]. split; [reflexivity |].
  destruct (ensureAccessToken_cannot_refresh E_ok acc_empty_refresh W0
              (or_introl eq_refl) eq_refl) as (Hres & _).
  split; [exact Hres | reflexivity].
Defined.

Lemma ensureAccessToken_returns_vouched_credential_witness :
  fst (ensureAccessToken E_ok acc_stale W0) =
    Returned {| accountRow := dropbox_accounts.set_access_token (Some "fresh") acc_stale;
                accessToken := Some "fresh" |} /\
  dropbox_accounts.refresh_token
    (dropbox_accounts.set_access_token (Some "fresh") acc_stale) = Some "r1".
Proof.
  assert (H : fst (ensureAccessToken E_ok acc_stale W0) =
              Returned {| accountRow :=
                            dropbox_accounts.set_access_token (Some "fresh") acc_stale;
                          accessToken := Some "fresh" |})
    by reflexivity.
  split; [exact H |].
  exact (proj1 (proj2 (proj2
           (ensureAccessToken_returns_vouched_credential E_ok acc_stale W0 _ H)))).
Defined.


Lemma incrementDropboxBytesUsed_fallback_forgets_usage_witness :
  dropbox_accounts.bytes_used acc_stale = Some (Qmake 1 1) /\
  In (EvStore (SelectAccountBytesUsed "a1") (Some "timeout"))
     (events_since W0 (snd (incrementDropboxBytesUsed E_no_read "a1" 1048576 W0))) /\
  forall r,
    In r (accounts (snd (incrementDropboxBytesUsed E_no_read "a1" 1048576 W0))) ->
    dropbox_accounts.id r = "a1" ->
    dropbox_accounts.bytes_used r = Some (Qplus 0 (to_mb 1048576)).
Proof.
  assert (H1 : In (EvStore (SelectAccountBytesUsed "a1") (Some "timeout"))
                 (events_since W0
                    (snd (incrementDropboxBytesUsed E_no_read "a1" 1048576 W0))))
    by in_run.
  assert (H2 : In (EvStore (UpdateAccountBytesUsed "a1" (Qplus 0 (to_mb 1048576))) None)
                 (events_since W0
                    (snd (incrementDropboxBytesUsed E_no_read "a1" 1048576 W0))))
    by in_run.
  split; [reflexivity |]. split; [exact H1 |].
  exact (proj2 (proj2 (incrementDropboxBytesUsed_fallback_forgets_usage
                         E_no_read "a1" 1048576 W0 "timeout" _ H1 H2))).
Defined.

Lemma process_material_failure_keeps_source_witness :
  fst (process_material E_retry_fails "abc" W_old) =
    Returned {| status := 500;
                body := Json_failed "Processing failed" "storage_quota_exceeded" |} /\
  records (snd (process_material E_retry_fails "abc" W_old)) = records W_old /\
  bucket (snd (process_material E_retry_fails "abc" W_old)) = bucket W_old.
Proof.
  assert (H : fst (process_material E_retry_fails "abc" W_old) =
              Returned {| status := 500;
                          body := Json_failed "Processing failed"
                                    "storage_quota_exceeded" |})
    by (vm_compute; reflexivity).
  split; [exact H |].
  destruct (process_material_failure_keeps_source E_retry_fails "abc" W_old _ H eq_refl)
    as (Hrec & Hbuc & _).
  split; [exact Hrec | exact Hbuc].
Defined.

Lemma process_material_without_storage_path_witness :
  fst (select_material_by_id E_ok "abc" W_no_path) =
    Returned (Some job_without_path, None) /\
  uploads (events_since W_no_path (snd (process_material E_ok "abc" W_no_path))) = [] /\
  exists details,
    fst (process_material E_ok "abc" W_no_path) =
      Returned {| status := 500; body := Json_failed "Processing failed" details |}.
Proof.
  assert (H : fst (select_material_by_id E_ok "abc" W_no_path) =
              Returned (Some job_without_path, None)) by reflexivity.
  split; [exact H |].
  destruct (process_material_without_storage_path E_ok "abc" W_no_path
              job_without_path H eq_refl eq_refl) as (Hresp & Hup & _).
  split; [exact Hup | exact Hresp].
Defined.

Lemma process_material_missing_blob_witness :
  fst (select_material_by_id E_ok "abc" W_done) = Returned (Some job_done, None) /\
  find (fun kv => fst kv =? "materials/x.pdf") (bucket W_done) = None /\
  accounts (snd (process_material E_ok "abc" W_done)) = accounts W_done /\
  map study_materials.processing_status
    (materials (snd (process_material E_ok "abc" W_done))) = [Some "failed"].
Proof.
  assert (H1 : fst (select_material_by_id E_ok "abc" W_done) =
               Returned (Some job_done, None)) by (vm_compute; reflexivity).
  assert (H2 : find (fun kv => fst kv =? "materials/x.pdf") (bucket W_done) = None)
    by (vm_compute; reflexivity).
  split; [exact H1 |]. split; [exact H2 |].
  destruct (process_material_missing_blob E_ok "abc" W_done job_done "materials/x.pdf"
              H1 eq_refl eq_refl H2)
    as (e & err0 & errF & _ & _ & Hacc & _).
  split; [exact Hacc | vm_compute; reflexivity].
Defined.

Lemma upload_target_witness :
  In (EvFilesUpload (Some "fresh") "/campus-files/1700000000007_x.pdf" pdf
        (inr "/campus-files/1700000000007_x.pdf"))
     (events_since W0 (snd (process_material E_ok "abc" W0))) /\
  exists source t,
    study_materials.storage_path (job 0) = Some source /\
    "/campus-files/1700000000007_x.pdf" =
      "/campus-files/" ++ Js.show_Z t ++ "_" ++ Js.split_pop source.
Proof.
  assert (H : In (EvFilesUpload (Some "fresh") "/campus-files/1700000000007_x.pdf" pdf
                    (inr "/campus-files/1700000000007_x.pdf"))
                 (events_since W0 (snd (process_material E_ok "abc" W0))))
    by in_run.
  split; [exact H |].
  destruct (upload_target E_ok "abc" W0 _ _ _ _ H)
    as (job' & source & t & kv & Hjob & Hpath & Hshape & _).
  injection Hjob as <-.
  exists source, t. split; [exact Hpath | exact Hshape].
Defined.

Lemma verifyAdmin_reads_second_word_witness :
  verifyAdmin C_ok (Some "Token tok-admin") = Next admin /\
  verifyAdmin C_ok (Some "Token tok-admin and more") =
    verifyAdmin C_ok (Some "Bearer tok-admin").
Proof.
  split; [reflexivity |].
  exact (proj2 (verifyAdmin_reads_second_word C_ok "Token" "tok-admin" "and more"
                  eq_refl eq_refl)).
Defined.

Lemma reject_material_deletes_the_job_witness :
  fst (select_material_by_id (base C_ok) "abc" (processing S0)) =
    Returned (Some (job 0), None) /\
  (exists errD rejected_at errI,
      calls_since S0
        (snd (reject_material C_ok "abc" (Some (Json.Text "duplicate")) admin S0)) =
        [CallDeleteMaterial "abc" errD;
         CallInsertRejectionLog
           (rejection_logs.mk "abc" (Some (Json.Text "duplicate"))
              (Some (Json.Text "user-1")) rejected_at) errI]) /\
  (exists errD,
      calls_since S0 (snd (reject_material C_ok "abc" None admin S0)) =
        [CallDeleteMaterial "abc" errD]) /\
  materials (processing (snd (reject_material C_ok "abc" None admin S0))) = [] /\
  fst (reject_material C_ok "abc" None admin S0) =
    Returned {| reply_status := 200;
                reply_json := J_message "Material rejected and deleted successfully" |}.
Proof.
  assert (H : fst (select_material_by_id (base C_ok) "abc" (processing S0)) =
              Returned (Some (job 0), None)) by reflexivity.
  split; [exact H |].
  split.
  - destruct (reject_material_deletes_the_job
                C_ok "abc" (Some (Json.Text "duplicate")) admin S0 (job 0) H)
      as (_ & (errD & Hcalls & _) & _).
    change (Json.truthy (Some (Json.Text "duplicate"))) with true in Hcalls.
    cbv iota in Hcalls. destruct Hcalls as (rejected_at & errI & Hcalls).
    exists errD, rejected_at, errI. exact Hcalls.
  - destruct (reject_material_deletes_the_job C_ok "abc" None admin S0 (job 0) H)
      as (Hres & (errD & Hcalls & _) & _).
    change (Json.truthy None) with false in Hcalls. cbv iota in Hcalls.
    split; [exists errD; exact Hcalls |].
    split; [reflexivity | exact Hres].
Defined.

Lemma jobs_leave_only_by_admin_rejection_witness :
  let requests :=
    [ProcessMaterial (Some "Bearer tok-student") "abc";
     RejectMaterial (Some "tok-admin") "abc" None;
     RejectMaterial (Some "Bearer tok-admin") "abc" None] in
  In "abc" (job_ids S0) /\
  job_ids (serve_admin C_ok requests S0) = [] /\
  serve_admin C_ok [ProcessMaterial (Some "Bearer tok-student") "abc";
                    RejectMaterial (Some "tok-admin") "abc" None] S0 = S0 /\
  exists authorization reason,
    In (RejectMaterial authorization "abc" reason) requests /\
    admin_header C_ok authorization.
Proof.
  cbn zeta.
  assert (Hin : In "abc" (job_ids S0)) by (left; reflexivity).
  assert (Hout : job_ids
                   (serve_admin C_ok
                      [ProcessMaterial (Some "Bearer tok-student") "abc";
                       RejectMaterial (Some "tok-admin") "abc" None;
                       RejectMaterial (Some "Bearer tok-admin") "abc" None] S0) = [])
    by (vm_compute; reflexivity).
  split; [exact Hin |]. split; [exact Hout |].
  split.
  - apply (proj1 (jobs_leave_only_by_admin_rejection C_ok
                    [ProcessMaterial (Some "Bearer tok-student") "abc";
                     RejectMaterial (Some "tok-admin") "abc" None] S0)).
    intros req [<- | [<- | []]] (header & token & secret & user & Hh & Ht & _ & Hs
                                  & _ & Hv & Hadmin);
      cbn [authorization_of] in Hh; injection Hh as <-;
      vm_compute in Ht; try discriminate Ht; injection Ht as <-.
    vm_compute in Hs. injection Hs as <-.
    vm_compute in Hv. injection Hv as <-.
    destruct Hadmin as (fields & Hf & Ha).
    vm_compute in Hf. injection Hf as <-. vm_compute in Ha. discriminate Ha.
  - apply (proj2 (jobs_leave_only_by_admin_rejection C_ok _ S0) "abc" Hin).
    rewrite Hout. intros [].
Defined.

Lemma reject_material_removes_the_blob_witness :
  fst (select_material_by_id (base C_ok) "abc" (processing S0)) =
    Returned (Some (job 0), None) /\
  exists errR,
    events_since (processing S0) (processing (snd (reject_material C_ok "abc" None admin S0))) =
      [EvStore (SelectMaterialById "abc") None;
       EvStorageRemove ["materials/x.pdf"] errR].
Proof.
  assert (H : fst (select_material_by_id (base C_ok) "abc" (processing S0)) =
              Returned (Some (job 0), None)) by reflexivity.
  split; [exact H |].
  destruct (reject_material_removes_the_blob C_ok "abc" None admin S0 (job 0) H)
    as (errR & Hevs & _).
  exists errR. exact Hevs.
Defined.

Lemma pickDropboxToken_least_used_active_witness :
  JsString.strictly_equals (USE_DB_TOKENS C_ok) "true" = true /\
  fst (pickDropboxToken C_ok S0) = Returned (Some "t2", Some "l2") /\
  calls_since S0 (snd (pickDropboxToken C_ok S0)) = [CallSelectLibAccount None].
Proof.
  split; [reflexivity |]. split; [reflexivity |].
  exact (proj1 (proj2 (pickDropboxToken_least_used_active C_ok S0
                         eq_refl eq_refl eq_refl))).
Defined.

Lemma test_upload_without_token_witness :
  existsb is_file one_file = true /\
  supabaseAdmin_configured C_unconfigured = false /\
  test_upload C_unconfigured one_file S0 =
    (Returned
       {| reply_status := 500;
          reply_json :=
            J_upload_failed "Cannot read properties of null (reading 'from')" |},
     S0).
Proof.
  split; [reflexivity |]. split; [reflexivity |].
  exact (test_upload_without_token C_unconfigured one_file S0 eq_refl eq_refl).
Defined.

End Further_runs.
